(** * Document verifier: MRZ codec, field extractor and rule engine

    A shallow embedding of the TypeScript sources [mrz-validator],
    [ocr-processor], [document-validator], [default-policy] and of the
    request handler [api/verify/route.ts], with the properties of them
    that the specification states and others that the code shows.

    Conventions of the embedding.
    - A JS string is a [string]: a sequence of 8-bit characters.  The MRZ
      alphabet, the labels searched for and every message the program
      builds are 7-bit ASCII, where the operations below agree with the JS
      ones; characters above 127 are left alone by the case mappings and
      are not white space.
    - A JS number that holds an integer is a [Z]; [NaN] is [None] in
      [option Z].  [undefined] is [None] in an option type.  The two
      quotients of the program are kept exact (a [Q], a rounded division
      in [Z]); the places say why a double gives the same results.
    - A thrown [TypeError] is [None] in the result of a function that can
      throw; such functions are proved total where the spec needs it. *)

From Stdlib Require Import ZArith Ascii String DecimalString QArith Qround.
From stdpp Require Import gmap strings list.

Local Open Scope Z_scope.

(** ** JS strings and numbers *)

Module JS.

(** [s.charCodeAt(0)] of a one-character string. *)
Definition code (c : ascii) : Z := Z.of_N (N_of_ascii c).

Definition in_range (lo hi : Z) (c : ascii) : bool :=
  (lo <=? code c) && (code c <=? hi).

Definition is_digit (c : ascii) : bool := in_range 48 57 c.
Definition is_upper (c : ascii) : bool := in_range 65 90 c.
Definition is_lower (c : ascii) : bool := in_range 97 122 c.

(** [\w] of a regular expression. *)
Definition is_word (c : ascii) : bool :=
  is_digit c || is_upper c || is_lower c || (code c =? 95).

(** White space as [trim] and [\s] see it (ASCII part). *)
Definition is_space (c : ascii) : bool :=
  in_range 9 13 c || (code c =? 32).

Definition chr (n : Z) : ascii := ascii_of_N (Z.to_N n).

Definition single (c : ascii) : string := String c EmptyString.

(** The double quote, for messages that quote a value. *)
Definition dquote : string := single (chr 34).

Definition newline : string := single (chr 10).

Fixpoint map_chars (f : ascii -> ascii) (s : string) : string :=
  match s with
  | EmptyString => EmptyString
  | String c r => String (f c) (map_chars f r)
  end.

(** [s.toUpperCase()] and [s.toLowerCase()] on 7-bit ASCII text
    ([Shape.ascii_only]); a property that needs more of the case
    mappings than their being applied to both sides of a comparison is
    stated for such text only. *)
Definition toUpperCase : string -> string :=
  map_chars (fun c => if is_lower c then chr (code c - 32) else c).

Definition toLowerCase : string -> string :=
  map_chars (fun c => if is_upper c then chr (code c + 32) else c).

Fixpoint trimStart (s : string) : string :=
  match s with
  | EmptyString => EmptyString
  | String c r => if is_space c then trimStart r else s
  end.

(** [trimEnd]: a character is kept when it is not white space or when
    something is kept after it. *)
Fixpoint trimEnd (s : string) : string :=
  match s with
  | EmptyString => EmptyString
  | String c r =>
      match trimEnd r with
      | EmptyString => if is_space c then EmptyString else single c
      | r' => String c r'
      end
  end.

Definition trim (s : string) : string := trimEnd (trimStart s).

(** [s.replace(/c/g, by)] for a one-character pattern. *)
Fixpoint replaceAll (p : ascii -> bool) (by_ : string) (s : string) : string :=
  match s with
  | EmptyString => EmptyString
  | String c r =>
      if p c then by_ +:+ replaceAll p by_ r else String c (replaceAll p by_ r)
  end.

Definition is_char (a c : ascii) : bool := code a =? code c.

(** [s.substring(a, b)]: both indices are clamped to the length and
    swapped when out of order. *)
Definition substring (a b : nat) (s : string) : string :=
  String.substring (Nat.min a b) (Nat.max a b - Nat.min a b) s.

(** [s[i]]: a one-character string, or [undefined]. *)
Definition index (s : string) (i : nat) : option string :=
  single <$> String.get i s.

(** [s.includes(sub)]. *)
Fixpoint includes (sub s : string) : bool :=
  String.prefix sub s ||
  match s with
  | EmptyString => false
  | String _ r => includes sub r
  end.

(** [s.split(sep)] for a non-empty separator: [skip] counts the
    characters of a separator still to be dropped, [cur] is the piece
    being read, reversed. *)
Fixpoint split_go (sep s : string) (skip : nat) (cur : list ascii) : list string :=
  match s with
  | EmptyString => [string_of_list_ascii (rev cur)]
  | String c r =>
      match skip with
      | S k => split_go sep r k cur
      | O =>
          if String.prefix sep s
          then string_of_list_ascii (rev cur)
                 :: split_go sep r (String.length sep - 1) []
          else split_go sep r 0 (c :: cur)
      end
  end.

Definition split (sep s : string) : list string := split_go sep s 0 [].

(** [String(x)] of a value that is a string or [undefined]. *)
Definition str_of (o : option string) : string := default "undefined" o.

(** [String(n)] of an integer. *)
Definition of_Z (n : Z) : string := NilEmpty.string_of_int (Z.to_int n).

(** [String(n)] of a number. *)
Definition of_number (n : option Z) : string :=
  match n with Some z => of_Z z | None => "NaN" end.

(** *** [parseInt] *)

Definition digit_val (radix : Z) (c : ascii) : option Z :=
  let v := if is_digit c then code c - 48
           else if is_lower c then code c - 87
           else if is_upper c then code c - 55
           else radix in
  if v <? radix then Some v else None.

(** The digits at the head of [s], read in [radix]; [None] when there
    is none. *)
Fixpoint digits (radix : Z) (s : string) (acc : option Z) : option Z :=
  match s with
  | EmptyString => acc
  | String c r =>
      match digit_val radix c with
      | Some v => digits radix r (Some (default 0 acc * radix + v))
      | None => acc
      end
  end.

Definition unsigned_int (s : string) : option Z :=
  match s with
  | String z (String x r) =>
      if is_char "0" z && (is_char "x" x || is_char "X" x)
      then digits 16 r None
      else digits 10 s None
  | _ => digits 10 s None
  end.

(** [parseInt(s)]: leading white space, a sign, a hexadecimal prefix,
    then the longest run of digits; [NaN] when there is no digit. *)
Definition parseInt (s : string) : option Z :=
  match trimStart s with
  | String c r =>
      if is_char "-" c then Z.opp <$> unsigned_int r
      else if is_char "+" c then unsigned_int r
      else unsigned_int (String c r)
  | EmptyString => None
  end.

(** [a || b] on strings and on values that may be [undefined]: the
    empty string and [undefined] are falsy. *)
Definition truthy (o : option string) : bool :=
  match o with
  | Some (String _ _) => true
  | _ => false
  end.

Definition or_else (o : option string) (d : string) : string :=
  match o with
  | Some (String c r) => String c r
  | _ => d
  end.

End JS.

(** ** The MRZ codec ([MRZValidator]) *)

(** The loosely typed [parsedData] object: every property the codec may
    assign.  [None] is a property that was never assigned, or that holds
    [undefined]; the two read the same. *)
Record ParsedData := {
  pd_documentType : option string;
  pd_issuingCountry : option string;
  pd_surname : option string;
  pd_givenNames : option string;
  pd_documentNumber : option string;
  pd_nationality : option string;
  pd_dateOfBirth : option string;
  pd_sex : option string;
  pd_expiryDate : option string
}.

(** The object literal [{}]. *)
Definition emptyParsed : ParsedData :=
  {| pd_documentType := None; pd_issuingCountry := None; pd_surname := None;
     pd_givenNames := None; pd_documentNumber := None; pd_nationality := None;
     pd_dateOfBirth := None; pd_sex := None; pd_expiryDate := None |}.

Record MRZResult := {
  valid : bool;
  errors : list string;
  parsedData : ParsedData
}.

Module MRZValidator.
Import JS.

Definition WEIGHTS : list Z := [7; 3; 1].

(** [charValue]; on a digit [parseInt(char)] is the digit's value
    (lemma [parseInt_digit]). *)
Definition charValue (c : ascii) : Z :=
  if in_range 48 57 c then code c - 48
  else if in_range 65 90 c then code c - 65 + 10
  else if is_char "<" c then 0
  else 0.

(** The loop of [calculateCheckDigit], from index [i] with [sum] so far. *)
Fixpoint check_loop (data : string) (i : nat) (sum : Z) : Z :=
  match data with
  | EmptyString => sum
  | String c r =>
      check_loop r (S i) (sum + charValue c * default 0 (WEIGHTS !! (i mod 3)%nat))
  end.

Definition calculateCheckDigit (data : string) : Z :=
  check_loop data 0 0 mod 10.

(** [parseMRZDate]. *)
Definition parseMRZDate (mrzDate : string) : string :=
  if negb (String.length mrzDate =? 6)%nat then EmptyString
  else
    let year := parseInt (substring 0 2 mrzDate) in
    let month := substring 2 4 mrzDate in
    let day := substring 4 6 mrzDate in
    let fullYear :=
      match year with
      | Some y => Some (if 50 <? y then 1900 + y else 2000 + y)
      | None => None
      end in
    of_number fullYear +:+ "-" +:+ month +:+ "-" +:+ day.

(** The test [check !== '<' && parseInt(check) !== calc]. *)
Definition check_fails (check : option string) (calc : Z) : bool :=
  negb (bool_decide (check = Some "<"))
  && negb (bool_decide (parseInt (str_of check) = Some calc)).

(** [if (c) errors.push(msg)]. *)
Definition push_if (c : bool) (msg : string) (errors : list string) : list string :=
  if c then errors ++ [msg] else errors.

Definition strip_filler : string -> string :=
  replaceAll (is_char "<") EmptyString.

Definition filler_to_space : string -> string :=
  replaceAll (is_char "<") " ".

Definition length_msg (n : nat) (line : string) (expected : string) : string :=
  "Line " +:+ of_Z (Z.of_nat n) +:+ " length invalid: "
    +:+ of_Z (Z.of_nat (String.length line)) +:+ ", expected " +:+ expected.

Definition digit_msg (what : string) (calc : Z) (got : option string) : string :=
  what +:+ " check digit failed: expected " +:+ of_Z calc
    +:+ ", got " +:+ str_of got.

(** *** Property assignments [parsedData.f = v] *)

Definition set_documentType (v : string) (p : ParsedData) : ParsedData :=
  {| pd_documentType := Some v; pd_issuingCountry := pd_issuingCountry p;
     pd_surname := pd_surname p; pd_givenNames := pd_givenNames p;
     pd_documentNumber := pd_documentNumber p; pd_nationality := pd_nationality p;
     pd_dateOfBirth := pd_dateOfBirth p; pd_sex := pd_sex p;
     pd_expiryDate := pd_expiryDate p |}.

Definition set_issuingCountry (v : string) (p : ParsedData) : ParsedData :=
  {| pd_documentType := pd_documentType p; pd_issuingCountry := Some v;
     pd_surname := pd_surname p; pd_givenNames := pd_givenNames p;
     pd_documentNumber := pd_documentNumber p; pd_nationality := pd_nationality p;
     pd_dateOfBirth := pd_dateOfBirth p; pd_sex := pd_sex p;
     pd_expiryDate := pd_expiryDate p |}.

Definition set_surname (v : string) (p : ParsedData) : ParsedData :=
  {| pd_documentType := pd_documentType p; pd_issuingCountry := pd_issuingCountry p;
     pd_surname := Some v; pd_givenNames := pd_givenNames p;
     pd_documentNumber := pd_documentNumber p; pd_nationality := pd_nationality p;
     pd_dateOfBirth := pd_dateOfBirth p; pd_sex := pd_sex p;
     pd_expiryDate := pd_expiryDate p |}.

Definition set_givenNames (v : string) (p : ParsedData) : ParsedData :=
  {| pd_documentType := pd_documentType p; pd_issuingCountry := pd_issuingCountry p;
     pd_surname := pd_surname p; pd_givenNames := Some v;
     pd_documentNumber := pd_documentNumber p; pd_nationality := pd_nationality p;
     pd_dateOfBirth := pd_dateOfBirth p; pd_sex := pd_sex p;
     pd_expiryDate := pd_expiryDate p |}.

Definition set_documentNumber (v : string) (p : ParsedData) : ParsedData :=
  {| pd_documentType := pd_documentType p; pd_issuingCountry := pd_issuingCountry p;
     pd_surname := pd_surname p; pd_givenNames := pd_givenNames p;
     pd_documentNumber := Some v; pd_nationality := pd_nationality p;
     pd_dateOfBirth := pd_dateOfBirth p; pd_sex := pd_sex p;
     pd_expiryDate := pd_expiryDate p |}.

Definition set_nationality (v : string) (p : ParsedData) : ParsedData :=
  {| pd_documentType := pd_documentType p; pd_issuingCountry := pd_issuingCountry p;
     pd_surname := pd_surname p; pd_givenNames := pd_givenNames p;
     pd_documentNumber := pd_documentNumber p; pd_nationality := Some v;
     pd_dateOfBirth := pd_dateOfBirth p; pd_sex := pd_sex p;
     pd_expiryDate := pd_expiryDate p |}.

Definition set_dateOfBirth (v : string) (p : ParsedData) : ParsedData :=
  {| pd_documentType := pd_documentType p; pd_issuingCountry := pd_issuingCountry p;
     pd_surname := pd_surname p; pd_givenNames := pd_givenNames p;
     pd_documentNumber := pd_documentNumber p; pd_nationality := pd_nationality p;
     pd_dateOfBirth := Some v; pd_sex := pd_sex p;
     pd_expiryDate := pd_expiryDate p |}.

(** [parsedData.sex = line[i]] may store [undefined]. *)
Definition set_sex (v : option string) (p : ParsedData) : ParsedData :=
  {| pd_documentType := pd_documentType p; pd_issuingCountry := pd_issuingCountry p;
     pd_surname := pd_surname p; pd_givenNames := pd_givenNames p;
     pd_documentNumber := pd_documentNumber p; pd_nationality := pd_nationality p;
     pd_dateOfBirth := pd_dateOfBirth p; pd_sex := v;
     pd_expiryDate := pd_expiryDate p |}.

Definition set_expiryDate (v : string) (p : ParsedData) : ParsedData :=
  {| pd_documentType := pd_documentType p; pd_issuingCountry := pd_issuingCountry p;
     pd_surname := pd_surname p; pd_givenNames := pd_givenNames p;
     pd_documentNumber := pd_documentNumber p; pd_nationality := pd_nationality p;
     pd_dateOfBirth := pd_dateOfBirth p; pd_sex := pd_sex p;
     pd_expiryDate := Some v |}.

(** [x?.replace(/</g, ' ').trim() || ''] *)
Definition name_part (x : option string) : string :=
  or_else ((fun s => trim (filler_to_space s)) <$> x) EmptyString.

(** [validateTD3].  Reading [.length] of a missing line would throw. *)
Definition validateTD3 (mrzLines : list string) (errors : list string)
    (parsedData : ParsedData) : option MRZResult :=
  line1 ← mrzLines !! 0%nat;
  line2 ← mrzLines !! 1%nat;
  let errors := push_if (negb (String.length line1 =? 44)%nat)
                  (length_msg 1 line1 "44") errors in
  let errors := push_if (negb (String.length line2 =? 44)%nat)
                  (length_msg 2 line2 "44") errors in
  let parsedData := set_documentType (strip_filler (substring 0 2 line1)) parsedData in
  let parsedData := set_issuingCountry (strip_filler (substring 2 5 line1)) parsedData in
  name0 ← split "<<" (substring 5 44 line1) !! 0%nat;
  let parsedData := set_surname (trim (filler_to_space name0)) parsedData in
  let parsedData :=
    set_givenNames (name_part (split "<<" (substring 5 44 line1) !! 1%nat)) parsedData in
  let parsedData := set_documentNumber (strip_filler (substring 0 9 line2)) parsedData in
  let docNumCheck := index line2 9 in
  let docNumCalc := calculateCheckDigit (substring 0 9 line2) in
  let errors := push_if (check_fails docNumCheck docNumCalc)
                  (digit_msg "Document number" docNumCalc docNumCheck) errors in
  let parsedData := set_nationality (strip_filler (substring 10 13 line2)) parsedData in
  let dobStr := substring 13 19 line2 in
  let parsedData := set_dateOfBirth (parseMRZDate dobStr) parsedData in
  let dobCheck := index line2 19 in
  let dobCalc := calculateCheckDigit dobStr in
  let errors := push_if (check_fails dobCheck dobCalc)
                  (digit_msg "Date of birth" dobCalc dobCheck) errors in
  let parsedData := set_sex (index line2 20) parsedData in
  let expStr := substring 21 27 line2 in
  let parsedData := set_expiryDate (parseMRZDate expStr) parsedData in
  let expCheck := index line2 27 in
  let expCalc := calculateCheckDigit expStr in
  let errors := push_if (check_fails expCheck expCalc)
                  (digit_msg "Expiry date" expCalc expCheck) errors in
  let personalNum := substring 28 42 line2 in
  let personalNumCheck := index line2 42 in
  let personalNumCalc := calculateCheckDigit personalNum in
  let errors := push_if (truthy (Some (strip_filler personalNum))
                         && check_fails personalNumCheck personalNumCalc)
                  (digit_msg "Personal number" personalNumCalc personalNumCheck) errors in
  let compositeStr :=
    substring 0 10 line2 +:+ substring 13 20 line2 +:+ substring 21 43 line2 in
  let compositeCheck := index line2 43 in
  let compositeCalc := calculateCheckDigit compositeStr in
  let errors := push_if (check_fails compositeCheck compositeCalc)
                  (digit_msg "Composite" compositeCalc compositeCheck) errors in
  Some {| valid := bool_decide (length errors = 0%nat);
          errors := errors; parsedData := parsedData |}.

(** [validateTD1]. *)
Definition validateTD1 (mrzLines : list string) (errors : list string)
    (parsedData : ParsedData) : option MRZResult :=
  line1 ← mrzLines !! 0%nat;
  line2 ← mrzLines !! 1%nat;
  line3 ← mrzLines !! 2%nat;
  let errors := push_if (negb (String.length line1 =? 30)%nat)
                  (length_msg 1 line1 "30") errors in
  let errors := push_if (negb (String.length line2 =? 30)%nat)
                  (length_msg 2 line2 "30") errors in
  let errors := push_if (negb (String.length line3 =? 30)%nat)
                  (length_msg 3 line3 "30") errors in
  let parsedData := set_documentType (strip_filler (substring 0 2 line1)) parsedData in
  let parsedData := set_issuingCountry (strip_filler (substring 2 5 line1)) parsedData in
  let parsedData := set_documentNumber (strip_filler (substring 5 14 line1)) parsedData in
  let docNumCheck := index line1 14 in
  let docNumCalc := calculateCheckDigit (substring 5 14 line1) in
  let errors := push_if (check_fails docNumCheck docNumCalc)
                  "Document number check digit failed" errors in
  let dobStr := substring 0 6 line2 in
  let parsedData := set_dateOfBirth (parseMRZDate dobStr) parsedData in
  let dobCheck := index line2 6 in
  let dobCalc := calculateCheckDigit dobStr in
  let errors := push_if (check_fails dobCheck dobCalc)
                  "Date of birth check digit failed" errors in
  let parsedData := set_sex (index line2 7) parsedData in
  let expStr := substring 8 14 line2 in
  let parsedData := set_expiryDate (parseMRZDate expStr) parsedData in
  let expCheck := index line2 14 in
  let expCalc := calculateCheckDigit expStr in
  let errors := push_if (check_fails expCheck expCalc)
                  "Expiry date check digit failed" errors in
  let parsedData := set_nationality (strip_filler (substring 15 18 line2)) parsedData in
  let names := split "<<" (substring 0 30 line3) in
  let parsedData := set_surname (name_part (names !! 0%nat)) parsedData in
  let parsedData := set_givenNames (name_part (names !! 1%nat)) parsedData in
  Some {| valid := bool_decide (length errors = 0%nat);
          errors := errors; parsedData := parsedData |}.

(** [validateMRZ]: the dispatch on the number of lines. *)
Definition validateMRZ (mrzLines : list string) : option MRZResult :=
  let errors : list string := [] in
  let parsedData := emptyParsed in
  if bool_decide (length mrzLines = 2%nat) then validateTD3 mrzLines errors parsedData
  else if bool_decide (length mrzLines = 3%nat) then validateTD1 mrzLines errors parsedData
  else
    let errors := errors ++ ["Invalid MRZ format - expected 2 or 3 lines"] in
    Some {| valid := false; errors := errors; parsedData := parsedData |}.

End MRZValidator.


(** ** The host: clock, time zone and [Date] *)

(** Proleptic Gregorian calendar, days counted from 1970-01-01
    (months are 1..12 here). *)
Module Calendar.

Definition msPerDay : Z := 86400000.

Definition days_from_civil (y m d : Z) : Z :=
  let y' := if m <=? 2 then y - 1 else y in
  let era := y' / 400 in
  let yoe := y' - era * 400 in
  let mp := (m + 9) mod 12 in
  let doy := (153 * mp + 2) / 5 + d - 1 in
  let doe := yoe * 365 + yoe / 4 - yoe / 100 + doy in
  era * 146097 + doe - 719468.

Definition civil_from_days (z : Z) : Z * Z * Z :=
  let z := z + 719468 in
  let era := z / 146097 in
  let doe := z - era * 146097 in
  let yoe := (doe - doe / 1460 + doe / 36524 - doe / 146096) / 365 in
  let doy := doe - (365 * yoe + yoe / 4 - yoe / 100) in
  let mp := (5 * doy + 2) / 153 in
  let d := doy - (153 * mp + 2) / 5 + 1 in
  let m := if mp <? 10 then mp + 3 else mp - 9 in
  (if m <=? 2 then yoe + era * 400 + 1 else yoe + era * 400, m, d).

Definition is_leap (y : Z) : bool :=
  ((y mod 4 =? 0) && negb (y mod 100 =? 0)) || (y mod 400 =? 0).

Definition days_in_month (y m : Z) : Z :=
  if m =? 2 then (if is_leap y then 29 else 28)
  else if (m =? 4) || (m =? 6) || (m =? 9) || (m =? 11) then 30
  else 31.

End Calendar.

(** What the program reads from its JS engine.  [now] is the time value
    of [new Date()], in milliseconds; [tzOffset t] is the offset of local
    time from UTC at [t]; [parseOther] is the engine's answer on a string
    that is not a well-formed date-only form [YYYY-MM-DD] (the other ISO
    forms and the implementation-defined fallbacks), [None] being an
    Invalid Date. *)
Record Host := {
  now : Z;
  tzOffset : Z -> Z;
  parseOther : string -> option Z
}.

Module JSDate.
Import JS Calendar.

Definition all_digits (s : string) : bool :=
  bool_decide (replaceAll is_digit EmptyString s = EmptyString).

(** The date-only form: midnight UTC of a valid calendar date. *)
Definition parse_date_only (s : string) : option Z :=
  let ys := substring 0 4 s in
  let ms := substring 5 7 s in
  let ds := substring 8 10 s in
  if (String.length s =? 10)%nat
     && bool_decide (index s 4 = Some "-") && bool_decide (index s 7 = Some "-")
     && all_digits ys && all_digits ms && all_digits ds
  then
    y ← digits 10 ys None; m ← digits 10 ms None; d ← digits 10 ds None;
    if (1 <=? m) && (m <=? 12) && (1 <=? d) && (d <=? days_in_month y m)
    then Some (days_from_civil y m d * msPerDay) else None
  else None.

(** [new Date(s)]: the time value, [None] for an Invalid Date.  The
    constructor never throws on a string. *)
Definition parse (h : Host) (s : string) : option Z :=
  match parse_date_only s with
  | Some t => Some t
  | None => parseOther h s
  end.

Definition local_civil (h : Host) (t : Z) : Z * Z * Z :=
  civil_from_days ((t + tzOffset h t) / msPerDay).

Definition getFullYear (h : Host) (d : option Z) : option Z :=
  (fun t => (local_civil h t).1.1) <$> d.

(** Months are 0..11 in JS. *)
Definition getMonth (h : Host) (d : option Z) : option Z :=
  (fun t => (local_civil h t).1.2 - 1) <$> d.

Definition getDate (h : Host) (d : option Z) : option Z :=
  (fun t => (local_civil h t).2) <$> d.

Definition pad (width : nat) (n : Z) : string :=
  let s := of_Z n in
  String.concat EmptyString (replicate (width - String.length s)%nat "0") +:+ s.

(** [new Date().toISOString().split('T')[0]]; years outside 0..9999 are
    printed with a sign and six digits. *)
Definition today_iso (h : Host) : string :=
  let '(y, m, d) := civil_from_days (now h / msPerDay) in
  let ystr := if (0 <=? y) && (y <=? 9999) then pad 4 y
              else (if y <? 0 then "-" else "+") +:+ pad 6 (Z.abs y) in
  ystr +:+ "-" +:+ pad 2 m +:+ "-" +:+ pad 2 d.

End JSDate.

(** Arithmetic and comparison of JS numbers: anything with [NaN] is
    [NaN], every comparison with [NaN] is false. *)
Module Num.
Definition sub (a b : option Z) : option Z :=
  x ← a; y ← b; Some (x - y).
Definition lt (a b : option Z) : bool :=
  match a, b with Some x, Some y => x <? y | _, _ => false end.
Definition ge (a b : option Z) : bool :=
  match a, b with Some x, Some y => y <=? x | _, _ => false end.
Definition le (a b : option Z) : bool :=
  match a, b with Some x, Some y => x <=? y | _, _ => false end.
Definition eq (a b : option Z) : bool :=
  match a, b with Some x, Some y => x =? y | _, _ => false end.
(** [a || d] where [a] may be [undefined]: [0] is falsy as well. *)
Definition or_else (a : option Z) (d : Z) : Z :=
  match a with
  | Some x => if x =? 0 then d else x
  | None => d
  end.
End Num.

(** [try { body } catch { handler }]: [None] is a throw inside [body]. *)
Definition try_catch {A} (body : option A) (handler : A) : A :=
  default handler body.

(** ** Types ([types.ts]) *)

Record ExtractedField := { value : string; confidence : Z }.

Record ExtractedData := {
  documentType : ExtractedField;
  documentNumber : ExtractedField;
  surname : ExtractedField;
  givenNames : ExtractedField;
  nationality : ExtractedField;
  dateOfBirth : ExtractedField;
  sex : ExtractedField;
  placeOfBirth : option ExtractedField;
  issuingCountry : ExtractedField;
  issueDate : ExtractedField;
  expiryDate : ExtractedField;
  mrzLine1 : option ExtractedField;
  mrzLine2 : option ExtractedField;
  mrzLine3 : option ExtractedField
}.

Record ApplicantData := {
  name : string;
  ap_dateOfBirth : string;
  passportNumber : string;
  ap_nationality : string;
  intendedVisaType : string
}.

(** [ValidationCheck] and [EligibilityCheck] have the same shape. *)
Record Check := { check : string; passed : bool; message : string }.

Record VisaTypeRequirement := {
  vt_minAge : option Z;
  vt_allowedNationalities : option (list string);
  vt_additionalRequirements : option (list string)
}.

Record EligibilityPolicy := {
  minAge : Z;
  maxAge : Z;
  allowedNationalities : list string;
  blockedNationalities : list string;
  requiredDocumentTypes : list string;
  minValidityMonths : Z;
  visaTypeRequirements : gmap string VisaTypeRequirement
}.

(** [default-policy.ts] *)
Definition defaultEligibilityPolicy : EligibilityPolicy := {|
  minAge := 18;
  maxAge := 120;
  allowedNationalities := [];
  blockedNationalities := ["PRK"];
  requiredDocumentTypes := ["P"; "I"];
  minValidityMonths := 6;
  visaTypeRequirements :=
    {[ "tourist" :=
         {| vt_minAge := Some 18; vt_allowedNationalities := Some [];
            vt_additionalRequirements :=
              Some ["Valid passport"; "Proof of accommodation"] |};
       "business" :=
         {| vt_minAge := Some 21; vt_allowedNationalities := Some [];
            vt_additionalRequirements :=
              Some ["Valid passport"; "Business invitation letter"] |};
       "student" :=
         {| vt_minAge := Some 16; vt_allowedNationalities := Some [];
            vt_additionalRequirements :=
              Some ["Valid passport"; "Letter of acceptance from institution"] |};
       "work" :=
         {| vt_minAge := Some 18; vt_allowedNationalities := Some [];
            vt_additionalRequirements :=
              Some ["Valid passport"; "Job offer letter"; "Work permit"] |} ]}
|}.

(** ** The rule engine ([DocumentValidator]) *)

(** The value read by [obj[key]] on a plain object: an own property, a
    member inherited from [Object.prototype] (a function or the
    prototype itself: truthy, with none of the properties the checks
    read), or [undefined]. *)
Inductive PropRead (A : Type) :=
| Own (a : A)
| Inherited
| Undefined.
Arguments Own {A} a.
Arguments Inherited {A}.
Arguments Undefined {A}.

Definition objectPrototypeKeys : list string :=
  ["constructor"; "__proto__"; "hasOwnProperty"; "isPrototypeOf";
   "propertyIsEnumerable"; "toLocaleString"; "toString"; "valueOf";
   "__defineGetter__"; "__defineSetter__"; "__lookupGetter__";
   "__lookupSetter__"].

Definition read_prop {A} (obj : gmap string A) (key : string) : PropRead A :=
  match obj !! key with
  | Some a => Own a
  | None => if bool_decide (key ∈ objectPrototypeKeys) then Inherited else Undefined
  end.

Module DocumentValidator.
Import JS.

(** [arr.includes(x)] on an array of strings. *)
Definition arr_includes (arr : list string) (x : string) : bool :=
  bool_decide (x ∈ arr).

(** [checkDocumentExpiry].  Nothing in the [try] block can throw. *)
Definition checkDocumentExpiry (h : Host) (data : ExtractedData) : Check :=
  try_catch
    (let expiry := JSDate.parse h (value (expiryDate data)) in
     let today := Some (now h) in
     let isExpired := Num.lt expiry today in
     Some {| check := "Document Expiry";
             passed := negb isExpired;
             message :=
               if isExpired
               then "Document expired on " +:+ value (expiryDate data)
               else "Document valid until " +:+ value (expiryDate data) |})
    {| check := "Document Expiry"; passed := false;
       message := "Invalid expiry date format" |}.

(** [checkNameMatch]. *)
Definition checkNameMatch (data : ExtractedData) (applicant : ApplicantData) : Check :=
  let extractedFullName :=
    trim (toLowerCase (value (givenNames data) +:+ " " +:+ value (surname data))) in
  let applicantName := trim (toLowerCase (name applicant)) in
  let match_ := bool_decide (extractedFullName = applicantName) in
  {| check := "Name Match";
     passed := match_;
     message :=
       if match_ then "Applicant name matches document"
       else "Name mismatch: Document shows " +:+ dquote +:+ extractedFullName
              +:+ dquote +:+ ", applicant claims " +:+ dquote +:+ applicantName
              +:+ dquote |}.

(** The age computed by [checkAgeConsistency] and [checkAgeRequirements]. *)
Definition age_of (h : Host) (dob today : option Z) : option Z :=
  let age := Num.sub (JSDate.getFullYear h today) (JSDate.getFullYear h dob) in
  let monthDiff := Num.sub (JSDate.getMonth h today) (JSDate.getMonth h dob) in
  if Num.lt monthDiff (Some 0)
     || (Num.eq monthDiff (Some 0)
         && Num.lt (JSDate.getDate h today) (JSDate.getDate h dob))
  then Num.sub age (Some 1)
  else age.

(** [visaTypeReq?.minAge]. *)
Definition req_minAge (r : PropRead VisaTypeRequirement) : option Z :=
  match r with
  | Own v => vt_minAge v
  | Inherited | Undefined => None
  end.

(** [checkAgeRequirements]. *)
Definition checkAgeRequirements (h : Host) (data : ExtractedData)
    (applicant : ApplicantData) (policy : EligibilityPolicy) : Check :=
  try_catch
    (let dob := JSDate.parse h (value (dateOfBirth data)) in
     let today := Some (now h) in
     let age := age_of h dob today in
     let visaTypeReq :=
       read_prop (visaTypeRequirements policy) (intendedVisaType applicant) in
     let minAge := Num.or_else (req_minAge visaTypeReq) (minAge policy) in
     let maxAge := maxAge policy in
     let meetsAge := Num.ge age (Some minAge) && Num.le age (Some maxAge) in
     Some {| check := "Age Requirements";
             passed := meetsAge;
             message :=
               "Age " +:+ of_number age +:+
               (if meetsAge then " meets requirements ("
                else " does not meet requirements (")
               +:+ of_Z minAge +:+ "-" +:+ of_Z maxAge +:+ ")" |})
    {| check := "Age Requirements"; passed := false;
       message := "Unable to verify age requirements" |}.

(** [checkNationalityEligibility]. *)
Definition checkNationalityEligibility (data : ExtractedData)
    (policy : EligibilityPolicy) : Check :=
  let nationality := value (nationality data) in
  if arr_includes (blockedNationalities policy) nationality then
    {| check := "Nationality Eligibility"; passed := false;
       message := "Nationality " +:+ nationality +:+ " is not eligible for visa" |}
  else if (0 <? Z.of_nat (length (allowedNationalities policy)))
          && negb (arr_includes (allowedNationalities policy) nationality) then
    {| check := "Nationality Eligibility"; passed := false;
       message := "Nationality " +:+ nationality +:+ " is not in allowed list" |}
  else
    {| check := "Nationality Eligibility"; passed := true;
       message := "Nationality " +:+ nationality +:+ " is eligible" |}.

(** [visaTypeReq.allowedNationalities]: an array, however short, is
    truthy. *)
Definition req_allowed (r : PropRead VisaTypeRequirement) : option (list string) :=
  match r with
  | Own v => vt_allowedNationalities v
  | Inherited | Undefined => None
  end.

(** [checkVisaTypeRequirements]. *)
Definition checkVisaTypeRequirements (data : ExtractedData)
    (applicant : ApplicantData) (policy : EligibilityPolicy) : Check :=
  let visaTypeReq :=
    read_prop (visaTypeRequirements policy) (intendedVisaType applicant) in
  match visaTypeReq with
  | Undefined =>
      {| check := "Visa Type Requirements"; passed := true;
         message := "No specific requirements for visa type: "
                      +:+ intendedVisaType applicant |}
  | _ =>
      let nationality := value (nationality data) in
      match req_allowed visaTypeReq with
      | Some allowed =>
          if negb (arr_includes allowed nationality) then
            {| check := "Visa Type Requirements"; passed := false;
               message := "Nationality " +:+ nationality +:+ " not eligible for "
                            +:+ intendedVisaType applicant +:+ " visa" |}
          else
            {| check := "Visa Type Requirements"; passed := true;
               message := "Meets all requirements for "
                            +:+ intendedVisaType applicant +:+ " visa" |}
      | None =>
          {| check := "Visa Type Requirements"; passed := true;
             message := "Meets all requirements for "
                          +:+ intendedVisaType applicant +:+ " visa" |}
      end
  end.

End DocumentValidator.

(** ** Regular expressions

    A backtracking matcher for the fragment the program's patterns use,
    with the JS order of alternatives: a greedy bounded repetition tries
    one more round before it lets the rest of the pattern go on. *)
Module Regex.
Import JS.

Inductive re :=
| Eps
| Class (p : ascii -> bool)
| Seq (r1 r2 : re)
| Rep (r : re) (lo : nat) (hi : option nat)
| Group (r : re)
| WordB
| Bol
| Eol.

Definition head_char (s : string) : option ascii :=
  match s with String c _ => Some c | EmptyString => None end.

Definition word_at (c : option ascii) : bool :=
  match c with Some a => is_word a | None => false end.

(** The text between two suffixes [s] and [s'] of the subject. *)
Definition consumed (s s' : string) : string :=
  String.substring 0 (String.length s - String.length s') s.

(** [run r prev s caps k]: match [r] at [s], whose previous character
    is [prev], with the groups closed so far in [caps]; [k] is the rest
    of the pattern. *)
Fixpoint run {R} (r : re) (prev : option ascii) (s : string) (caps : list string)
    (k : option ascii -> string -> list string -> option R) : option R :=
  match r with
  | Eps => k prev s caps
  | Class p =>
      match s with
      | String c rest => if p c then k (Some c) rest caps else None
      | EmptyString => None
      end
  | Seq r1 r2 => run r1 prev s caps (fun p' s' c' => run r2 p' s' c' k)
  | Rep r lo hi =>
      (fix loop (n lo : nat) (prev : option ascii) (s : string)
           (caps : list string) {struct n} : option R :=
         let stop := if (lo =? 0)%nat then k prev s caps else None in
         match n with
         | O => stop
         | S n' =>
             match run r prev s caps (fun p' s' c' => loop n' (pred lo) p' s' c') with
             | Some x => Some x
             | None => stop
             end
         end) (default (String.length s) hi) lo prev s caps
  | Group r => run r prev s caps (fun p' s' c' => k p' s' (c' ++ [consumed s s']))
  | WordB =>
      if xorb (word_at prev) (word_at (head_char s)) then k prev s caps else None
  | Bol => match prev with None => k prev s caps | Some _ => None end
  | Eol => match s with EmptyString => k prev s caps | String _ _ => None end
  end.

(** The leftmost match at or after the start of [s]: the matched text
    and the groups. *)
Fixpoint search (r : re) (prev : option ascii) (s : string)
    : option (string * list string) :=
  match run r prev s [] (fun _ s' c => Some (consumed s s', c)) with
  | Some m => Some m
  | None =>
      match s with
      | String c rest => search r (Some c) rest
      | EmptyString => None
      end
  end.

(** [s.match(r)] without the [g] flag; with it, the first element of
    the result is the same matched text. *)
Definition match_ (r : re) (s : string) : option (string * list string) :=
  search r None s.

(** [r.test(s)]. *)
Definition test (r : re) (s : string) : bool :=
  bool_decide (is_Some (match_ r s)).

Definition times (n : nat) (r : re) : re := Rep r n (Some n).
Definition between (lo hi : nat) (r : re) : re := Rep r lo (Some hi).
Definition plus (r : re) : re := Rep r 1 None.
Definition lit (c : ascii) : re := Class (is_char c).

End Regex.

(** ** The field extractor ([OCRProcessor]) *)

Module OCRProcessor.
Import JS Regex.

(** [/^[A-Z0-9<]+$/] *)
Definition mrz_alphabet (c : ascii) : bool :=
  is_upper c || is_digit c || is_char "<" c.
Definition re_mrz_line : re := Seq Bol (Seq (plus (Class mrz_alphabet)) Eol).

(** [/[A-Z]{1,2}\d{7,9}/] *)
Definition re_document_number : re :=
  Seq (between 1 2 (Class is_upper)) (between 7 9 (Class is_digit)).

(** [/\b([A-Z]{3})\b/] *)
Definition re_code3 : re :=
  Seq WordB (Seq (Group (times 3 (Class is_upper))) WordB).

Definition date_sep (c : ascii) : bool :=
  is_char "/" c || is_char "-" c || is_char "." c.

(** [/(\d{1,2})[\/\-\.](\d{1,2})[\/\-\.](\d{2,4})/] *)
Definition re_dmy : re :=
  Seq (Group (between 1 2 (Class is_digit)))
    (Seq (Class date_sep)
       (Seq (Group (between 1 2 (Class is_digit)))
          (Seq (Class date_sep) (Group (between 2 4 (Class is_digit)))))).

(** [/(\d{4})-(\d{2})-(\d{2})/] *)
Definition re_iso : re :=
  Seq (Group (times 4 (Class is_digit)))
    (Seq (lit "-")
       (Seq (Group (times 2 (Class is_digit)))
          (Seq (lit "-") (Group (times 2 (Class is_digit)))))).

(** [/\bM\b/] and [/\bF\b/] *)
Definition re_word (c : ascii) : re := Seq WordB (Seq (lit c) WordB).

(** [extractMRZ]. *)
Definition extractMRZ (text : string) : list string :=
  let lines := trim <$> split newline text in
  foldl (fun mrzLines line =>
           let cleanLine := toUpperCase (replaceAll is_space EmptyString line) in
           if (String.length cleanLine =? 44)%nat && test re_mrz_line cleanLine
           then mrzLines ++ [cleanLine]
           else if (String.length cleanLine =? 30)%nat && test re_mrz_line cleanLine
           then mrzLines ++ [cleanLine]
           else mrzLines)
        [] lines.

(** [extractDocumentType]. *)
Definition extractDocumentType (text : string) : string :=
  let upper := toUpperCase text in
  if includes "PASSPORT" upper then "P"
  else if includes "VISA" upper then "V"
  else if includes "IDENTITY" upper || includes "ID CARD" upper then "I"
  else if includes "DRIVING" upper || includes "LICENSE" upper
          || includes "LICENCE" upper then "D"
  else "P".

(** [extractPattern]: [match[1] || match[0]]. *)
Definition extractPattern (text : string) (pattern : re) : string :=
  match match_ pattern text with
  | Some (m0, groups) => or_else (groups !! 0%nat) m0
  | None => EmptyString
  end.

(** The loop shared by [extractSurname] and [extractGivenNames]: the
    first line with one of the labels and a colon gives the value. *)
Fixpoint labelled_value (labels : list string) (lines : list string) : string :=
  match lines with
  | [] => EmptyString
  | line :: rest =>
      let lower := toLowerCase line in
      if existsb (fun l => includes l lower) labels then
        match split ":" line !! 1%nat with
        | Some part => toUpperCase (trim part)
        | None => labelled_value labels rest
        end
      else labelled_value labels rest
  end.

Definition extractSurname (text : string) : string :=
  labelled_value ["surname"; "last name"; "family name"] (split newline text).

Definition extractGivenNames (text : string) : string :=
  labelled_value ["given name"; "first name"] (split newline text).

(** The date found in one keyworded line, if any. *)
Definition date_in_line (line : string) : option string :=
  match match_ re_dmy line with
  | Some (_, [day; month; year]) =>
      let year :=
        if (String.length year =? 2)%nat
        then (if Num.lt (Some 50) (parseInt year) then "19" +:+ year else "20" +:+ year)
        else year in
      let day := if (String.length day =? 1)%nat then "0" +:+ day else day in
      let month := if (String.length month =? 1)%nat then "0" +:+ month else month in
      Some (year +:+ "-" +:+ month +:+ "-" +:+ day)
  | _ =>
      match match_ re_iso line with
      | Some (m0, _) => Some m0
      | None => None
      end
  end.

Fixpoint date_in_lines (keywords : list string) (lines : list string) : option string :=
  match lines with
  | [] => None
  | line :: rest =>
      let lower := toLowerCase line in
      if existsb (fun kw => includes kw lower) keywords then
        match date_in_line line with
        | Some d => Some d
        | None => date_in_lines keywords rest
        end
      else date_in_lines keywords rest
  end.

(** [extractDate]. *)
Definition extractDate (h : Host) (text : string) (keywords : list string) : string :=
  match date_in_lines keywords (split newline text) with
  | Some d => d
  | None =>
      match match_ re_iso text with
      | Some (m0, _) => m0
      | None => JSDate.today_iso h
      end
  end.

(** [extractSex]. *)
Definition extractSex (text : string) : string :=
  let upper := toUpperCase text in
  if test (re_word "M") upper && negb (test (re_word "F") upper) then "M"
  else if test (re_word "F") upper && negb (test (re_word "M") upper) then "F"
  else if includes "MALE" upper && negb (includes "FEMALE" upper) then "M"
  else if includes "FEMALE" upper then "F"
  else "M".

(** [parsedMRZ ? mrzConfidence : n]: an object, even [{}], is truthy. *)
Definition conf_of (parsedMRZ : option ParsedData) (mrzConfidence n : Z) : Z :=
  match parsedMRZ with Some _ => mrzConfidence | None => n end.

(** [extractFields].  [parsedMRZ] is [null] ([None]) or the codec's
    [parsedData]; the codec never assigns [issueDate], so that read is
    [undefined]. *)
Definition extractFields (h : Host) (text : string) (parsedMRZ : option ParsedData)
    (mrzConfidence : Z) : ExtractedData :=
  let documentType_ :=
    or_else (parsedMRZ ≫= pd_documentType) (extractDocumentType text) in
  let documentNumber_ :=
    or_else (parsedMRZ ≫= pd_documentNumber) (extractPattern text re_document_number) in
  let surname_ := or_else (parsedMRZ ≫= pd_surname) (extractSurname text) in
  let givenNames_ := or_else (parsedMRZ ≫= pd_givenNames) (extractGivenNames text) in
  let nationality_ :=
    or_else (parsedMRZ ≫= pd_nationality) (extractPattern text re_code3) in
  let dateOfBirth_ :=
    or_else (parsedMRZ ≫= pd_dateOfBirth) (extractDate h text ["birth"; "born"; "dob"]) in
  let sex_ := or_else (parsedMRZ ≫= pd_sex) (extractSex text) in
  let issuingCountry_ :=
    or_else (parsedMRZ ≫= pd_issuingCountry) (extractPattern text re_code3) in
  let issueDate_ :=
    or_else None (extractDate h text ["issue"; "issued"; "date of issue"]) in
  let expiryDate_ :=
    or_else (parsedMRZ ≫= pd_expiryDate)
      (extractDate h text ["expiry"; "expires"; "valid until"; "exp"]) in
  {| documentType := {| value := documentType_;
                        confidence := conf_of parsedMRZ mrzConfidence 80 |};
     documentNumber := {| value := documentNumber_;
                          confidence := conf_of parsedMRZ mrzConfidence 75 |};
     surname := {| value := surname_;
                   confidence := conf_of parsedMRZ mrzConfidence 75 |};
     givenNames := {| value := givenNames_;
                      confidence := conf_of parsedMRZ mrzConfidence 75 |};
     nationality := {| value := nationality_;
                       confidence := conf_of parsedMRZ mrzConfidence 80 |};
     dateOfBirth := {| value := dateOfBirth_;
                       confidence := conf_of parsedMRZ mrzConfidence 70 |};
     sex := {| value := sex_;
               confidence := conf_of parsedMRZ mrzConfidence 85 |};
     placeOfBirth := None;
     issuingCountry := {| value := issuingCountry_;
                          confidence := conf_of parsedMRZ mrzConfidence 80 |};
     issueDate := {| value := issueDate_; confidence := 70 |};
     expiryDate := {| value := expiryDate_;
                      confidence := conf_of parsedMRZ mrzConfidence 70 |};
     mrzLine1 := None; mrzLine2 := None; mrzLine3 := None |}.

(** [extractedData.mrzLineN = ...] *)
Definition set_mrzLines (l1 l2 l3 : option ExtractedField) (d : ExtractedData)
    : ExtractedData :=
  {| documentType := documentType d; documentNumber := documentNumber d;
     surname := surname d; givenNames := givenNames d;
     nationality := nationality d; dateOfBirth := dateOfBirth d; sex := sex d;
     placeOfBirth := placeOfBirth d; issuingCountry := issuingCountry d;
     issueDate := issueDate d; expiryDate := expiryDate d;
     mrzLine1 := l1; mrzLine2 := l2; mrzLine3 := l3 |}.

(** [processDocument] from the recognised [text] on: what follows the
    call of the OCR engine. *)
Definition processText (h : Host) (text : string) : option ExtractedData :=
  let mrzLines := extractMRZ text in
  '(parsedMRZ, mrzConfidence) ←
    (if (0 <? length mrzLines)%nat then
       mrzResult ← MRZValidator.validateMRZ mrzLines;
       Some (Some (parsedData mrzResult), if valid mrzResult then 95 else 60)
     else Some (None, 0));
  let extractedData := extractFields h text parsedMRZ mrzConfidence in
  Some
    (if (0 <? length mrzLines)%nat then
       let line (i : nat) :=
         {| value := or_else (mrzLines !! i) EmptyString;
            confidence := mrzConfidence |} in
       set_mrzLines (Some (line 0%nat)) (Some (line 1%nat))
         (if (2 <? length mrzLines)%nat then Some (line 2%nat)
          else mrzLine3 extractedData)
         extractedData
     else extractedData).

End OCRProcessor.

(** ** Sample inputs *)

Module Samples.

(** The lines of the spec's "valid TD3" scenario. *)
Definition line1 : string := "P<UTOERIKSSON<<ANNA<MARIA<<<<<<<<<<<<<<<<<<".
Definition line2 : string := "L898902C<3UTO6908061F9406236ZE184226B<<<<<10".

(** A host in UTC, at noon of 1 November 2026, whose [Date] accepts
    the date-only form and nothing else. *)
Definition host : Host :=
  {| now := Calendar.days_from_civil 2026 11 1 * Calendar.msPerDay + 43200000;
     tzOffset := fun _ => 0;
     parseOther := fun _ => None |}.

Definition field (v : string) : ExtractedField :=
  {| value := v; confidence := 95 |}.

(** A document of JOHN SMITH with the given nationality, date of
    birth and expiry date. *)
Definition doc (nat_ dob exp : string) : ExtractedData :=
  {| documentType := field "P"; documentNumber := field "AB1234567";
     surname := field "SMITH"; givenNames := field "JOHN";
     nationality := field nat_; dateOfBirth := field dob; sex := field "M";
     placeOfBirth := None; issuingCountry := field nat_;
     issueDate := field "2020-01-01"; expiryDate := field exp;
     mrzLine1 := None; mrzLine2 := None; mrzLine3 := None |}.

Definition applicant (name_ visa : string) : ApplicantData :=
  {| name := name_; ap_dateOfBirth := "1990-05-15";
     passportNumber := "AB1234567"; ap_nationality := "USA";
     intendedVisaType := visa |}.

(** A policy whose [minor] visa type asks for a minimal age of 0. *)
Definition minor_policy : EligibilityPolicy :=
  {| minAge := 18; maxAge := 120; allowedNationalities := [];
     blockedNationalities := []; requiredDocumentTypes := [];
     minValidityMonths := 0;
     visaTypeRequirements :=
       {[ "minor" := {| vt_minAge := Some 0; vt_allowedNationalities := None;
                        vt_additionalRequirements := None |} ]} |}.

(** A text with the word PASSPORT and one line of 44 fillers. *)
Definition one_line_text : string :=
  "PASSPORT" +:+ JS.newline +:+ "<<<<<<<<<<<<<<<<<<<<<<<<<<<<<<<<<<<<<<<<<<<<".

(** A text with a valid two-line zone whose nationality field is all
    filler, and the nationality printed above it. *)
Definition no_nationality_text : string :=
  "Nationality: FRA" +:+ JS.newline
  +:+ "P<UTOERIKSSON<<ANNA<MARIA<<<<<<<<<<<<<<<<<<<" +:+ JS.newline
  +:+ "L898902C<3<<<6908061F9406236ZE184226B<<<<<14".

End Samples.

(** ** Predicates of the specification *)

Module Spec.
Import JS MRZValidator.

(** Every decoded field that is a string has been assigned. *)
Definition decoded (p : ParsedData) : Prop :=
  is_Some (pd_documentType p) /\ is_Some (pd_issuingCountry p)
  /\ is_Some (pd_surname p) /\ is_Some (pd_givenNames p)
  /\ is_Some (pd_documentNumber p) /\ is_Some (pd_nationality p)
  /\ is_Some (pd_dateOfBirth p) /\ is_Some (pd_expiryDate p).

(** A check character is given and is not the digit computed for [data]. *)
Definition mismatch (data : string) (chk : option string) : bool :=
  check_fails chk (calculateCheckDigit data).

(** The checked fields of the second line of a TD3 zone: name, checked
    text, check character.  The personal number is checked only when
    it is not all filler. *)
Definition td3_checked (l2 : string) : list (string * string * option string) :=
  [ ("Document number", substring 0 9 l2, index l2 9);
    ("Date of birth", substring 13 19 l2, index l2 19);
    ("Expiry date", substring 21 27 l2, index l2 27);
    ("Composite",
     substring 0 10 l2 +:+ substring 13 20 l2 +:+ substring 21 43 l2,
     index l2 43) ]
  ++ (if truthy (Some (strip_filler (substring 28 42 l2)))
      then [("Personal number", substring 28 42 l2, index l2 42)] else []).

(** The checked fields of a TD1 zone. *)
Definition td1_checked (l1 l2 : string) : list (string * string * option string) :=
  [ ("Document number", substring 5 14 l1, index l1 14);
    ("Date of birth", substring 0 6 l2, index l2 6);
    ("Expiry date", substring 8 14 l2, index l2 14) ].

(** The errors of a two-line zone: one per line of the wrong length
    and one per mismatching check digit. *)
Definition td3_error (l1 l2 e : string) : Prop :=
  (String.length l1 <> 44%nat /\ e = length_msg 1 l1 "44")
  \/ (String.length l2 <> 44%nat /\ e = length_msg 2 l2 "44")
  \/ (exists what data chk,
        (what, data, chk) ∈ td3_checked l2 /\ mismatch data chk = true
        /\ e = digit_msg what (calculateCheckDigit data) chk).

(** The errors of a three-line zone. *)
Definition td1_error (l1 l2 l3 e : string) : Prop :=
  (String.length l1 <> 30%nat /\ e = length_msg 1 l1 "30")
  \/ (String.length l2 <> 30%nat /\ e = length_msg 2 l2 "30")
  \/ (String.length l3 <> 30%nat /\ e = length_msg 3 l3 "30")
  \/ (exists what data chk,
        (what, data, chk) ∈ td1_checked l1 l2 /\ mismatch data chk = true
        /\ e = what +:+ " check digit failed").

(** An error about the check digit of the document number. *)
Definition is_document_number_error (e : string) : bool :=
  String.prefix "Document number check digit failed" e.

(** The check digit in the spec's words: each character's value times
    the weight 7, 3, 1 of its position, summed, modulo 10. *)
Definition char_value (c : ascii) : Z :=
  if is_digit c then code c - code "0"
  else if is_upper c then code c - code "A" + 10
  else 0.

Definition weight (i : nat) : Z :=
  match (i mod 3)%nat with
  | 0%nat => 7
  | 1%nat => 3
  | _ => 1
  end.

Definition check_digit (s : string) : Z :=
  foldr Z.add 0
    ((fun i => default 0 (char_value <$> String.get i s) * weight i)
       <$> seq 0 (String.length s))
  mod 10.

(** A string over the MRZ alphabet. *)
Definition over_alphabet (s : string) : Prop :=
  forallb OCRProcessor.mrz_alphabet (list_ascii_of_string s) = true.

(** The confidences of the nine fields a zone can supply, and their
    heuristic-only scores, in the order: document type, document
    number, surname, given names, nationality, issuing country, date of
    birth, sex, expiry date. *)
Definition confidences (d : ExtractedData) : list Z :=
  [confidence (documentType d); confidence (documentNumber d);
   confidence (surname d); confidence (givenNames d);
   confidence (nationality d); confidence (issuingCountry d);
   confidence (dateOfBirth d); confidence (sex d);
   confidence (expiryDate d)].

Definition heuristic_scores : list Z := [80; 75; 75; 75; 80; 80; 70; 85; 70].

End Spec.

(** ** The rule engine, the remaining checks ([DocumentValidator]) *)

Module Checks.
Import JS Regex DocumentValidator.

(** [arr.join(sep)] on an array of strings. *)
Definition join (sep : string) (arr : list string) : string :=
  String.concat sep arr.

(** [/^\d{4}-\d{2}-\d{2}$/] *)
Definition re_date : re :=
  Seq Bol
    (Seq (times 4 (Class is_digit))
       (Seq (lit "-")
          (Seq (times 2 (Class is_digit))
             (Seq (lit "-") (Seq (times 2 (Class is_digit)) Eol))))).

(** [/^[A-Za-z\s\-']+$/] *)
Definition name_char (c : ascii) : bool :=
  is_upper c || is_lower c || is_space c || is_char "-" c || is_char "'" c.
Definition re_name : re := Seq Bol (Seq (plus (Class name_char)) Eol).

(** [/^[A-Z0-9]+$/] *)
Definition number_char (c : ascii) : bool := is_upper c || is_digit c.
Definition re_number : re := Seq Bol (Seq (plus (Class number_char)) Eol).

(** [/^[A-Z]{3}$/] *)
Definition re_nationality : re := Seq Bol (Seq (times 3 (Class is_upper)) Eol).

(** [checkDateFormats]. *)
Definition checkDateFormats (data : ExtractedData) : Check :=
  let dates :=
    [ ("Date of Birth", value (dateOfBirth data));
      ("Issue Date", value (issueDate data));
      ("Expiry Date", value (expiryDate data)) ] in
  let invalidDates := List.filter (fun d => negb (test re_date d.2)) dates in
  {| check := "Date Format Validation";
     passed := (length invalidDates =? 0)%nat;
     message :=
       if (length invalidDates =? 0)%nat
       then "All dates in valid ISO 8601 format"
       else "Invalid date formats: " +:+ join ", " (fst <$> invalidDates) |}.

(** [checkAgeConsistency].  Nothing in the [try] block can throw. *)
Definition checkAgeConsistency (h : Host) (data : ExtractedData) : Check :=
  try_catch
    (let dob := JSDate.parse h (value (dateOfBirth data)) in
     let today := Some (now h) in
     let age := age_of h dob today in
     if Num.lt age (Some 0) || Num.lt (Some 150) age then
       Some {| check := "Age Consistency"; passed := false;
               message := "Calculated age (" +:+ of_number age +:+ ") is invalid" |}
     else
       Some {| check := "Age Consistency"; passed := true;
               message := "Holder age: " +:+ of_number age +:+ " years" |})
    {| check := "Age Consistency"; passed := false;
       message := "Unable to calculate age from date of birth" |}.

(** [checkNameFormat]. *)
Definition checkNameFormat (data : ExtractedData) : Check :=
  let hasValidSurname := (1 <=? String.length (value (surname data)))%nat in
  let validFormat :=
    test re_name (value (surname data))
    && (bool_decide (value (givenNames data) = EmptyString)
        || test re_name (value (givenNames data))) in
  {| check := "Name Format";
     passed := hasValidSurname && validFormat;
     message :=
       if hasValidSurname && validFormat then "Name format valid"
       else "Invalid name format or missing required fields" |}.

(** [checkDocumentNumberFormat]. *)
Definition checkDocumentNumberFormat (data : ExtractedData) : Check :=
  let docNum := value (documentNumber data) in
  let hasValidLength :=
    (6 <=? String.length docNum)%nat && (String.length docNum <=? 12)%nat in
  let hasValidChars := test re_number docNum in
  {| check := "Document Number Format";
     passed := hasValidLength && hasValidChars;
     message :=
       if hasValidLength && hasValidChars then "Document number format valid"
       else "Document number format invalid (should be 6-12 alphanumeric characters)" |}.

(** [checkNationalityFormat]. *)
Definition checkNationalityFormat (data : ExtractedData) : Check :=
  let nationality := value (nationality data) in
  let isValidCode := test re_nationality nationality in
  {| check := "Nationality Code Format";
     passed := isValidCode;
     message :=
       if isValidCode then "Valid nationality code: " +:+ nationality
       else "Invalid nationality code (should be 3-letter ISO code)" |}.

(** [checkDateLogic].  Nothing in the [try] block can throw. *)
Definition checkDateLogic (h : Host) (data : ExtractedData) : Check :=
  try_catch
    (let dob := JSDate.parse h (value (dateOfBirth data)) in
     let issue := JSDate.parse h (value (issueDate data)) in
     let expiry := JSDate.parse h (value (expiryDate data)) in
     let dobBeforeIssue := Num.lt dob issue in
     let issueBeforeExpiry := Num.lt issue expiry in
     let dobNotFuture := Num.lt dob (Some (now h)) in
     let allValid := dobBeforeIssue && issueBeforeExpiry && dobNotFuture in
     Some {| check := "Date Logic"; passed := allValid;
             message :=
               if allValid then "All dates are logically consistent"
               else "Date sequence error: dates are not in logical order" |})
    {| check := "Date Logic"; passed := false;
       message := "Unable to validate date logic" |}.

(** [validateDocument]. *)
Definition validateDocument (h : Host) (extractedData : ExtractedData) : list Check :=
  let checks : list Check := [] in
  let checks := checks ++ [checkDocumentExpiry h extractedData] in
  let checks := checks ++ [checkDateFormats extractedData] in
  let checks := checks ++ [checkAgeConsistency h extractedData] in
  let checks := checks ++ [checkNameFormat extractedData] in
  let checks := checks ++ [checkDocumentNumberFormat extractedData] in
  let checks := checks ++ [checkNationalityFormat extractedData] in
  let checks := checks ++ [checkDateLogic h extractedData] in
  checks.

(** The shape shared by [checkDOBMatch], [checkPassportNumberMatch] and
    [checkNationalityMatch]: strict equality of two strings. *)
Definition match_check (name_ ok_msg fail_msg : string) (shown claimed : string) : Check :=
  let match_ := bool_decide (shown = claimed) in
  {| check := name_;
     passed := match_;
     message :=
       if match_ then ok_msg
       else fail_msg +:+ ": Document shows " +:+ shown +:+ ", applicant claims "
              +:+ claimed |}.

(** [checkDOBMatch]. *)
Definition checkDOBMatch (data : ExtractedData) (applicant : ApplicantData) : Check :=
  match_check "Date of Birth Match" "Date of birth matches" "DOB mismatch"
    (value (dateOfBirth data)) (ap_dateOfBirth applicant).

(** [checkPassportNumberMatch]. *)
Definition checkPassportNumberMatch (data : ExtractedData) (applicant : ApplicantData)
    : Check :=
  match_check "Passport Number Match" "Passport number matches"
    "Passport number mismatch"
    (value (documentNumber data)) (passportNumber applicant).

(** [checkNationalityMatch]. *)
Definition checkNationalityMatch (data : ExtractedData) (applicant : ApplicantData)
    : Check :=
  match_check "Nationality Match" "Nationality matches" "Nationality mismatch"
    (value (nationality data)) (ap_nationality applicant).

(** [checkDocumentType]. *)
Definition checkDocumentType (data : ExtractedData) (policy : EligibilityPolicy) : Check :=
  let docType := value (documentType data) in
  let isAllowed :=
    (length (requiredDocumentTypes policy) =? 0)%nat
    || arr_includes (requiredDocumentTypes policy) docType in
  {| check := "Document Type";
     passed := isAllowed;
     message :=
       if isAllowed then "Document type " +:+ docType +:+ " is accepted"
       else "Document type " +:+ docType +:+ " is not accepted. Required: "
              +:+ join ", " (requiredDocumentTypes policy) |}.

(** Thirty days in milliseconds: [1000 * 60 * 60 * 24 * 30]. *)
Definition msPerMonth : positive := 2592000000.

(** [(expiryDate.getTime() - today.getTime()) / (1000 * 60 * 60 * 24 * 30)].
    The quotient is kept exact.  The double the program computes is the
    nearest one: for time values in the range of [Date] the difference is
    an exact integer below [2^53] and the quotient is below [2^22], where
    a double is less than [1 / msPerMonth] away from it, so that the
    comparison with an integer and [Math.floor] give the same result on
    both. *)
Definition monthsValid (expiry today : option Z) : option Q :=
  (fun d => Qmake d msPerMonth) <$> Num.sub expiry today.

(** [String(Math.floor(q))]. *)
Definition floor_str (q : option Q) : string :=
  of_number (Qfloor <$> q).

(** [checkValidityPeriod].  Nothing in the [try] block can throw. *)
Definition checkValidityPeriod (h : Host) (data : ExtractedData)
    (policy : EligibilityPolicy) : Check :=
  try_catch
    (let expiry := JSDate.parse h (value (expiryDate data)) in
     let today := Some (now h) in
     let months := monthsValid expiry today in
     let meetsRequirement :=
       match months with
       | Some q => Qle_bool (inject_Z (minValidityMonths policy)) q
       | None => false
       end in
     Some {| check := "Validity Period";
             passed := meetsRequirement;
             message :=
               if meetsRequirement
               then "Document valid for " +:+ floor_str months +:+ " months (min: "
                      +:+ of_Z (minValidityMonths policy) +:+ ")"
               else "Document only valid for " +:+ floor_str months
                      +:+ " months, requires " +:+ of_Z (minValidityMonths policy) |})
    {| check := "Validity Period"; passed := false;
       message := "Unable to verify validity period" |}.

(** [checkEligibility]. *)
Definition checkEligibility (h : Host) (extractedData : ExtractedData)
    (applicantData : ApplicantData) (policy : EligibilityPolicy) : list Check :=
  let checks : list Check := [] in
  let checks := checks ++ [checkNameMatch extractedData applicantData] in
  let checks := checks ++ [checkDOBMatch extractedData applicantData] in
  let checks := checks ++ [checkPassportNumberMatch extractedData applicantData] in
  let checks := checks ++ [checkNationalityMatch extractedData applicantData] in
  let checks := checks ++ [checkAgeRequirements h extractedData applicantData policy] in
  let checks := checks ++ [checkNationalityEligibility extractedData policy] in
  let checks := checks ++ [checkDocumentType extractedData policy] in
  let checks := checks ++ [checkValidityPeriod h extractedData policy] in
  let checks :=
    checks ++ [checkVisaTypeRequirements extractedData applicantData policy] in
  checks.

End Checks.

(** ** The request handler ([api/verify/route.ts]) *)

Record VerificationResult := {
  overallConfidence : Z;
  extractedData : ExtractedData;
  validationChecks : list Check;
  eligibilityChecks : list Check;
  recommendedActions : list string;
  summary : string
}.

(** The [applicantData] object of a request body: each property is a
    string or is missing. *)
Record ApplicantBody := {
  body_name : option string;
  body_dateOfBirth : option string;
  body_passportNumber : option string;
  body_nationality : option string;
  body_intendedVisaType : option string
}.

Module Route.
Import JS Checks.

(** [Object.values(extractedData)]: the ten properties of the literal
    and the optional ones that were assigned. *)
Definition object_values (d : ExtractedData) : list ExtractedField :=
  [documentType d; documentNumber d; surname d; givenNames d; nationality d;
   dateOfBirth d; sex d; issuingCountry d; issueDate d; expiryDate d]
  ++ omap id [placeOfBirth d; mrzLine1 d; mrzLine2 d; mrzLine3 d].

(** [Math.round(sum / n)] for a positive [n]: the nearest integer, a
    half going up.  The quotient is exact here, and stands for the one
    of the code only where the confidences are scores from 0 to 100:
    the sum of the at most fourteen of them is an exact double, and the
    double quotient is too close to the exact one to round
    differently.  Properties of the overall confidence are stated for
    such scores. *)
Definition round_div (sum n : Z) : Z := (2 * sum + n) / (2 * n).

(** [calculateOverallConfidence].  Every field of a document passes the
    filter [field && typeof field.confidence === 'number']. *)
Definition calculateOverallConfidence (d : ExtractedData) : Z :=
  let confidences := confidence <$> object_values d in
  if (length confidences =? 0)%nat then 0
  else
    let sum := foldl (fun acc val => acc + val) 0 confidences in
    round_div sum (Z.of_nat (length confidences)).

Definition failed (checks : list Check) : list Check :=
  List.filter (fun c => negb (passed c)) checks.

(** [if (c) actions.push(msg)]. *)
Definition push_if (c : bool) (msg : string) (actions : list string) : list string :=
  if c then actions ++ [msg] else actions.

(** [generateRecommendedActions]. *)
Definition generateRecommendedActions (validationChecks eligibilityChecks : list Check)
    (overallConfidence : Z) : list string :=
  let actions : list string := [] in
  let failedValidations := failed validationChecks in
  let failedEligibility := failed eligibilityChecks in
  let actions :=
    push_if (0 <? length failedValidations)%nat
      ("Review failed validation checks: "
         +:+ join ", " (check <$> failedValidations)) actions in
  let actions :=
    push_if (0 <? length failedEligibility)%nat
      ("Address eligibility issues: "
         +:+ join ", " (check <$> failedEligibility)) actions in
  let actions :=
    push_if (overallConfidence <? 70)
      "Request manual verification due to low confidence in extracted data"
      actions in
  let actions :=
    push_if ((overallConfidence <? 85)
             && (length failedValidations =? 0)%nat
             && (length failedEligibility =? 0)%nat)
      "Consider requesting clearer document images for higher confidence"
      actions in
  let actions :=
    push_if ((length failedValidations =? 0)%nat
             && (length failedEligibility =? 0)%nat
             && (85 <=? overallConfidence))
      "Proceed with visa application - all checks passed" actions in
  let actions :=
    push_if (length actions =? 0)%nat
      "Review application manually before proceeding" actions in
  actions.

(** [generateSummary]. *)
Definition generateSummary (extractedData : ExtractedData)
    (validationChecks eligibilityChecks : list Check) (overallConfidence : Z)
    (allChecksPassed : bool) : string :=
  let docType := value (documentType extractedData) in
  let docNum := value (documentNumber extractedData) in
  let holderName :=
    trim (value (givenNames extractedData) +:+ " " +:+ value (surname extractedData)) in
  let failedValidations := failed validationChecks in
  let failedEligibility := failed eligibilityChecks in
  let subject := docType +:+ " document " +:+ docNum +:+ " for " +:+ holderName in
  if allChecksPassed && (85 <=? overallConfidence) then
    "Document verification successful. " +:+ subject
      +:+ " passed all validation and eligibility checks with "
      +:+ of_Z overallConfidence +:+ "% confidence. Application is ready to proceed."
  else if (0 <? length failedValidations)%nat then
    "Document verification flagged issues. " +:+ subject +:+ " failed "
      +:+ of_Z (Z.of_nat (length failedValidations)) +:+ " validation check(s): "
      +:+ join ", " (check <$> failedValidations) +:+ ". Manual review required."
  else if (0 <? length failedEligibility)%nat then
    "Eligibility check failed. " +:+ subject
      +:+ " does not meet eligibility requirements for visa application. Failed "
      +:+ of_Z (Z.of_nat (length failedEligibility)) +:+ " check(s): "
      +:+ join ", " (check <$> failedEligibility) +:+ "."
  else if overallConfidence <? 70 then
    "Low confidence verification. " +:+ subject +:+ " extracted with only "
      +:+ of_Z overallConfidence
      +:+ "% confidence. Request clearer images or manual verification."
  else
    "Document verification completed with " +:+ of_Z overallConfidence
      +:+ "% confidence. " +:+ subject
      +:+ ". Review recommended actions before proceeding.".

(** The [applicant] object that [POST] builds from the request body. *)
Definition applicant_of (body : ApplicantBody) : ApplicantData :=
  {| name := or_else (body_name body) EmptyString;
     ap_dateOfBirth := or_else (body_dateOfBirth body) EmptyString;
     passportNumber := or_else (body_passportNumber body) EmptyString;
     ap_nationality := or_else (body_nationality body) EmptyString;
     intendedVisaType := or_else (body_intendedVisaType body) "tourist" |}.

(** [POST] from the recognised [text] on, for a request that has image
    and applicant data: the result that is sent back. *)
Definition verify (h : Host) (text : string) (body : ApplicantBody)
    (eligibilityPolicy : option EligibilityPolicy) : option VerificationResult :=
  let applicant := applicant_of body in
  let policy := default defaultEligibilityPolicy eligibilityPolicy in
  extractedData ← OCRProcessor.processText h text;
  let validationChecks := validateDocument h extractedData in
  let eligibilityChecks := checkEligibility h extractedData applicant policy in
  let allChecksPassed := forallb passed (validationChecks ++ eligibilityChecks) in
  let overallConfidence := calculateOverallConfidence extractedData in
  let recommendedActions :=
    generateRecommendedActions validationChecks eligibilityChecks overallConfidence in
  let summary :=
    generateSummary extractedData validationChecks eligibilityChecks
      overallConfidence allChecksPassed in
  Some {| overallConfidence := overallConfidence;
          extractedData := extractedData;
          validationChecks := validationChecks;
          eligibilityChecks := eligibilityChecks;
          recommendedActions := recommendedActions;
          summary := summary |}.

End Route.

(** ** Shapes of strings *)

Module Shape.
Import JS.

(** Every character of [s] satisfies [p]. *)
Fixpoint all_chars (p : ascii -> bool) (s : string) : bool :=
  match s with
  | EmptyString => true
  | String c r => p c && all_chars p r
  end.

(** A text of 7-bit characters, where the case mappings and the white
    space of the embedding are the ones of JS. *)
Definition ascii_only (s : string) : bool :=
  all_chars (fun c => code c <? 128) s.

(** Four digits, a dash, two digits, a dash, two digits. *)
Definition date_shape (s : string) : bool :=
  match s with
  | String y1 (String y2 (String y3 (String y4 (String s1
      (String m1 (String m2 (String s2 (String d1 (String d2 EmptyString))))))))) =>
      is_digit y1 && is_digit y2 && is_digit y3 && is_digit y4 && is_char "-" s1
      && is_digit m1 && is_digit m2 && is_char "-" s2 && is_digit d1 && is_digit d2
  | _ => false
  end.

(** The second line of a synthetic two-line zone: every checked field
    is followed by the check digit computed for it, and the composite
    check digit closes the line. *)
Definition td3_line2 (doc nat_ dob sex_ exp pers : string) : string :=
  let cd s := of_Z (MRZValidator.calculateCheckDigit s) in
  let a := doc +:+ cd doc in
  let b := dob +:+ cd dob in
  let c := exp +:+ cd exp +:+ pers +:+ cd pers in
  a +:+ nat_ +:+ b +:+ sex_ +:+ c +:+ cd (a +:+ b +:+ c).

End Shape.

(** The texts of the favourable verdict of [route.ts]. *)
Module Verdict.

(** The action that lets an application go on. *)
Definition proceed : string := "Proceed with visa application - all checks passed".

(** The action that nothing else was found to say. *)
Definition fallback : string := "Review application manually before proceeding".

(** The summary of a successful verification starts with this. *)
Definition success : string := "Document verification successful.".

Definition is_success (summary : string) : bool := String.prefix success summary.

End Verdict.

(** Synthetic three-line zones, and what a clean field is. *)
Module Synthetic.
Import JS.

Definition cd (s : string) : string := of_Z (MRZValidator.calculateCheckDigit s).

(** Line 1 of a three-line zone: five characters of type and country,
    the document number with its check digit, fifteen optional ones. *)
Definition td1_line1 (head doc opt : string) : string :=
  head +:+ doc +:+ cd doc +:+ opt.

(** Line 2 of a three-line zone. *)
Definition td1_line2 (dob sex_ exp nat_ opt : string) : string :=
  dob +:+ cd dob +:+ sex_ +:+ exp +:+ cd exp +:+ nat_ +:+ opt.

Definition not_filler (c : ascii) : bool := negb (is_char "<" c).
Definition not_digit (c : ascii) : bool := negb (is_digit c).

(** A field, when it was assigned, holds no filler. *)
Definition clean (field : option string) : Prop :=
  forall v, field = Some v -> Shape.all_chars not_filler v = true.

End Synthetic.

(** ** What a zone of two or three lines must give

    The errors and the decoded values of a zone, stated from the layout
    of the lines alone: with the check digit of the specification
    ([Spec.check_digit]), the filler removed character by character and
    the century rule written on the six characters of a date.  None of
    these definitions uses a function of [MRZValidator]. *)

Module Layout.
Import JS.

(** The digit a check character stands for, when it is one digit. *)
Definition digit_of (chk : option string) : option Z :=
  match chk with
  | Some (String c EmptyString) =>
      if is_digit c then Some (code c - code "0") else None
  | _ => None
  end.

(** A check digit mismatch: the check character is not the filler (a
    filler means that no check digit is given) and is not the digit
    that the weighted sum gives for the checked text.  A check
    character that is missing, or that is no digit, mismatches. *)
Definition digit_mismatch (data : string) (chk : option string) : bool :=
  negb (bool_decide (chk = Some "<"))
  && negb (bool_decide (digit_of chk = Some (Spec.check_digit data))).

(** The decimal digit [d] as text. *)
Definition digit_text (d : Z) : string := single (chr (code "0" + d)).

(** The error of line number [label] when it has not [n] characters. *)
Definition wrong_length (n : nat) (label : string) (line : string) : list string :=
  if (String.length line =? n)%nat then []
  else ["Line " +:+ label +:+ " length invalid: "
          +:+ of_Z (Z.of_nat (String.length line))
          +:+ ", expected " +:+ of_Z (Z.of_nat n)].

(** The error of a mismatching check digit in a two-line zone: it
    names the field, the digit expected and the character found. *)
Definition td3_digit_error (what data : string) (chk : option string) : list string :=
  if digit_mismatch data chk
  then [what +:+ " check digit failed: expected "
          +:+ digit_text (Spec.check_digit data) +:+ ", got " +:+ str_of chk]
  else [].

(** The error of a mismatching check digit in a three-line zone: it
    names the field. *)
Definition td1_digit_error (what data : string) (chk : option string) : list string :=
  if digit_mismatch data chk then [what +:+ " check digit failed"] else [].

Definition all_filler (s : string) : bool := Shape.all_chars (is_char "<") s.

(** The errors of a two-line zone, in the order of the checks.  The
    personal number is checked unless it is all filler. *)
Definition td3_errors (l1 l2 : string) : list string :=
  wrong_length 44 "1" l1
  ++ wrong_length 44 "2" l2
  ++ td3_digit_error "Document number" (substring 0 9 l2) (index l2 9)
  ++ td3_digit_error "Date of birth" (substring 13 19 l2) (index l2 19)
  ++ td3_digit_error "Expiry date" (substring 21 27 l2) (index l2 27)
  ++ (if all_filler (substring 28 42 l2) then []
      else td3_digit_error "Personal number" (substring 28 42 l2) (index l2 42))
  ++ td3_digit_error "Composite"
       (substring 0 10 l2 +:+ substring 13 20 l2 +:+ substring 21 43 l2)
       (index l2 43).

(** The errors of a three-line zone. *)
Definition td1_errors (l1 l2 l3 : string) : list string :=
  wrong_length 30 "1" l1
  ++ wrong_length 30 "2" l2
  ++ wrong_length 30 "3" l3
  ++ td1_digit_error "Document number" (substring 5 14 l1) (index l1 14)
  ++ td1_digit_error "Date of birth" (substring 0 6 l2) (index l2 6)
  ++ td1_digit_error "Expiry date" (substring 8 14 l2) (index l2 14).

Definition expected_errors (lines : list string) : list string :=
  match lines with
  | [l1; l2] => td3_errors l1 l2
  | [l1; l2; l3] => td1_errors l1 l2 l3
  | _ => []
  end.

(** A field with its filler characters removed. *)
Definition without_filler (s : string) : string :=
  string_of_list_ascii
    (List.filter (fun c => negb (is_char "<" c)) (list_ascii_of_string s)).

(** The name field up to its first double filler. *)
Fixpoint first_piece (s : string) : string :=
  match s with
  | EmptyString => EmptyString
  | String c r => if String.prefix "<<" s then EmptyString else String c (first_piece r)
  end.

(** The name field between its first double filler and the next one;
    nothing when it holds no double filler. *)
Fixpoint second_piece (s : string) : option string :=
  match s with
  | EmptyString => None
  | String c r =>
      if String.prefix "<<" s
      then match r with
           | String _ r' => Some (first_piece r')
           | EmptyString => None
           end
      else second_piece r
  end.

(** A name: each filler is a space, and the spaces around are dropped;
    the empty name when there is no piece. *)
Definition name_of (piece : option string) : string :=
  match piece with
  | Some p => trim (map_chars (fun c => if is_char "<" c then " "%char else c) p)
  | None => EmptyString
  end.

(** The century rule on a date field: a field that starts with two
    digits YY and has six characters YYMMDD reads 19YY-MM-DD when YY is
    above 50 and 20YY-MM-DD otherwise; a field that has not six
    characters reads as the empty date. *)
Definition expand_date (field : string) : option string :=
  match field with
  | String y1 (String y2 (String m1 (String m2 (String d1 (String d2 EmptyString))))) =>
      if is_digit y1 && is_digit y2
      then Some ((if 50 <? 10 * (code y1 - code "0") + (code y2 - code "0")
                  then "19" else "20")
                 +:+ String y1 (String y2 (String "-" (String m1 (String m2
                       (String "-" (String d1 (String d2 EmptyString))))))))
      else None
  | _ => Some EmptyString
  end.

(** A date is decoded: it is assigned, and it is what the century rule
    gives where the rule applies. *)
Definition date_decoded (field : string) (v : option string) : Prop :=
  is_Some v /\ forall d, expand_date field = Some d -> v = Some d.

(** The fields of a two-line zone, by their columns. *)
Definition td3_decoded (l1 l2 : string) (p : ParsedData) : Prop :=
  pd_documentType p = Some (without_filler (substring 0 2 l1))
  /\ pd_issuingCountry p = Some (without_filler (substring 2 5 l1))
  /\ pd_surname p = Some (name_of (Some (first_piece (substring 5 44 l1))))
  /\ pd_givenNames p = Some (name_of (second_piece (substring 5 44 l1)))
  /\ pd_documentNumber p = Some (without_filler (substring 0 9 l2))
  /\ pd_nationality p = Some (without_filler (substring 10 13 l2))
  /\ date_decoded (substring 13 19 l2) (pd_dateOfBirth p)
  /\ pd_sex p = index l2 20
  /\ date_decoded (substring 21 27 l2) (pd_expiryDate p).

(** The fields of a three-line zone, by their columns. *)
Definition td1_decoded (l1 l2 l3 : string) (p : ParsedData) : Prop :=
  pd_documentType p = Some (without_filler (substring 0 2 l1))
  /\ pd_issuingCountry p = Some (without_filler (substring 2 5 l1))
  /\ pd_documentNumber p = Some (without_filler (substring 5 14 l1))
  /\ date_decoded (substring 0 6 l2) (pd_dateOfBirth p)
  /\ pd_sex p = index l2 7
  /\ date_decoded (substring 8 14 l2) (pd_expiryDate p)
  /\ pd_nationality p = Some (without_filler (substring 15 18 l2))
  /\ pd_surname p = Some (name_of (Some (first_piece (substring 0 30 l3))))
  /\ pd_givenNames p = Some (name_of (second_piece (substring 0 30 l3))).

Definition decoded_values (lines : list string) (p : ParsedData) : Prop :=
  match lines with
  | [l1; l2] => td3_decoded l1 l2 p
  | [l1; l2; l3] => td1_decoded l1 l2 l3 p
  | _ => True
  end.

End Layout.

(** ** Properties *)

Module MRZFacts.
Import JS MRZValidator Spec.

Lemma substring_app_exact (s t : string) :
  JS.substring 0 (String.length s) (s +:+ t) = s.
Proof.
  unfold JS.substring. rewrite Nat.min_0_l, Nat.max_0_l, Nat.sub_0_r.
  induction s as [|c s IH]; simpl.
  - by destruct t.
  - by rewrite IH.
Qed.

Lemma index_app_exact (s t : string) (c : ascii) :
  JS.index (s +:+ String c t) (String.length s) = Some (single c).
Proof.
  unfold JS.index. induction s as [|a s IH]; simpl; [done|]. exact IH.
Qed.

Lemma substring_app_skip (p t : string) (a b : nat) :
  JS.substring (String.length p + a) (String.length p + b) (p +:+ t)
  = JS.substring a b t.
Proof.
  unfold JS.substring.
  rewrite Nat.add_min_distr_l, Nat.add_max_distr_l.
  replace (String.length p + Nat.max a b - (String.length p + Nat.min a b))%nat
    with (Nat.max a b - Nat.min a b)%nat by lia.
  induction p as [|c p IH]; [reflexivity|]. exact IH.
Qed.

Lemma index_app_skip (p t : string) (i : nat) :
  JS.index (p +:+ t) (String.length p + i) = JS.index t i.
Proof.
  unfold JS.index. induction p as [|c p IH]; [reflexivity|]. exact IH.
Qed.

Lemma parseInt_digit (c : ascii) :
  is_digit c = true -> parseInt (single c) = Some (code c - 48).
Proof.
  intros Hc. unfold parseInt, single. simpl.
  assert (Hs : is_space c = false).
  { unfold is_digit, is_space, in_range in *. lia. }
  rewrite Hs.
  assert (Hm : is_char "-" c = false).
  { unfold is_digit, is_char, in_range in *. change (code "-") with 45. lia. }
  assert (Hp : is_char "+" c = false).
  { unfold is_digit, is_char, in_range in *. change (code "+") with 43. lia. }
  rewrite Hm, Hp. unfold unsigned_int, digits, digit_val. rewrite Hc. simpl.
  unfold is_digit, in_range in Hc.
  destruct (code c - 48 <? 10) eqn:E; [done | lia].
Qed.

Lemma of_Z_digit (d : Z) :
  0 <= d < 10 ->
  exists c, of_Z d = single c /\ is_digit c = true /\ code c - 48 = d.
Proof.
  intros Hd.
  assert (H : d = 0 \/ d = 1 \/ d = 2 \/ d = 3 \/ d = 4 \/ d = 5 \/ d = 6
              \/ d = 7 \/ d = 8 \/ d = 9) by lia.
  repeat destruct H as [-> | H]; try subst d;
    (eexists; split; [vm_compute; reflexivity | split; reflexivity]).
Qed.

Lemma calculateCheckDigit_range (data : string) :
  0 <= calculateCheckDigit data < 10.
Proof. unfold calculateCheckDigit. apply Z.mod_pos_bound. lia. Qed.

(** A check character that is the decimal digit of the computed value
    passes the test. *)
Lemma check_passes (d : Z) (c : ascii) :
  is_digit c = true -> code c - 48 = d -> check_fails (Some (single c)) d = false.
Proof.
  intros Hc Hd. unfold check_fails, str_of. simpl.
  rewrite (parseInt_digit c Hc), Hd.
  rewrite (bool_decide_eq_true_2 (Some d = Some d)) by done.
  by rewrite andb_false_r.
Qed.

Lemma elem_of_push_if (e : string) (c : bool) (m : string) (es : list string) :
  e ∈ push_if c m es <-> e ∈ es \/ (c = true /\ e = m).
Proof.
  unfold push_if. destruct c.
  - rewrite elem_of_app, list_elem_of_singleton. intuition congruence.
  - intuition congruence.
Qed.

Lemma split_go_cons (sep s : string) (skip : nat) (cur : list ascii) :
  exists x l, split_go sep s skip cur = x :: l.
Proof.
  revert skip cur. induction s as [|c s IH]; intros skip cur; cbn [split_go].
  - eauto.
  - destruct skip; [|apply IH].
    destruct (String.prefix sep (String c s)); [eauto | apply IH].
Qed.

Lemma split_head (sep s : string) : is_Some (split sep s !! 0%nat).
Proof.
  destruct (split_go_cons sep s 0 []) as (x & l & H).
  unfold split. rewrite H. by eexists.
Qed.

Lemma valid_iff_no_errors (es : list string) :
  bool_decide (length es = 0%nat) = true <-> es = [].
Proof. rewrite bool_decide_eq_true. by destruct es. Qed.

Local Opaque JS.substring calculateCheckDigit parseMRZDate JS.index
  strip_filler filler_to_space check_fails length_msg digit_msg split
  name_part trim push_if truthy.

Lemma validateTD3_total (l1 l2 : string) (es : list string) (pd : ParsedData) :
  is_Some (validateTD3 [l1; l2] es pd).
Proof.
  unfold validateTD3. cbn.
  destruct (split_head "<<" (JS.substring 5 44 l1)) as [n0 ->]. cbn.
  by eexists.
Qed.

Lemma validateTD1_total (l1 l2 l3 : string) (es : list string) (pd : ParsedData) :
  is_Some (validateTD1 [l1; l2; l3] es pd).
Proof. unfold validateTD1. cbn. by eexists. Qed.

Lemma length_test (n : nat) (s : string) :
  negb (String.length s =? n)%nat = true <-> String.length s <> n.
Proof. rewrite negb_true_iff, Nat.eqb_neq. done. Qed.

Lemma validateTD3_result (l1 l2 : string) :
  exists r, validateMRZ [l1; l2] = Some r
    /\ (valid r = true <-> errors r = [])
    /\ decoded (parsedData r)
    /\ forall e, e ∈ errors r <-> td3_error l1 l2 e.
Proof.
  unfold validateMRZ. cbn. unfold validateTD3. cbn.
  destruct (split_head "<<" (JS.substring 5 44 l1)) as [n0 ->]. cbn.
  eexists. split; [reflexivity|]. cbn.
  split; [apply valid_iff_no_errors|].
  split; [unfold decoded; cbn; repeat split; by eexists|].
  intros e. rewrite !elem_of_push_if, !length_test, elem_of_nil.
  unfold td3_error, td3_checked, mismatch.
  split.
  - intros H.
    repeat match goal with
           | H : _ \/ _ |- _ => destruct H as [H|H]
           end; try done.
    + left; done.
    + right; left; done.
    + right; right. destruct H as [? ->]. do 3 eexists.
      split; [|split; [eassumption|reflexivity]]. set_solver.
    + right; right. destruct H as [? ->]. do 3 eexists.
      split; [|split; [eassumption|reflexivity]]. set_solver.
    + right; right. destruct H as [? ->]. do 3 eexists.
      split; [|split; [eassumption|reflexivity]]. set_solver.
    + right; right. destruct H as [[Hp ?]%andb_true_iff ->]. do 3 eexists.
      split; [|split; [eassumption|reflexivity]]. rewrite Hp. set_solver.
    + right; right. destruct H as [? ->]. do 3 eexists.
      split; [|split; [eassumption|reflexivity]]. set_solver.
  - intros [H|[H|(what & data & chk & Hin & Hm & ->)]].
    + tauto.
    + tauto.
    + apply elem_of_app in Hin as [Hin|Hin].
      * repeat (apply elem_of_cons in Hin as [Hin|Hin]; [inversion Hin; subst; tauto|]).
        by apply elem_of_nil in Hin.
      * destruct (truthy _) eqn:Hp; [|by apply elem_of_nil in Hin].
        apply list_elem_of_singleton in Hin. inversion Hin; subst.
        rewrite Hm. tauto.
Qed.

Lemma validateTD1_result (l1 l2 l3 : string) :
  exists r, validateMRZ [l1; l2; l3] = Some r
    /\ (valid r = true <-> errors r = [])
    /\ decoded (parsedData r)
    /\ forall e, e ∈ errors r <-> td1_error l1 l2 l3 e.
Proof.
  unfold validateMRZ. cbn. unfold validateTD1. cbn.
  eexists. split; [reflexivity|]. cbn.
  split; [apply valid_iff_no_errors|].
  split; [unfold decoded; cbn; repeat split; by eexists|].
  intros e. rewrite !elem_of_push_if, !length_test, elem_of_nil.
  unfold td1_error, td1_checked, mismatch.
  split.
  - intros H.
    repeat match goal with
           | H : _ \/ _ |- _ => destruct H as [H|H]
           end; try done.
    + left; done.
    + right; left; done.
    + right; right; left; done.
    + do 3 right. destruct H as [? ->]. exists "Document number". do 2 eexists.
      split; [|split; [eassumption|reflexivity]]. set_solver.
    + do 3 right. destruct H as [? ->]. exists "Date of birth". do 2 eexists.
      split; [|split; [eassumption|reflexivity]]. set_solver.
    + do 3 right. destruct H as [? ->]. exists "Expiry date". do 2 eexists.
      split; [|split; [eassumption|reflexivity]]. set_solver.
  - intros [H|[H|[H|(what & data & chk & Hin & Hm & ->)]]]; [tauto..|].
    repeat (apply elem_of_cons in Hin as [Hin|Hin]; [inversion Hin; subst; tauto|]).
    by apply elem_of_nil in Hin.
Qed.

Lemma validateMRZ_total (lines : list string) : is_Some (validateMRZ lines).
Proof.
  unfold validateMRZ. case_bool_decide as H2; [|case_bool_decide as H3].
  - destruct lines as [|l1 [|l2 [|]]]; try done; apply validateTD3_total.
  - destruct lines as [|l1 [|l2 [|l3 [|]]]]; try done; apply validateTD1_total.
  - by eexists.
Qed.

End MRZFacts.

Module CheckDigitFacts.
Import JS MRZValidator Spec.

Lemma charValue_spec (c : ascii) : charValue c = char_value c.
Proof.
  unfold charValue, char_value, is_digit, is_upper.
  change (code "0") with 48. change (code "A") with 65.
  destruct (in_range 48 57 c); [done|].
  destruct (in_range 65 90 c); [done|].
  by destruct (is_char "<" c).
Qed.

Lemma weight_spec (i : nat) : default 0 (WEIGHTS !! (i mod 3)%nat) = weight i.
Proof.
  unfold weight. pose proof (Nat.mod_upper_bound i 3 ltac:(lia)) as Hlt.
  destruct (i mod 3)%nat as [|[|[|n]]]; try reflexivity. lia.
Qed.

Lemma check_loop_sum (s : string) (i : nat) (acc : Z) :
  check_loop s i acc =
  acc + foldr Z.add 0
          ((fun j => default 0 (char_value <$> String.get j s) * weight (i + j))
             <$> seq 0 (String.length s)).
Proof.
  revert i acc. induction s as [|c s IH]; intros i acc.
  - simpl. lia.
  - cbn [check_loop String.length]. rewrite IH.
    rewrite <- cons_seq, <- fmap_S_seq. cbn [fmap list_fmap foldr].
    rewrite <- list_fmap_compose. cbn [String.get].
    rewrite charValue_spec, weight_spec, Nat.add_0_r.
    rewrite Z.add_assoc. f_equal. f_equal.
    apply list_fmap_ext. intros _ j _. cbn. by rewrite Nat.add_succ_r.
Qed.

Lemma calculateCheckDigit_spec (s : string) :
  calculateCheckDigit s = check_digit s.
Proof.
  unfold calculateCheckDigit, check_digit. rewrite check_loop_sum. by rewrite Z.add_0_l.
Qed.

End CheckDigitFacts.

Module MRZTheorems.
Import JS MRZValidator Spec MRZFacts CheckDigitFacts.

Lemma other_errors_are_not_document_number (l1 l2 e : string) :
  td3_error l1 l2 e ->
  mismatch (substring 0 9 l2) (index l2 9) = false ->
  is_document_number_error e = false.
Proof.
  intros [[_ ->]|[[_ ->]|(what & data & chk & Hin & Hm & ->)]] Hok;
    [reflexivity..|].
  unfold td3_checked in Hin. apply elem_of_app in Hin as [Hin|Hin].
  - repeat (apply elem_of_cons in Hin as [Hin|Hin];
            [inversion Hin; subst; first [congruence | reflexivity]|]).
    by apply elem_of_nil in Hin.
  - destruct (truthy _); [|by apply elem_of_nil in Hin].
    apply list_elem_of_singleton in Hin. inversion Hin; subst. reflexivity.
Qed.

Lemma other_td1_errors_are_not_document_number (l1 l2 l3 e : string) :
  td1_error l1 l2 l3 e ->
  mismatch (substring 5 14 l1) (index l1 14) = false ->
  is_document_number_error e = false.
Proof.
  intros [[_ ->]|[[_ ->]|[[_ ->]|(what & data & chk & Hin & Hm & ->)]]] Hok;
    [reflexivity..|].
  unfold td1_checked in Hin.
  repeat (apply elem_of_cons in Hin as [Hin|Hin];
          [inversion Hin; subst; first [congruence | reflexivity]|]).
  by apply elem_of_nil in Hin.
Qed.

(** The digit computed for [s], written after [s], passes the test of
    the parser. *)
Lemma embedded_digit_passes (s rest : string) :
  mismatch (substring 0 (String.length s)
              (s +:+ of_Z (calculateCheckDigit s) +:+ rest))
    (index (s +:+ of_Z (calculateCheckDigit s) +:+ rest) (String.length s))
  = false.
Proof.
  destruct (of_Z_digit _ (calculateCheckDigit_range s)) as (c & Hc & Hd & Hv).
  rewrite Hc. unfold mismatch.
  rewrite substring_app_exact. change (single c +:+ rest) with (String c rest).
  rewrite index_app_exact. by apply check_passes.
Qed.

(** C1.  Check digit round trip: for a nine-character string [s] over
    the MRZ alphabet, the digit that the spec's weighted sum gives is
    the one the code computes, and when it follows [s] in the document
    number field of a synthetic zone (the head of line 2 of a two-line
    zone, or line 1 of a three-line zone after its first five
    characters) the parser returns a record with no error about the
    document number's check digit. *)
Theorem check_digit_round_trip (s line1 rest : string) :
  String.length s = 9%nat ->
  over_alphabet s ->
  calculateCheckDigit s = check_digit s
  /\ (exists r,
        validateMRZ [line1; s +:+ of_Z (check_digit s) +:+ rest] = Some r
        /\ forall e, e ∈ errors r -> is_document_number_error e = false)
  /\ (forall head line2 line3,
        String.length head = 5%nat ->
        exists r,
          validateMRZ [head +:+ s +:+ of_Z (check_digit s) +:+ rest; line2; line3]
          = Some r
          /\ forall e, e ∈ errors r -> is_document_number_error e = false).
Proof.
  intros Hlen _. split; [apply calculateCheckDigit_spec|].
  rewrite <- calculateCheckDigit_spec.
  pose proof (embedded_digit_passes s rest) as Hpass. rewrite Hlen in Hpass.
  split.
  - destruct (validateTD3_result line1 (s +:+ of_Z (calculateCheckDigit s) +:+ rest))
      as (r & Hr & _ & _ & Herr).
    exists r. split; [exact Hr|]. intros e He.
    eapply other_errors_are_not_document_number; [by apply Herr|exact Hpass].
  - intros head line2 line3 Hhead.
    destruct (validateTD1_result
                (head +:+ s +:+ of_Z (calculateCheckDigit s) +:+ rest) line2 line3)
      as (r & Hr & _ & _ & Herr).
    exists r. split; [exact Hr|]. intros e He.
    eapply other_td1_errors_are_not_document_number; [by apply Herr|].
    pose proof (substring_app_skip head
                  (s +:+ of_Z (calculateCheckDigit s) +:+ rest) 0 9) as Hsub.
    pose proof (index_app_skip head
                  (s +:+ of_Z (calculateCheckDigit s) +:+ rest) 9) as Hidx.
    rewrite Hhead in Hsub, Hidx. cbn [Nat.add] in Hsub, Hidx.
    rewrite Hsub, Hidx. exact Hpass.
Qed.

(** The round trip on the document number of the ICAO sample. *)
Lemma check_digit_round_trip_witness :
  exists r,
    validateMRZ ["P<UTOERIKSSON<<ANNA<MARIA<<<<<<<<<<<<<<<<<<<";
                 "L898902C<" +:+ of_Z (check_digit "L898902C<")
                   +:+ "UTO6908061F9406236ZE184226B<<<<<14"] = Some r
    /\ forall e, e ∈ errors r -> is_document_number_error e = false.
Proof.
  exact (proj1 (proj2 (check_digit_round_trip "L898902C<"
                         "P<UTOERIKSSON<<ANNA<MARIA<<<<<<<<<<<<<<<<<<<"
                         "UTO6908061F9406236ZE184226B<<<<<14" eq_refl eq_refl))).
Defined.

(** C2, as the spec states it, fails: the first sample line has 43
    characters and the last digit of the second is not the composite
    check digit, so the record is not valid. *)
Lemma spec_sample_is_not_valid :
  exists r, validateMRZ [Samples.line1; Samples.line2] = Some r /\ valid r = false.
Proof. eexists. split; [vm_compute; reflexivity | reflexivity]. Qed.

(** C2, amended.  Parsing the spec's two sample lines returns a record
    with surname ERIKSSON, given names ANNA MARIA and the document
    number read from positions 0-9 with the filler removed; the check
    digits of the document number, the date of birth and the expiry
    date are verified, and the record is not valid, for two reasons:
    line 1 has 43 characters and the composite check digit is 4, not 0.
    With line 1 padded to 44 characters and 4 as the last digit of
    line 2 the record is valid, with the same fields. *)
Theorem spec_sample_parse :
  (exists r,
      validateMRZ [Samples.line1; Samples.line2] = Some r
      /\ valid r = false
      /\ errors r = ["Line 1 length invalid: 43, expected 44";
                     "Composite check digit failed: expected 4, got 0"]
      /\ pd_surname (parsedData r) = Some "ERIKSSON"
      /\ pd_givenNames (parsedData r) = Some "ANNA MARIA"
      /\ pd_documentNumber (parsedData r) = Some "L898902C"
      /\ mismatch (substring 0 9 Samples.line2) (index Samples.line2 9) = false
      /\ mismatch (substring 13 19 Samples.line2) (index Samples.line2 19) = false
      /\ mismatch (substring 21 27 Samples.line2) (index Samples.line2 27) = false)
  /\ (exists r,
        validateMRZ [Samples.line1 +:+ "<";
                     substring 0 43 Samples.line2 +:+ "4"] = Some r
        /\ valid r = true
        /\ errors r = []
        /\ pd_surname (parsedData r) = Some "ERIKSSON"
        /\ pd_givenNames (parsedData r) = Some "ANNA MARIA"
        /\ pd_documentNumber (parsedData r) = Some "L898902C").
Proof.
  split; (eexists; split; [vm_compute; reflexivity|]); repeat split.
Qed.

(** C3.  [validateMRZ] looks at the number of lines only: two lines go
    to [validateTD3], three to [validateTD1], and any other number
    gives at once the record that is not valid, holds the single error
    about the format and has no decoded field. *)
Theorem validateMRZ_dispatch (lines : list string) :
  (length lines = 2%nat -> validateMRZ lines = validateTD3 lines [] emptyParsed)
  /\ (length lines = 3%nat -> validateMRZ lines = validateTD1 lines [] emptyParsed)
  /\ (length lines <> 2%nat -> length lines <> 3%nat ->
      validateMRZ lines =
      Some {| valid := false;
              errors := ["Invalid MRZ format - expected 2 or 3 lines"];
              parsedData :=
                {| pd_documentType := None; pd_issuingCountry := None;
                   pd_surname := None; pd_givenNames := None;
                   pd_documentNumber := None; pd_nationality := None;
                   pd_dateOfBirth := None; pd_sex := None;
                   pd_expiryDate := None |} |}).
Proof.
  unfold validateMRZ. repeat split.
  - intros H. by rewrite bool_decide_eq_true_2.
  - intros H. rewrite bool_decide_eq_false_2 by lia. by rewrite bool_decide_eq_true_2.
  - intros H2 H3. by rewrite !bool_decide_eq_false_2.
Qed.

End MRZTheorems.

Module ValidatorTheorems.
Import JS DocumentValidator Spec.

(** On a date that parses, the expiry check passes exactly when the
    date is not before the current time. *)
Lemma expiry_check_parsed_date (h : Host) (data : ExtractedData) (t : Z) :
  JSDate.parse h (value (expiryDate data)) = Some t ->
  passed (checkDocumentExpiry h data) = negb (t <? now h).
Proof. intros H. unfold checkDocumentExpiry. rewrite H. reflexivity. Qed.

(** C5 (defect of the code).  When the expiry date does not parse,
    [new Date] gives an Invalid Date instead of throwing, the
    comparison with today is false, and the check passes with the
    message "Document valid until ..."; the handler that reports
    "Invalid expiry date format" is never reached. *)
Theorem expiry_check_passes_unparsed_date (h : Host) (data : ExtractedData) :
  JSDate.parse h (value (expiryDate data)) = None ->
  checkDocumentExpiry h data =
  {| check := "Document Expiry"; passed := true;
     message := "Document valid until " +:+ value (expiryDate data) |}.
Proof. intros H. unfold checkDocumentExpiry. rewrite H. reflexivity. Qed.

(** The expiry date INVALID passes the check. *)
Lemma expiry_check_passes_unparsed_date_witness :
  checkDocumentExpiry Samples.host (Samples.doc "USA" "1990-05-15" "INVALID") =
  {| check := "Document Expiry"; passed := true;
     message := "Document valid until INVALID" |}.
Proof.
  exact (expiry_check_passes_unparsed_date Samples.host
           (Samples.doc "USA" "1990-05-15" "INVALID") eq_refl).
Defined.

(** No input reaches the handler of the expiry check. *)
Lemma expiry_check_never_reports_format (h : Host) (data : ExtractedData) :
  message (checkDocumentExpiry h data) <> "Invalid expiry date format".
Proof.
  unfold checkDocumentExpiry, try_catch. cbn.
  destruct (Num.lt _ _); cbn; discriminate.
Qed.

(** C7.  The nationality check fails when the nationality is blocked,
    with the message of the blocked case whatever the allowed list
    holds; it fails when the allowed list is not empty and does not
    hold the nationality; it passes otherwise.  PRK fails under the
    default policy, whatever the other fields are. *)
Theorem nationality_eligibility (data : ExtractedData) (policy : EligibilityPolicy) :
  (value (nationality data) ∈ blockedNationalities policy ->
   checkNationalityEligibility data policy =
   {| check := "Nationality Eligibility"; passed := false;
      message := "Nationality " +:+ value (nationality data)
                   +:+ " is not eligible for visa" |})
  /\ (allowedNationalities policy <> [] ->
      value (nationality data) ∉ allowedNationalities policy ->
      passed (checkNationalityEligibility data policy) = false)
  /\ (value (nationality data) ∉ blockedNationalities policy ->
      allowedNationalities policy = []
      \/ value (nationality data) ∈ allowedNationalities policy ->
      passed (checkNationalityEligibility data policy) = true)
  /\ (value (nationality data) = "PRK" ->
      passed (checkNationalityEligibility data defaultEligibilityPolicy) = false).
Proof.
  unfold checkNationalityEligibility, arr_includes. repeat split.
  - intros H. by rewrite bool_decide_eq_true_2.
  - intros Hne Hnot. case_bool_decide; [done|].
    rewrite (bool_decide_eq_false_2 _ Hnot).
    destruct (allowedNationalities policy); [done|]. reflexivity.
  - intros Hnb [He|Hin]; rewrite (bool_decide_eq_false_2 _ Hnb).
    + by rewrite He.
    + rewrite (bool_decide_eq_true_2 _ Hin). by rewrite andb_false_r.
  - intros ->. reflexivity.
Qed.

(** C8, as the spec states it, fails: after lower-casing and trimming,
    "john smith" and "jon smith" are different strings. *)
Lemma jon_smith_does_not_match :
  passed (checkNameMatch (Samples.doc "USA" "1990-05-15" "2030-01-01")
            (Samples.applicant "Jon Smith" "tourist")) = false.
Proof. reflexivity. Qed.

(** C8, amended.  The name check passes exactly when the lower-cased,
    trimmed "givenNames surname" of the document equals the
    lower-cased, trimmed name the applicant claims.  For the extracted
    JOHN SMITH, the claims "Jon Smith" and "Jane Smith" both fail, with
    both names quoted in the message; a claim that differs in case and
    outer white space only, such as " john SMITH ", passes. *)
Theorem name_match (data : ExtractedData) (applicant : ApplicantData) :
  (passed (checkNameMatch data applicant) = true <->
   trim (toLowerCase (value (givenNames data) +:+ " " +:+ value (surname data)))
   = trim (toLowerCase (name applicant)))
  /\ (value (givenNames data) = "JOHN" -> value (surname data) = "SMITH" ->
      (name applicant = "Jon Smith" ->
       checkNameMatch data applicant =
       {| check := "Name Match"; passed := false;
          message := "Name mismatch: Document shows " +:+ dquote +:+ "john smith"
                       +:+ dquote +:+ ", applicant claims " +:+ dquote
                       +:+ "jon smith" +:+ dquote |})
      /\ (name applicant = "Jane Smith" ->
          checkNameMatch data applicant =
          {| check := "Name Match"; passed := false;
             message := "Name mismatch: Document shows " +:+ dquote +:+ "john smith"
                          +:+ dquote +:+ ", applicant claims " +:+ dquote
                          +:+ "jane smith" +:+ dquote |})
      /\ (name applicant = " john SMITH " ->
          passed (checkNameMatch data applicant) = true)).
Proof.
  split.
  - unfold checkNameMatch. cbn [passed]. apply bool_decide_eq_true.
  - intros Hg Hs. unfold checkNameMatch. rewrite Hg, Hs.
    repeat split; intros ->; reflexivity.
Qed.

(** The age check passes exactly when the date of birth parses and the
    age lies between the minimal age in force and the maximal age. *)
Lemma age_requirements_passed (h : Host) (data : ExtractedData)
    (applicant : ApplicantData) (policy : EligibilityPolicy) :
  let age := age_of h (JSDate.parse h (value (dateOfBirth data))) (Some (now h)) in
  let low :=
    Num.or_else
      (req_minAge (read_prop (visaTypeRequirements policy) (intendedVisaType applicant)))
      (minAge policy) in
  passed (checkAgeRequirements h data applicant policy) = true <->
  exists a, age = Some a /\ low <= a <= maxAge policy.
Proof.
  cbn zeta. unfold checkAgeRequirements, try_catch. cbn [default passed].
  destruct (age_of _ _ _) as [a|]; cbn.
  - rewrite andb_true_iff, !Z.leb_le. split.
    + intros [? ?]. exists a. split; [done|lia].
    + intros (a' & [= <-] & ?). lia.
  - split; [done|]. by intros (a & ? & _).
Qed.

(** The minimal age in force: the one of the visa type when the entry
    exists and its [minAge] is present and not 0, the one of the policy
    in every other case. *)
Lemma minimal_age_in_force (policy : EligibilityPolicy) (visa : string) :
  let low := Num.or_else (req_minAge (read_prop (visaTypeRequirements policy) visa))
               (minAge policy) in
  (forall r m, visaTypeRequirements policy !! visa = Some r ->
               vt_minAge r = Some m -> m <> 0 -> low = m)
  /\ (forall r, visaTypeRequirements policy !! visa = Some r ->
                vt_minAge r = None \/ vt_minAge r = Some 0 -> low = minAge policy)
  /\ (visaTypeRequirements policy !! visa = None -> low = minAge policy).
Proof.
  cbn zeta. unfold read_prop. repeat split.
  - intros r m -> Hm Hne. cbn. rewrite Hm. cbn.
    destruct (m =? 0) eqn:E; [lia|done].
  - intros r -> [H|H]; cbn; by rewrite H.
  - intros ->. by case_bool_decide.
Qed.

(** C9 (defect of the code).  A minimal age of 0 configured for the
    visa type is dropped by [||] as if it were absent: the check then
    compares the age with the minimal age of the policy. *)
Theorem zero_minimal_age_is_ignored (h : Host) (data : ExtractedData)
    (applicant : ApplicantData) (policy : EligibilityPolicy)
    (r : VisaTypeRequirement) :
  visaTypeRequirements policy !! intendedVisaType applicant = Some r ->
  vt_minAge r = Some 0 ->
  let age := age_of h (JSDate.parse h (value (dateOfBirth data))) (Some (now h)) in
  passed (checkAgeRequirements h data applicant policy)
  = Num.ge age (Some (minAge policy)) && Num.le age (Some (maxAge policy)).
Proof.
  intros Hr Hm. cbn zeta. unfold checkAgeRequirements, try_catch, read_prop.
  rewrite Hr. cbn. rewrite Hm. reflexivity.
Qed.

(** An applicant of age 10 for a visa type with minimal age 0 is held
    to the minimal age 18 of the policy. *)
Lemma zero_minimal_age_is_ignored_witness :
  age_of Samples.host (JSDate.parse Samples.host "2016-01-01")
    (Some (now Samples.host)) = Some 10
  /\ passed (checkAgeRequirements Samples.host
               (Samples.doc "USA" "2016-01-01" "2030-01-01")
               (Samples.applicant "John Smith" "minor") Samples.minor_policy)
     = false.
Proof.
  split; [reflexivity|].
  exact (zero_minimal_age_is_ignored Samples.host
           (Samples.doc "USA" "2016-01-01" "2030-01-01")
           (Samples.applicant "John Smith" "minor") Samples.minor_policy
           _ eq_refl eq_refl).
Defined.

(** C10.  Under the default policy the visa type check fails for every
    nationality when the visa type is tourist, business, student or
    work: each of these entries has the empty list as
    [allowedNationalities], and a list that is present, empty or not,
    asks for membership.  The empty list of the policy itself is read
    as no restriction by the nationality check. *)
Theorem default_visa_types_reject_every_nationality
    (data : ExtractedData) (applicant : ApplicantData) :
  (forall visa, visa ∈ ["tourist"; "business"; "student"; "work"] ->
     exists r, visaTypeRequirements defaultEligibilityPolicy !! visa = Some r
               /\ vt_allowedNationalities r = Some [])
  /\ (intendedVisaType applicant ∈ ["tourist"; "business"; "student"; "work"] ->
      checkVisaTypeRequirements data applicant defaultEligibilityPolicy =
      {| check := "Visa Type Requirements"; passed := false;
         message := "Nationality " +:+ value (nationality data)
                      +:+ " not eligible for " +:+ intendedVisaType applicant
                      +:+ " visa" |})
  /\ (forall policy r allowed,
        visaTypeRequirements policy !! intendedVisaType applicant = Some r ->
        vt_allowedNationalities r = Some allowed ->
        passed (checkVisaTypeRequirements data applicant policy)
        = bool_decide (value (nationality data) ∈ allowed))
  /\ (forall policy,
        allowedNationalities policy = [] ->
        value (nationality data) ∉ blockedNationalities policy ->
        passed (checkNationalityEligibility data policy) = true).
Proof.
  repeat split.
  - intros visa Hin.
    repeat (apply elem_of_cons in Hin as [->|Hin]; [eexists; split; reflexivity|]).
    by apply elem_of_nil in Hin.
  - intros Hin. unfold checkVisaTypeRequirements.
    repeat (apply elem_of_cons in Hin as [->|Hin]; [reflexivity|]).
    by apply elem_of_nil in Hin.
  - intros policy r allowed Hr Ha. unfold checkVisaTypeRequirements, read_prop.
    rewrite Hr. cbn. rewrite Ha. unfold arr_includes.
    by case_bool_decide.
  - intros policy Ha Hnb. unfold checkNationalityEligibility, arr_includes.
    rewrite (bool_decide_eq_false_2 _ Hnb), Ha. reflexivity.
Qed.

End ValidatorTheorems.

Module ExtractorTheorems.
Import JS OCRProcessor Spec MRZFacts.

Lemma extractFields_confidences (h : Host) (text : string)
    (parsedMRZ : option ParsedData) (mrzConfidence : Z) :
  confidences (extractFields h text parsedMRZ mrzConfidence)
  = match parsedMRZ with
    | Some _ => replicate 9 mrzConfidence
    | None => heuristic_scores
    end
  /\ confidence (issueDate (extractFields h text parsedMRZ mrzConfidence)) = 70.
Proof. by destruct parsedMRZ. Qed.

(** C6, as the spec states it, fails: a field that a heuristic fills
    because the zone did not supply it gets the confidence of the
    zone.  With one candidate line the codec returns no field at all,
    the document type comes from the keyword PASSPORT, and its
    confidence is 60, not 80; with a valid zone whose nationality is
    all filler, the nationality comes from the text and its confidence
    is 95, not 80. *)
Lemma heuristic_field_gets_zone_confidence :
  (exists r d,
      MRZValidator.validateMRZ (extractMRZ Samples.one_line_text) = Some r
      /\ pd_documentType (parsedData r) = None
      /\ processText Samples.host Samples.one_line_text = Some d
      /\ value (documentType d) = extractDocumentType Samples.one_line_text
      /\ confidence (documentType d) = 60)
  /\ (exists r d,
        MRZValidator.validateMRZ (extractMRZ Samples.no_nationality_text) = Some r
        /\ valid r = true
        /\ pd_nationality (parsedData r) = Some EmptyString
        /\ processText Samples.host Samples.no_nationality_text = Some d
        /\ value (nationality d) = extractPattern Samples.no_nationality_text re_code3
        /\ value (nationality d) = "FRA"
        /\ confidence (nationality d) = 95).
Proof.
  split; do 2 eexists.
  - split; [vm_compute; reflexivity|]. split; [reflexivity|].
    split; [vm_compute; reflexivity|]. split; reflexivity.
  - split; [vm_compute; reflexivity|]. split; [reflexivity|].
    split; [reflexivity|].
    split; [vm_compute; reflexivity|]. repeat split; vm_compute; reflexivity.
Qed.

(** C6, amended.  The confidence of a field does not follow the
    provenance of its value but the presence of a zone record: when
    the text has no candidate line the nine fields get their
    heuristic-only scores (80, 75, 75, 75, 80, 80, 70, 85, 70); when it
    has one, all nine get 95 if the zone is valid and 60 if it is not,
    also the fields whose value a heuristic supplied; the issue date
    always gets 70.  [extractFields] itself gives the confidence it is
    handed to all nine fields as soon as the record is not null. *)
Theorem confidence_follows_the_zone (h : Host) (text : string) :
  (forall parsedMRZ mrzConfidence,
      confidences (extractFields h text parsedMRZ mrzConfidence)
      = match parsedMRZ with
        | Some _ => replicate 9 mrzConfidence
        | None => heuristic_scores
        end
      /\ confidence (issueDate (extractFields h text parsedMRZ mrzConfidence)) = 70)
  /\ exists d,
      processText h text = Some d
      /\ confidence (issueDate d) = 70
      /\ (extractMRZ text = [] -> confidences d = heuristic_scores)
      /\ (extractMRZ text <> [] ->
          exists r, MRZValidator.validateMRZ (extractMRZ text) = Some r
                    /\ confidences d = replicate 9 (if valid r then 95 else 60)).
Proof.
  split; [intros; apply extractFields_confidences|].
  unfold processText. destruct (extractMRZ text) as [|l ls] eqn:Hl.
  - cbn. eexists. split; [reflexivity|]. repeat split; done.
  - destruct (validateMRZ_total (l :: ls)) as [r Hr].
    cbn [length Nat.ltb Nat.leb]. rewrite Hr. cbn.
    eexists. split; [reflexivity|]. split; [reflexivity|].
    split; [done|]. intros _. exists r. split; reflexivity.
Qed.

End ExtractorTheorems.

Module CodecTheorems.
Import JS MRZValidator OCRProcessor MRZFacts.

(** X2.  The codec and the extractor return on every input: no line count,
    line length or text makes them throw. *)
Theorem codec_never_throws (h : Host) (text : string) (lines : list string) :
  is_Some (validateMRZ lines) /\ is_Some (processText h text).
Proof.
  split; [apply validateMRZ_total|].
  unfold processText. destruct (extractMRZ text) as [|l ls].
  - by eexists.
  - destruct (validateMRZ_total (l :: ls)) as [r Hr].
    cbn [length Nat.ltb Nat.leb]. rewrite Hr. by eexists.
Qed.

End CodecTheorems.

Module RegexFacts.
Import JS Regex Shape.

Lemma run_rep_0 {R} (r : re) (lo : nat) prev s caps
    (k : option ascii -> string -> list string -> option R) :
  run (Rep r lo (Some 0%nat)) prev s caps k
  = if (lo =? 0)%nat then k prev s caps else None.
Proof. reflexivity. Qed.

Lemma run_rep_S {R} (r : re) (lo n : nat) prev s caps
    (k : option ascii -> string -> list string -> option R) :
  run (Rep r lo (Some (S n))) prev s caps k
  = match run r prev s caps
            (fun p' s' c' => run (Rep r (pred lo) (Some n)) p' s' c' k) with
    | Some x => Some x
    | None => if (lo =? 0)%nat then k prev s caps else None
    end.
Proof. reflexivity. Qed.

Lemma run_rep_unbounded {R} (r : re) (lo : nat) prev s caps
    (k : option ascii -> string -> list string -> option R) :
  run (Rep r lo None) prev s caps k
  = run (Rep r lo (Some (String.length s))) prev s caps k.
Proof. reflexivity. Qed.

Lemma run_class {R} (p : ascii -> bool) prev s caps
    (k : option ascii -> string -> list string -> option R) :
  run (Class p) prev s caps k
  = match s with
    | String c rest => if p c then k (Some c) rest caps else None
    | EmptyString => None
    end.
Proof. reflexivity. Qed.

(** A repetition of a character class, followed by anything: what a
    match gives. *)
Lemma rep_class_inv {R} (p : ascii -> bool) (n lo : nat) prev s caps
    (k : option ascii -> string -> list string -> option R) (x : R) :
  run (Rep (Class p) lo (Some n)) prev s caps k = Some x ->
  exists a b prev',
    s = a +:+ b /\ all_chars p a = true
    /\ (lo <= String.length a <= n)%nat /\ k prev' b caps = Some x.
Proof.
  revert lo prev s. induction n as [|n IH]; intros lo prev s.
  - rewrite run_rep_0. destruct (lo =? 0)%nat eqn:E; [|done].
    apply Nat.eqb_eq in E as ->. intros H.
    exists EmptyString, s, prev. by repeat split.
  - rewrite run_rep_S, run_class.
    assert (Hstop : (if (lo =? 0)%nat then k prev s caps else None) = Some x ->
                    exists a b prev',
                      s = a +:+ b /\ all_chars p a = true
                      /\ (lo <= String.length a <= S n)%nat /\ k prev' b caps = Some x).
    { destruct (lo =? 0)%nat eqn:E; [|done]. apply Nat.eqb_eq in E as ->.
      intros H. exists EmptyString, s, prev. repeat split; [done|cbn; lia|done]. }
    destruct s as [|c s]; [exact Hstop|].
    destruct (p c) eqn:Hp; [|exact Hstop].
    destruct (run (Rep (Class p) (pred lo) (Some n)) (Some c) s caps k) as [y|] eqn:Hin;
      [|exact Hstop].
    intros [= ->]. apply IH in Hin as (a & b & prev' & -> & Ha & Hl & Hk).
    exists (String c a), b, prev'. cbn. rewrite Hp, Ha. repeat split; [lia..|done].
Qed.

(** A repetition of a class that must reach the end of the subject. *)
Lemma rep_class_to_end {R} (p : ascii -> bool) (n lo : nat) prev s caps
    (k : option ascii -> string -> list string -> option R) :
  (forall prev' s' caps', is_Some (k prev' s' caps') <-> s' = EmptyString) ->
  is_Some (run (Rep (Class p) lo (Some n)) prev s caps k)
  <-> (lo <= String.length s <= n)%nat /\ all_chars p s = true.
Proof.
  intros Hk. revert lo prev s. induction n as [|n IH]; intros lo prev s.
  - rewrite run_rep_0. destruct (lo =? 0)%nat eqn:E.
    + apply Nat.eqb_eq in E as ->. rewrite Hk. split.
      * intros ->. cbn. split; [lia|done].
      * intros [Hl _]. destruct s; [done|cbn in Hl; lia].
    + apply Nat.eqb_neq in E. split; [by intros [? ?]|]. intros [Hl _]. lia.
  - rewrite run_rep_S, run_class. destruct s as [|c s].
    + destruct (lo =? 0)%nat eqn:E.
      * apply Nat.eqb_eq in E as ->. rewrite Hk. cbn. split; [|done].
        intros _. split; [lia|done].
      * apply Nat.eqb_neq in E. split; [by intros [? ?]|]. cbn. lia.
    + assert (Hno : ~ is_Some (if (lo =? 0)%nat then k prev (String c s) caps else None)).
      { destruct (lo =? 0)%nat; [rewrite Hk; done|by intros [? ?]]. }
      cbn [all_chars String.length]. destruct (p c) eqn:Hp.
      * specialize (IH (pred lo) (Some c) s).
        destruct (run (Rep (Class p) (pred lo) (Some n)) (Some c) s caps k) as [y|].
        -- split; [|by eexists]. intros _.
           destruct IH as [IH _]. destruct (IH ltac:(by eexists)) as [Hl Ha].
           split; [lia|done].
        -- split; [intros H; by destruct Hno|].
           intros [Hl Ha]. destruct IH as [_ IH].
           destruct (IH ltac:(split; [lia|done])) as [? ?]. done.
      * split; [intros H; by destruct Hno|]. by intros [_ ?].
Qed.

(** A pattern that starts with [^] matches at the start or nowhere. *)
Lemma search_bol_later (r : re) (c : ascii) (s : string) :
  search (Seq Bol r) (Some c) s = None.
Proof.
  revert c. induction s as [|d s IH]; intros c; [reflexivity|].
  cbn [search run]. apply IH.
Qed.

Lemma test_anchored (r : re) (s : string) :
  test (Seq Bol r) s = true
  <-> is_Some (run r None s [] (fun _ s' c => Some (consumed s s', c))).
Proof.
  unfold test, match_. rewrite bool_decide_eq_true.
  destruct s as [|c s]; cbn [search run].
  - by destruct (run r None EmptyString [] _).
  - destruct (run r None (String c s) [] _); [done|].
    by rewrite search_bol_later.
Qed.

(** [/^[...]+$/]: the subject is not empty and all of it is in the
    class. *)
Lemma test_anchored_plus (p : ascii -> bool) (s : string) :
  test (Seq Bol (Seq (plus (Class p)) Eol)) s = true
  <-> s <> EmptyString /\ all_chars p s = true.
Proof.
  rewrite test_anchored. cbn [run]. unfold plus. rewrite run_rep_unbounded.
  rewrite rep_class_to_end.
  - destruct s; cbn [String.length]; [|split; intros [_ ?]; (split; [done||lia|done])].
    split; [lia|]. by intros [? _].
  - intros prev' s' caps'. cbn. destruct s'; [|split; [by intros [? ?]|done]].
    split; [done|]. intros _. by eexists.
Qed.

End RegexFacts.

Module FormatFacts.
Import JS Regex Shape Checks RegexFacts MRZValidator.

Lemma test_re_date (s : string) : test re_date s = true <-> date_shape s = true.
Proof.
  unfold re_date. rewrite test_anchored.
  do 11 (destruct s as [|? s];
         [cbn; repeat (match goal with
                       | |- context [if ?b then _ else _] => destruct b eqn:?
                       end; cbn);
          split; first [done | by intros [? ?] | by eexists]|]).
  cbn. repeat (match goal with
               | |- context [if ?b then _ else _] => destruct b eqn:?
               end; cbn);
    split; first [done | by intros [? ?]].
Qed.

Lemma test_re_nationality (s : string) :
  test re_nationality s = true
  <-> String.length s = 3%nat /\ all_chars is_upper s = true.
Proof.
  unfold re_nationality. rewrite test_anchored.
  do 4 (destruct s as [|? s];
        [cbn; repeat (match goal with
                      | |- context [if ?b then _ else _] => destruct b eqn:?
                      end; cbn);
         split; first [by intros [? ?] | by intros [? ?] | (intros _; split; done)
                      | by eexists ]|]).
  cbn. repeat (match goal with
               | |- context [if ?b then _ else _] => destruct b eqn:?
               end; cbn);
    split; first [by intros [? ?] | (intros [? ?]; lia) ].
Qed.

Lemma digit_cases (c : ascii) :
  is_digit c = true ->
  In c ["0"; "1"; "2"; "3"; "4"; "5"; "6"; "7"; "8"; "9"]%char.
Proof.
  destruct c as [[] [] [] [] [] [] [] []]; intros H;
    first [discriminate H | cbn; repeat (first [left; reflexivity | right])].
Qed.

Lemma two_chars_of (s : string) :
  String.length s = 2%nat -> exists a b, s = String a (String b EmptyString).
Proof.
  destruct s as [|a [|b [|c s]]]; try discriminate. intros _. by exists a, b.
Qed.

(** The expansion of a two-digit year, for every pair of digits. *)
Lemma year_expansion (a b : ascii) (mm dd : string) :
  is_digit a = true -> is_digit b = true ->
  String.length mm = 2%nat -> String.length dd = 2%nat ->
  parseMRZDate (String a (String b (mm +:+ dd)))
  = (if 50 <? 10 * (code a - 48) + (code b - 48) then "19" else "20")
      +:+ String a (String b ("-" +:+ mm +:+ "-" +:+ dd)).
Proof.
  intros Ha%digit_cases Hb%digit_cases (m1 & m2 & ->)%two_chars_of
    (d1 & d2 & ->)%two_chars_of.
  cbn [In] in Ha, Hb.
  repeat (destruct Ha as [<-|Ha]; [|]); try done;
    repeat (destruct Hb as [<-|Hb]; [|]); try done; reflexivity.
Qed.

End FormatFacts.

Module ZoneFacts.
Import JS MRZValidator MRZFacts CheckDigitFacts FormatFacts Layout.

Lemma strip_filler_spec (s : string) : strip_filler s = without_filler s.
Proof.
  unfold strip_filler, without_filler.
  induction s as [|c s IH]; [reflexivity|].
  cbn [replaceAll list_ascii_of_string List.filter].
  destruct (is_char "<" c); cbn [negb string_of_list_ascii]; by rewrite IH.
Qed.

Lemma filler_to_space_spec (s : string) :
  filler_to_space s = map_chars (fun c => if is_char "<" c then " "%char else c) s.
Proof.
  unfold filler_to_space.
  induction s as [|c s IH]; [reflexivity|].
  cbn [replaceAll map_chars]. rewrite IH. by destruct (is_char "<" c).
Qed.

Lemma personal_number_given (s : string) :
  truthy (Some (strip_filler s)) = negb (all_filler s).
Proof.
  unfold strip_filler, all_filler.
  induction s as [|c s IH]; [reflexivity|].
  cbn [replaceAll Shape.all_chars].
  destruct (is_char "<" c); [exact IH | reflexivity].
Qed.

Lemma rev_piece (c : ascii) (cur : list ascii) (s : string) :
  string_of_list_ascii (rev (c :: cur)) +:+ s
  = string_of_list_ascii (rev cur) +:+ String c s.
Proof.
  cbn [rev]. induction (rev cur) as [|a l IH]; [reflexivity|].
  cbn [app string_of_list_ascii].
  change (String a (string_of_list_ascii (l ++ [c]) +:+ s)
          = String a (string_of_list_ascii l +:+ String c s)).
  by rewrite IH.
Qed.

Lemma append_empty (s : string) : s +:+ EmptyString = s.
Proof.
  induction s as [|c s IH]; [reflexivity|].
  change (String c (s +:+ EmptyString) = String c s). by rewrite IH.
Qed.

Lemma double_filler_inv (c : ascii) (r : string) :
  String.prefix "<<" (String c r) = true -> exists r', r = String "<" r'.
Proof.
  destruct r as [|b r']; cbn [String.prefix].
  - destruct (ascii_dec "<" c); discriminate.
  - destruct (ascii_dec "<" c); [|discriminate].
    destruct (ascii_dec "<" b); [|discriminate]. subst. by eexists.
Qed.

(** The first two pieces of [split('<<')]. *)
Lemma split_go_pieces (n : nat) (s : string) (cur : list ascii) :
  (String.length s <= n)%nat ->
  split_go "<<" s 0 cur !! 0%nat
  = Some (string_of_list_ascii (rev cur) +:+ first_piece s)
  /\ split_go "<<" s 0 cur !! 1%nat = second_piece s.
Proof.
  revert s cur. induction n as [|n IH]; intros s cur Hn.
  - destruct s; [|cbn in Hn; lia]. cbn. by rewrite append_empty.
  - destruct s as [|c r]; [cbn; by rewrite append_empty|].
    cbn [split_go first_piece second_piece].
    destruct (String.prefix "<<" (String c r)) eqn:Hp.
    + destruct (double_filler_inv _ _ Hp) as [r' ->].
      cbn [String.length Nat.sub split_go]. split.
      * cbn. by rewrite append_empty.
      * change ((?x :: ?l) !! 1%nat) with (l !! 0%nat).
        destruct (IH r' [] ltac:(cbn in Hn; lia)) as [-> _]. reflexivity.
    + destruct (IH r (c :: cur) ltac:(cbn in Hn; lia)) as [-> ->].
      by rewrite rev_piece.
Qed.

Lemma split_first (s : string) : split "<<" s !! 0%nat = Some (first_piece s).
Proof. unfold split. by destruct (split_go_pieces (String.length s) s [] (le_n _)) as [-> _]. Qed.

Lemma split_second (s : string) : split "<<" s !! 1%nat = second_piece s.
Proof. unfold split. by destruct (split_go_pieces (String.length s) s [] (le_n _)) as [_ ->]. Qed.

Lemma trim_empty (s : string) : or_else (Some (trim s)) EmptyString = trim s.
Proof. by destruct (trim s). Qed.

Lemma name_part_spec (x : option string) : name_part x = name_of x.
Proof.
  unfold name_part, name_of. destruct x as [p|]; [|reflexivity].
  cbn [fmap option_fmap option_map]. rewrite trim_empty. by rewrite filler_to_space_spec.
Qed.

Lemma parseMRZDate_spec (field d : string) :
  expand_date field = Some d -> parseMRZDate field = d.
Proof.
  destruct field as [|y1 [|y2 [|m1 [|m2 [|d1 [|d2 [|x r]]]]]]];
    cbn [expand_date]; try (intros [= <-]; reflexivity).
  destruct (is_digit y1) eqn:H1; [|done]. destruct (is_digit y2) eqn:H2; [|done].
  cbn [andb]. intros [= <-].
  exact (year_expansion y1 y2 (String m1 (String m2 EmptyString))
           (String d1 (String d2 EmptyString)) H1 H2 eq_refl eq_refl).
Qed.

Lemma date_is_decoded (field : string) :
  date_decoded field (Some (parseMRZDate field)).
Proof.
  split; [by eexists|]. intros d Hd. by rewrite (parseMRZDate_spec _ _ Hd).
Qed.

Lemma index_shape (s : string) (i : nat) :
  index s i = None \/ exists c, index s i = Some (single c).
Proof. unfold index. destruct (String.get i s); cbn; eauto. Qed.

Lemma parseInt_single (c : ascii) :
  parseInt (single c) = digit_of (Some (single c)).
Proof.
  destruct (is_digit c) eqn:Hc.
  - rewrite (parseInt_digit c Hc). unfold digit_of, single. by rewrite Hc.
  - destruct c as [[] [] [] [] [] [] [] []]; first [discriminate Hc | reflexivity].
Qed.

(** The test of the parser is the mismatch of the layout, on a check
    character read from a line. *)
Lemma check_fails_spec (data l : string) (i : nat) :
  check_fails (index l i) (calculateCheckDigit data)
  = digit_mismatch data (index l i).
Proof.
  unfold check_fails, digit_mismatch. rewrite calculateCheckDigit_spec.
  destruct (index_shape l i) as [-> | [c ->]]; [reflexivity|].
  change (str_of (Some (single c))) with (single c). by rewrite parseInt_single.
Qed.

Lemma digit_text_spec (d : Z) : 0 <= d < 10 -> of_Z d = digit_text d.
Proof.
  intros Hd.
  assert (H : d = 0 \/ d = 1 \/ d = 2 \/ d = 3 \/ d = 4 \/ d = 5 \/ d = 6
              \/ d = 7 \/ d = 8 \/ d = 9) by lia.
  repeat destruct H as [-> | H]; try subst d; reflexivity.
Qed.

Lemma push_if_app (c : bool) (m : string) (es : list string) :
  push_if c m es = es ++ (if c then [m] else []).
Proof. unfold push_if. destruct c; [reflexivity|]. by rewrite app_nil_r. Qed.

Lemma wrong_length_spec (k n : nat) (label expected line : string) :
  of_Z (Z.of_nat k) = label -> of_Z (Z.of_nat n) = expected ->
  (if negb (String.length line =? n)%nat then [length_msg k line expected] else [])
  = wrong_length n label line.
Proof.
  intros Hl He. unfold wrong_length, length_msg. rewrite Hl, He.
  by destruct (String.length line =? n)%nat.
Qed.

Lemma td3_digit_error_spec (what data l : string) (i : nat) :
  (if check_fails (index l i) (calculateCheckDigit data)
   then [digit_msg what (calculateCheckDigit data) (index l i)] else [])
  = td3_digit_error what data (index l i).
Proof.
  unfold td3_digit_error, digit_msg. rewrite check_fails_spec.
  rewrite (digit_text_spec _ (calculateCheckDigit_range data)).
  by rewrite calculateCheckDigit_spec.
Qed.

Lemma td1_digit_error_spec (what msg data l : string) (i : nat) :
  msg = what +:+ " check digit failed" ->
  (if check_fails (index l i) (calculateCheckDigit data) then [msg] else [])
  = td1_digit_error what data (index l i).
Proof. intros ->. unfold td1_digit_error. by rewrite check_fails_spec. Qed.

Local Opaque JS.substring calculateCheckDigit parseMRZDate JS.index
  strip_filler filler_to_space check_fails length_msg digit_msg split
  name_part trim push_if truthy.

(** A two-line zone: the record, its errors and its fields. *)
Lemma td3_zone (l1 l2 : string) :
  exists r, validateMRZ [l1; l2] = Some r
    /\ (valid r = true <-> errors r = [])
    /\ errors r = td3_errors l1 l2
    /\ td3_decoded l1 l2 (parsedData r).
Proof.
  unfold validateMRZ. cbn. unfold validateTD3. cbn.
  rewrite split_first. cbn.
  eexists. split; [reflexivity|]. cbn.
  split; [apply valid_iff_no_errors|]. split.
  - rewrite !push_if_app, app_nil_l. unfold td3_errors.
    rewrite <- !app_assoc.
    rewrite (wrong_length_spec 1 44 "1" "44" l1 eq_refl eq_refl).
    rewrite (wrong_length_spec 2 44 "2" "44" l2 eq_refl eq_refl).
    rewrite !td3_digit_error_spec.
    do 5 f_equal.
    rewrite personal_number_given.
    destruct (all_filler _); cbn [negb andb]; [reflexivity|].
    by rewrite td3_digit_error_spec.
  - unfold td3_decoded. cbn.
    rewrite !strip_filler_spec, split_second, name_part_spec.
    rewrite filler_to_space_spec.
    repeat split; try reflexivity; try (by eexists);
      intros d Hd; by rewrite (parseMRZDate_spec _ _ Hd).
Qed.

(** A three-line zone. *)
Lemma td1_zone (l1 l2 l3 : string) :
  exists r, validateMRZ [l1; l2; l3] = Some r
    /\ (valid r = true <-> errors r = [])
    /\ errors r = td1_errors l1 l2 l3
    /\ td1_decoded l1 l2 l3 (parsedData r).
Proof.
  unfold validateMRZ. cbn. unfold validateTD1. cbn.
  eexists. split; [reflexivity|]. cbn.
  split; [apply valid_iff_no_errors|]. split.
  - rewrite !push_if_app, app_nil_l. unfold td1_errors.
    rewrite <- !app_assoc.
    rewrite (wrong_length_spec 1 30 "1" "30" l1 eq_refl eq_refl).
    rewrite (wrong_length_spec 2 30 "2" "30" l2 eq_refl eq_refl).
    rewrite (wrong_length_spec 3 30 "3" "30" l3 eq_refl eq_refl).
    rewrite (td1_digit_error_spec "Document number" _ _ _ _ eq_refl).
    rewrite (td1_digit_error_spec "Date of birth" _ _ _ _ eq_refl).
    by rewrite (td1_digit_error_spec "Expiry date" _ _ _ _ eq_refl).
  - unfold td1_decoded. cbn.
    rewrite !strip_filler_spec, split_first, split_second, !name_part_spec.
    repeat split; try reflexivity; try (by eexists);
      intros d Hd; by rewrite (parseMRZDate_spec _ _ Hd).
Qed.

End ZoneFacts.

Module ZoneTheorems.
Import JS MRZValidator Layout ZoneFacts.

(** C4.  For a zone of two or three lines the parser always returns a
    record.  Its error list is the list of the errors that the layout
    asks for and nothing else: for each line of the wrong length the
    error that names the line, its length and the length expected, and
    for each checked field whose check character is not the filler and
    is not the digit of the weighted sum of the specification the error
    that names the field (in a two-line zone also the digit expected
    and the character found), in the order of the checks.  Whatever the
    errors, the record carries the decoded values: each field is the
    text of its columns without the filler, a name is the piece of the
    name field with spaces for the filler, a date is expanded by the
    century rule, the sex is the character of its column.  And the
    record is valid exactly when the error list is empty. *)
Theorem mrz_errors_are_not_fatal (lines : list string) :
  length lines = 2%nat \/ length lines = 3%nat ->
  exists r,
    validateMRZ lines = Some r
    /\ (valid r = true <-> errors r = [])
    /\ errors r = expected_errors lines
    /\ decoded_values lines (parsedData r).
Proof.
  intros [H|H].
  - destruct lines as [|l1 [|l2 [|]]]; try done. apply td3_zone.
  - destruct lines as [|l1 [|l2 [|l3 [|]]]]; try done. apply td1_zone.
Qed.

(** The sample lines of the specification: two errors, and a record
    with its decoded values all the same. *)
Lemma mrz_errors_are_not_fatal_witness :
  exists r,
    validateMRZ [Samples.line1; Samples.line2] = Some r
    /\ (valid r = true <-> errors r = [])
    /\ errors r = ["Line 1 length invalid: 43, expected 44";
                   "Composite check digit failed: expected 4, got 0"]
    /\ decoded_values [Samples.line1; Samples.line2] (parsedData r).
Proof.
  exact (mrz_errors_are_not_fatal [Samples.line1; Samples.line2]
           (or_introl eq_refl)).
Defined.

End ZoneTheorems.

Module CheckTheorems.
Import JS Regex Shape Checks DocumentValidator RegexFacts FormatFacts MRZValidator.

(** X1.  Date expansion, for every two-digit year: a year above 50 is
    read in the 1900s and any other in the 2000s, and the digits of the
    year, the month and the day are copied unchanged. *)
Theorem date_expansion (a b : ascii) (mm dd : string) :
  is_digit a = true -> is_digit b = true ->
  String.length mm = 2%nat -> String.length dd = 2%nat ->
  parseMRZDate (String a (String b (mm +:+ dd)))
  = (if 50 <? 10 * (code a - 48) + (code b - 48) then "19" else "20")
      +:+ String a (String b ("-" +:+ mm +:+ "-" +:+ dd)).
Proof. apply year_expansion. Qed.

(** The three years of the spec, on 6 August. *)
Lemma date_expansion_witness :
  parseMRZDate "510806" = "1951-08-06"
  /\ parseMRZDate "490806" = "2049-08-06"
  /\ parseMRZDate "500806" = "2050-08-06".
Proof.
  exact (conj (date_expansion "5" "1" "08" "06" eq_refl eq_refl eq_refl eq_refl)
           (conj (date_expansion "4" "9" "08" "06" eq_refl eq_refl eq_refl eq_refl)
              (date_expansion "5" "0" "08" "06" eq_refl eq_refl eq_refl eq_refl))).
Defined.

(** X3.  A date that the codec decodes from six digits has the form the
    validator asks for: [parseMRZDate] of a six-digit field is accepted
    by the pattern of the date format check. *)
Theorem decoded_date_has_valid_format (d : string) :
  String.length d = 6%nat -> all_chars is_digit d = true ->
  test re_date (parseMRZDate d) = true.
Proof.
  intros Hl Hd. apply test_re_date.
  destruct d as [|a [|b [|m1 [|m2 [|d1 [|d2 [|? ?]]]]]]]; try discriminate Hl.
  cbn [all_chars] in Hd.
  repeat (apply andb_true_iff in Hd as [? Hd]).
  change (String a (String b (String m1 (String m2 (String d1 (String d2 EmptyString))))))
    with (String a (String b (String m1 (String m2 EmptyString)
                                +:+ String d1 (String d2 EmptyString)))).
  rewrite year_expansion by done.
  destruct (50 <? _); cbv -[is_digit].
  all: repeat match goal with
              | H : is_digit ?c = true |- context [is_digit ?c] => rewrite H
              end; reflexivity.
Qed.

(** The date of birth of the ICAO sample. *)
Lemma decoded_date_has_valid_format_witness :
  test re_date (parseMRZDate "690806") = true.
Proof. exact (decoded_date_has_valid_format "690806" eq_refl eq_refl). Defined.

(** X4.  The date format check passes exactly when each of the three dates
    is four digits, a dash, two digits, a dash and two digits. *)
Theorem date_format_check (data : ExtractedData) :
  passed (checkDateFormats data)
  = date_shape (value (dateOfBirth data))
    && date_shape (value (issueDate data))
    && date_shape (value (expiryDate data)).
Proof.
  unfold checkDateFormats. cbn [passed List.filter snd].
  assert (H : forall s, test re_date s = date_shape s).
  { intros s. apply eq_true_iff_eq. apply test_re_date. }
  rewrite !H.
  by destruct (date_shape (value (dateOfBirth data))),
       (date_shape (value (issueDate data))),
       (date_shape (value (expiryDate data))).
Qed.

(** X5.  The age check does not fail on a date of birth that does not parse:
    the age is then [NaN], neither negative nor above 150, and the check
    passes with "Holder age: NaN years".  On a date that parses it
    passes exactly when the age is between 0 and 150. *)
Theorem age_consistency_check (h : Host) (data : ExtractedData) :
  (JSDate.parse h (value (dateOfBirth data)) = None ->
   checkAgeConsistency h data
   = {| check := "Age Consistency"; passed := true;
        message := "Holder age: NaN years" |})
  /\ (forall t, JSDate.parse h (value (dateOfBirth data)) = Some t ->
        exists a, age_of h (Some t) (Some (now h)) = Some a
                  /\ passed (checkAgeConsistency h data)
                     = (0 <=? a) && (a <=? 150)).
Proof.
  unfold checkAgeConsistency. split.
  - intros ->. reflexivity.
  - intros t ->.
    assert (Ha : is_Some (age_of h (Some t) (Some (now h)))).
    { unfold age_of. cbn. by destruct (_ || _). }
    destruct Ha as [a Ha]. exists a. split; [done|]. rewrite Ha. cbn.
    destruct (a <? 0) eqn:E1, (150 <? a) eqn:E2; cbn; lia.
Qed.

(** X6.  The date logic check passes exactly when the three dates parse, the
    date of birth is before the issue date, the issue date before the
    expiry date, and the date of birth before the current time; a date
    that does not parse makes it fail. *)
Theorem date_logic_check (h : Host) (data : ExtractedData) :
  passed (checkDateLogic h data) = true
  <-> exists b i e,
        JSDate.parse h (value (dateOfBirth data)) = Some b
        /\ JSDate.parse h (value (issueDate data)) = Some i
        /\ JSDate.parse h (value (expiryDate data)) = Some e
        /\ b < i /\ i < e /\ b < now h.
Proof.
  unfold checkDateLogic. cbn [try_catch default passed].
  destruct (JSDate.parse h (value (dateOfBirth data))) as [b|],
    (JSDate.parse h (value (issueDate data))) as [i|],
    (JSDate.parse h (value (expiryDate data))) as [e|]; cbn;
    try (split; [done | by intros (? & ? & ? & ? & ? & ? & _)]).
  - rewrite !andb_true_iff, !Z.ltb_lt. split.
    + intros [[? ?] ?]. by exists b, i, e.
    + intros (? & ? & ? & [= <-] & [= <-] & [= <-] & ? & ? & ?). done.
  - rewrite andb_false_r. cbn. split; [done | by intros (? & ? & ? & ? & ? & ? & _)].
Qed.

Lemma months_le (m d : Z) :
  Qle_bool (inject_Z m) (Qmake d msPerMonth) = true <-> m * Z.pos msPerMonth <= d.
Proof.
  rewrite Qle_bool_iff. unfold Qle, inject_Z. cbn [Qnum Qden]. lia.
Qed.

(** The validity period check passes exactly when the expiry date
    parses and lies at least [minValidityMonths] periods of 30 days
    after the current time. *)
Lemma validity_period_passed (h : Host) (data : ExtractedData)
    (policy : EligibilityPolicy) :
  passed (checkValidityPeriod h data policy) = true
  <-> exists t, JSDate.parse h (value (expiryDate data)) = Some t
                /\ minValidityMonths policy * 2592000000 <= t - now h.
Proof.
  unfold checkValidityPeriod, monthsValid. cbn [try_catch default passed].
  destruct (JSDate.parse h (value (expiryDate data))) as [t|]; cbn.
  - rewrite months_le. split; [intros ?; by exists t|]. by intros (? & [= <-] & ?).
  - split; [done | by intros (? & ? & _)].
Qed.

(** X7.  When the policy asks for a validity that is not negative, a
    document that passes the validity period check also passes the
    expiry check; and a document whose expiry date parses and is past
    fails both. *)
Theorem validity_period_and_expiry (h : Host) (data : ExtractedData)
    (policy : EligibilityPolicy) :
  0 <= minValidityMonths policy ->
  (passed (checkValidityPeriod h data policy) = true ->
   passed (checkDocumentExpiry h data) = true)
  /\ (forall t, JSDate.parse h (value (expiryDate data)) = Some t -> t < now h ->
        passed (checkDocumentExpiry h data) = false
        /\ passed (checkValidityPeriod h data policy) = false).
Proof.
  intros Hmin. split.
  - intros (t & Ht & Hle)%validity_period_passed.
    unfold checkDocumentExpiry. rewrite Ht. cbn.
    destruct (t <? now h) eqn:E; [lia|done].
  - intros t Ht Hlt. split.
    + unfold checkDocumentExpiry. rewrite Ht. cbn.
      destruct (t <? now h) eqn:E; [done|lia].
    + apply not_true_is_false. intros (t' & Ht' & Hle)%validity_period_passed.
      rewrite Ht in Ht'. injection Ht' as <-. lia.
Qed.

(** An expired document fails the expiry check and the validity period
    check of the default policy. *)
Lemma validity_period_and_expiry_witness :
  passed (checkDocumentExpiry Samples.host (Samples.doc "USA" "1990-05-15" "2000-01-01"))
  = false
  /\ passed (checkValidityPeriod Samples.host
               (Samples.doc "USA" "1990-05-15" "2000-01-01") defaultEligibilityPolicy)
     = false.
Proof.
  exact (proj2 (validity_period_and_expiry Samples.host
                  (Samples.doc "USA" "1990-05-15" "2000-01-01")
                  defaultEligibilityPolicy ltac:(done))
           946684800000 eq_refl eq_refl).
Defined.

(** The format checks, in terms of the characters of the values. *)
Lemma format_checks_passed (data : ExtractedData) :
  (passed (checkDocumentNumberFormat data) = true
   <-> (6 <= String.length (value (documentNumber data)) <= 12)%nat
       /\ all_chars number_char (value (documentNumber data)) = true)
  /\ (passed (checkNationalityFormat data) = true
      <-> String.length (value (nationality data)) = 3%nat
          /\ all_chars is_upper (value (nationality data)) = true)
  /\ (passed (checkNameFormat data) = true
      <-> value (surname data) <> EmptyString
          /\ all_chars name_char (value (surname data)) = true
          /\ all_chars name_char (value (givenNames data)) = true).
Proof.
  split; [|split].
  - unfold checkDocumentNumberFormat, re_number. cbn [passed].
    rewrite !andb_true_iff, !Nat.leb_le, test_anchored_plus.
    split; [intros [[? ?] [? ?]]; done|]. intros [[? ?] ?]. repeat split; try done.
    destruct (value (documentNumber data)); [cbn in *; lia|done].
  - unfold checkNationalityFormat. cbn [passed]. apply test_re_nationality.
  - unfold checkNameFormat, re_name. cbn [passed].
    rewrite !andb_true_iff, orb_true_iff, bool_decide_eq_true, Nat.leb_le,
      !test_anchored_plus.
    split.
    + intros [_ [[? ?] [->|[_ ?]]]]; done.
    + intros (Hne & Hs & Hg). repeat split; try done.
      * destruct (value (surname data)); [done|cbn; lia].
      * destruct (value (givenNames data)); [by left|by right].
Qed.

(** X8.  The three format checks in terms of the characters: the document
    number has 6 to 12 characters, all capital letters or digits; the
    nationality is exactly three capital letters; the surname is not
    empty and the surname and the given names (which may be empty) hold
    only letters, white space, dashes and apostrophes. *)
Theorem format_checks (data : ExtractedData) :
  (passed (checkDocumentNumberFormat data) = true
   <-> (6 <= String.length (value (documentNumber data)) <= 12)%nat
       /\ all_chars number_char (value (documentNumber data)) = true)
  /\ (passed (checkNationalityFormat data) = true
      <-> String.length (value (nationality data)) = 3%nat
          /\ all_chars is_upper (value (nationality data)) = true)
  /\ (passed (checkNameFormat data) = true
      <-> value (surname data) <> EmptyString
          /\ all_chars name_char (value (surname data)) = true
          /\ all_chars name_char (value (givenNames data)) = true).
Proof. apply format_checks_passed. Qed.

Lemma lower_upper_char (c : ascii) :
  (if is_upper (if is_lower c then chr (code c - 32) else c)
   then chr (code (if is_lower c then chr (code c - 32) else c) + 32)
   else (if is_lower c then chr (code c - 32) else c))
  = (if is_upper c then chr (code c + 32) else c).
Proof. by destruct c as [[] [] [] [] [] [] [] []]. Qed.

Lemma map_chars_app (f : ascii -> ascii) (s t : string) :
  map_chars f (s +:+ t) = map_chars f s +:+ map_chars f t.
Proof.
  induction s as [|c s IH]; [done|].
  change (String c s +:+ t) with (String c (s +:+ t)).
  change (map_chars f (String c (s +:+ t))) with (String (f c) (map_chars f (s +:+ t))).
  by rewrite IH.
Qed.

Lemma map_chars_compose (f g : ascii -> ascii) (s : string) :
  map_chars f (map_chars g s) = map_chars (fun c => f (g c)) s.
Proof. induction s as [|c s IH]; simpl; congruence. Qed.

Lemma map_chars_ext (f g : ascii -> ascii) (s : string) :
  (forall c, f c = g c) -> map_chars f s = map_chars g s.
Proof. intros H. induction s as [|c s IH]; simpl; congruence. Qed.

Lemma toLowerCase_toUpperCase (s : string) :
  toLowerCase (toUpperCase s) = toLowerCase s.
Proof.
  unfold toLowerCase, toUpperCase. rewrite map_chars_compose.
  apply map_chars_ext. apply lower_upper_char.
Qed.

Lemma trimEnd_space (s : string) : trimEnd (s +:+ " ") = trimEnd s.
Proof.
  induction s as [|c s IH]; [done|].
  change (String c s +:+ " ") with (String c (s +:+ " ")).
  change (trimEnd (String c ?r))
    with (match trimEnd r with
          | EmptyString => if is_space c then EmptyString else single c
          | r' => String c r'
          end).
  by rewrite IH.
Qed.

Lemma toLowerCase_app (s t : string) :
  toLowerCase (s +:+ t) = toLowerCase s +:+ toLowerCase t.
Proof. apply map_chars_app. Qed.

Lemma trim_space_after (s : string) : trim (s +:+ " ") = trim s.
Proof.
  unfold trim. induction s as [|c s IH]; [done|].
  change (String c s +:+ " ") with (String c (s +:+ " ")).
  change (trimStart (String c ?r)) with (if is_space c then trimStart r else String c r).
  destruct (is_space c); [exact IH|].
  change (String c (s +:+ " ")) with (String c s +:+ " "). apply trimEnd_space.
Qed.

Lemma trim_space_before (s : string) : trim (" " +:+ s) = trim s.
Proof. reflexivity. Qed.

(** X9.  For a claimed name of 7-bit ASCII characters, the name check
    does not depend on the letter case of the claimed name, nor on a
    space before and after it.  (Outside ASCII the case mappings of JS
    are not inverse to each other, and the property does not hold.) *)
Theorem name_match_ignores_case_and_outer_space
    (data : ExtractedData) (applicant : ApplicantData) (claimed : string) :
  Shape.ascii_only claimed = true ->
  name applicant = " " +:+ toUpperCase claimed +:+ " " ->
  passed (checkNameMatch data applicant)
  = passed (checkNameMatch data
              {| name := claimed; ap_dateOfBirth := ap_dateOfBirth applicant;
                 passportNumber := passportNumber applicant;
                 ap_nationality := ap_nationality applicant;
                 intendedVisaType := intendedVisaType applicant |}).
Proof.
  intros _ Hn. unfold checkNameMatch. cbn [passed name]. rewrite Hn.
  assert (E : trim (toLowerCase (" " +:+ toUpperCase claimed +:+ " "))
              = trim (toLowerCase claimed)).
  { rewrite !toLowerCase_app, toLowerCase_toUpperCase.
    change (toLowerCase " ") with " ".
    by rewrite trim_space_before, trim_space_after. }
  by rewrite E.
Qed.

(** The claim " JOHN SMITH " matches the document of JOHN SMITH, as
    "john smith" does. *)
Lemma name_match_ignores_case_and_outer_space_witness :
  passed (checkNameMatch (Samples.doc "USA" "1990-05-15" "2030-01-01")
            (Samples.applicant " JOHN SMITH " "tourist"))
  = passed (checkNameMatch (Samples.doc "USA" "1990-05-15" "2030-01-01")
              (Samples.applicant "john smith" "tourist")).
Proof.
  exact (name_match_ignores_case_and_outer_space
           (Samples.doc "USA" "1990-05-15" "2030-01-01")
           (Samples.applicant " JOHN SMITH " "tourist") "john smith"
           eq_refl eq_refl).
Defined.

(** The names of the checks, in the order of the lists. *)
Lemma check_names (h : Host) (data : ExtractedData) (applicant : ApplicantData)
    (policy : EligibilityPolicy) :
  check <$> validateDocument h data
  = ["Document Expiry"; "Date Format Validation"; "Age Consistency"; "Name Format";
     "Document Number Format"; "Nationality Code Format"; "Date Logic"]
  /\ check <$> checkEligibility h data applicant policy
     = ["Name Match"; "Date of Birth Match"; "Passport Number Match";
        "Nationality Match"; "Age Requirements"; "Nationality Eligibility";
        "Document Type"; "Validity Period"; "Visa Type Requirements"].
Proof.
  split.
  - unfold validateDocument. cbn [app fmap list_fmap]. repeat f_equal.
    unfold checkAgeConsistency. cbn. by destruct (_ || _).
  - unfold checkEligibility. cbn [app fmap list_fmap]. repeat f_equal.
    + unfold checkNationalityEligibility.
      destruct (arr_includes _ _); [done|]. by destruct (_ && _).
    + unfold checkVisaTypeRequirements.
      destruct (read_prop _ _); [|cbn..]; try done;
        destruct (req_allowed _); try done; by destruct (negb _).
Qed.

End CheckTheorems.

Module CodecFacts.
Import JS MRZValidator Spec Shape MRZFacts CheckDigitFacts.

Lemma check_loop_acc (s : string) (i : nat) (acc : Z) :
  check_loop s i acc = acc + check_loop s i 0.
Proof.
  revert i acc. induction s as [|c s IH]; intros i acc; cbn [check_loop]; [lia|].
  rewrite IH, (IH _ (0 + _)). lia.
Qed.

Lemma check_loop_app (p q : string) (i : nat) (acc : Z) :
  check_loop (p +:+ q) i acc
  = check_loop q (i + String.length p) (check_loop p i acc).
Proof.
  revert i acc. induction p as [|c p IH]; intros i acc.
  - cbn. by rewrite Nat.add_0_r.
  - change (String c p +:+ q) with (String c (p +:+ q)).
    cbn [check_loop String.length]. rewrite IH. f_equal. lia.
Qed.

Lemma weight_coprime (i : nat) : Z.gcd 10 (weight i) = 1.
Proof. unfold weight. by destruct (i mod 3)%nat as [|[|n]]. Qed.

(** The check digits of two strings that differ in one character. *)
Lemma check_digit_one_change (p q : string) (c c' : ascii) :
  calculateCheckDigit (p +:+ String c q) = calculateCheckDigit (p +:+ String c' q)
  <-> charValue c mod 10 = charValue c' mod 10.
Proof.
  unfold calculateCheckDigit. rewrite !check_loop_app. cbn [check_loop].
  rewrite (check_loop_acc q _ (_ + charValue c * _)),
    (check_loop_acc q _ (_ + charValue c' * _)), weight_spec.
  set (a := check_loop p 0 0). set (b := check_loop q _ 0).
  set (w := weight _). set (v := charValue c). set (v' := charValue c').
  pose proof (weight_coprime (0 + String.length p)) as Hw. fold w in Hw.
  split; intros H.
  - assert (Hd : (10 | w * (v - v'))).
    { apply Z.mod_divide; [lia|].
      replace (w * (v - v')) with ((a + v * w + b) - (a + v' * w + b)) by lia.
      rewrite Zminus_mod, H, Z.sub_diag. reflexivity. }
    apply Z.gauss in Hd; [|exact Hw].
    apply Z.mod_divide in Hd; [|lia].
    rewrite Zminus_mod in Hd.
    pose proof (Z.mod_pos_bound v 10 ltac:(lia)).
    pose proof (Z.mod_pos_bound v' 10 ltac:(lia)).
    destruct (Z.eq_dec (v mod 10) (v' mod 10)) as [|Hne]; [done|].
    exfalso. rewrite Z.mod_divide in Hd by lia.
    destruct Hd as [k Hk]. lia.
  - rewrite (Zplus_mod (a + v * w)), (Zplus_mod a), (Zmult_mod v), H,
      <- (Zmult_mod v'), <- (Zplus_mod a), <- Zplus_mod. reflexivity.
Qed.

Lemma code_inj (c c' : ascii) : code c = code c' -> c = c'.
Proof.
  unfold code. intros H%(inj Z.of_N).
  by rewrite <- (ascii_N_embedding c), <- (ascii_N_embedding c'), H.
Qed.

Lemma digit_value_mod (c c' : ascii) :
  is_digit c = true -> is_digit c' = true ->
  charValue c mod 10 = charValue c' mod 10 -> c = c'.
Proof.
  unfold charValue, is_digit. intros Hc Hc'. rewrite Hc, Hc'.
  unfold in_range in Hc, Hc'. intros H.
  rewrite !Z.mod_small in H by lia. apply code_inj. lia.
Qed.

Local Opaque JS.substring calculateCheckDigit parseMRZDate JS.index
  strip_filler filler_to_space check_fails length_msg digit_msg split
  name_part trim push_if truthy.

(** The fields of the record of a two-line zone. *)
Lemma validateTD3_fields (l1 l2 : string) (r : MRZResult) :
  validateMRZ [l1; l2] = Some r ->
  pd_documentType (parsedData r) = Some (strip_filler (substring 0 2 l1))
  /\ pd_issuingCountry (parsedData r) = Some (strip_filler (substring 2 5 l1))
  /\ pd_documentNumber (parsedData r) = Some (strip_filler (substring 0 9 l2))
  /\ pd_nationality (parsedData r) = Some (strip_filler (substring 10 13 l2))
  /\ pd_dateOfBirth (parsedData r) = Some (parseMRZDate (substring 13 19 l2))
  /\ pd_sex (parsedData r) = index l2 20
  /\ pd_expiryDate (parsedData r) = Some (parseMRZDate (substring 21 27 l2)).
Proof.
  unfold validateMRZ. cbn. unfold validateTD3. cbn.
  destruct (split_head "<<" (JS.substring 5 44 l1)) as [n0 ->]. cbn.
  intros [= <-]. cbn. repeat split.
Qed.

End CodecFacts.

Module CodecProperties.
Import JS MRZValidator Spec Shape MRZFacts CheckDigitFacts CodecFacts.

(** X10.  Two strings that differ in one character have the same check digit
    exactly when the values of the two characters are equal modulo 10;
    so the change of one digit into another digit always changes the
    check digit (while 0, A, K and U, say, cannot be told apart). *)
Theorem substitution_and_check_digit (p q : string) (c c' : ascii) :
  (calculateCheckDigit (p +:+ String c q) = calculateCheckDigit (p +:+ String c' q)
   <-> charValue c mod 10 = charValue c' mod 10)
  /\ (is_digit c = true -> is_digit c' = true -> c <> c' ->
      calculateCheckDigit (p +:+ String c q)
      <> calculateCheckDigit (p +:+ String c' q)).
Proof.
  split; [apply check_digit_one_change|].
  intros Hc Hc' Hne H%check_digit_one_change. by apply Hne, digit_value_mod.
Qed.

Lemma length_app_string (s t : string) :
  String.length (s +:+ t) = (String.length s + String.length t)%nat.
Proof.
  induction s as [|a s IH]; [done|].
  change (String a s +:+ t) with (String a (s +:+ t)).
  cbn [String.length]. by rewrite IH.
Qed.

Lemma validateMRZ_dispatch_cases (lines : list string) :
  (exists l1 l2, lines = [l1; l2])
  \/ (exists l1 l2 l3, lines = [l1; l2; l3])
  \/ validateMRZ lines
     = Some {| valid := false;
               errors := ["Invalid MRZ format - expected 2 or 3 lines"];
               parsedData := emptyParsed |}.
Proof.
  destruct lines as [|l1 [|l2 [|l3 [|l4 ls]]]]; eauto 6.
Qed.

Lemma mismatch_digit (data : string) (chk : option string) (c : ascii) :
  chk = Some (single c) -> is_digit c = true ->
  code c - 48 = calculateCheckDigit data ->
  mismatch data chk = false.
Proof. intros -> Hc Hv. unfold mismatch. by apply check_passes. Qed.

Ltac explode s H :=
  repeat (destruct s as [|? s]; cbn [String.length] in H;
          [try discriminate H | try discriminate H]).

(** X11.  Round trip of a synthetic two-line zone: when every checked field
    of line 2 is followed by the check digit computed for it and the
    composite check digit closes the line, the parser reports no error,
    the record is valid, and the fields read back are the ones that were
    written (with the filler removed and the dates expanded). *)
Theorem synthetic_td3_round_trip (line1 doc nat_ dob sex_ exp pers : string) :
  String.length line1 = 44%nat -> String.length doc = 9%nat ->
  String.length nat_ = 3%nat -> String.length dob = 6%nat ->
  String.length sex_ = 1%nat -> String.length exp = 6%nat ->
  String.length pers = 14%nat ->
  exists r,
    validateMRZ [line1; td3_line2 doc nat_ dob sex_ exp pers] = Some r
    /\ valid r = true
    /\ errors r = []
    /\ pd_documentNumber (parsedData r) = Some (strip_filler doc)
    /\ pd_nationality (parsedData r) = Some (strip_filler nat_)
    /\ pd_dateOfBirth (parsedData r) = Some (parseMRZDate dob)
    /\ pd_sex (parsedData r) = Some sex_
    /\ pd_expiryDate (parsedData r) = Some (parseMRZDate exp)
    /\ pd_documentNumber (parsedData r) = Some (Layout.without_filler doc)
    /\ pd_nationality (parsedData r) = Some (Layout.without_filler nat_)
    /\ Layout.date_decoded dob (pd_dateOfBirth (parsedData r))
    /\ Layout.date_decoded exp (pd_expiryDate (parsedData r)).
Proof.
  intros H1 Hdoc Hnat Hdob Hsex Hexp Hpers.
  explode doc Hdoc. explode nat_ Hnat. explode dob Hdob. explode sex_ Hsex.
  explode exp Hexp. explode pers Hpers.
  unfold td3_line2. cbv zeta.
  repeat match goal with
         | |- context [of_Z (calculateCheckDigit ?X)] =>
             let c := fresh "c" in
             let E := fresh "E" in
             let D := fresh "D" in
             let V := fresh "V" in
             destruct (of_Z_digit _ (calculateCheckDigit_range X)) as (c & E & D & V);
             rewrite ?E in *; clear E
         end.
  cbv [String.append single] in *.
  match goal with
  | |- context [validateMRZ [line1; ?L]] => set (L2 := L) in *
  end.
  destruct (validateTD3_result line1 L2) as (r & Hr & Hv & _ & He).
  pose proof (validateTD3_fields line1 L2 r Hr) as (_ & _ & F1 & F2 & F3 & F4 & F5).
  assert (Hno : errors r = []).
  { destruct (errors r) as [|e es]; [done|]. exfalso.
    destruct (He e) as [He' _]. specialize (He' ltac:(left)).
    destruct He' as [[Hl _]|[[Hl _]|(what & data & chk & Hin & Hm & _)]];
      [done|by apply Hl|].
    unfold td3_checked in Hin. apply elem_of_app in Hin as [Hin|Hin].
    - repeat (apply elem_of_cons in Hin as [Hin|Hin];
              [injection Hin as -> -> ->;
               first [ rewrite (mismatch_digit _ _ c) in Hm by done
                     | rewrite (mismatch_digit _ _ c0) in Hm by done
                     | rewrite (mismatch_digit _ _ c1) in Hm by done
                     | rewrite (mismatch_digit _ _ c2) in Hm by done
                     | rewrite (mismatch_digit _ _ c3) in Hm by done ];
               discriminate Hm|]).
      by apply elem_of_nil in Hin.
    - destruct (truthy _); [|by apply elem_of_nil in Hin].
      apply list_elem_of_singleton in Hin. injection Hin as -> -> ->.
      first [ rewrite (mismatch_digit _ _ c) in Hm by done
            | rewrite (mismatch_digit _ _ c0) in Hm by done
            | rewrite (mismatch_digit _ _ c1) in Hm by done
            | rewrite (mismatch_digit _ _ c2) in Hm by done
            | rewrite (mismatch_digit _ _ c3) in Hm by done ];
        discriminate Hm. }
  exists r. split; [exact Hr|]. split; [by apply Hv|]. split; [exact Hno|].
  rewrite <- !ZoneFacts.strip_filler_spec.
  do 4 (split; [assumption|]). split; [assumption|].
  do 2 (split; [assumption|]).
  split; [rewrite F3 | rewrite F5]; apply ZoneFacts.date_is_decoded.
Qed.

(** The fields of the ICAO sample, written and read back. *)
Lemma synthetic_td3_round_trip_witness :
  td3_line2 "L898902C<" "UTO" "690806" "F" "940623" "ZE184226B<<<<<"
  = "L898902C<3UTO6908061F9406236ZE184226B<<<<<14"
  /\ exists r,
      validateMRZ ["P<UTOERIKSSON<<ANNA<MARIA<<<<<<<<<<<<<<<<<<<";
                   td3_line2 "L898902C<" "UTO" "690806" "F" "940623" "ZE184226B<<<<<"]
      = Some r
      /\ valid r = true
      /\ errors r = []
      /\ pd_documentNumber (parsedData r) = Some (strip_filler "L898902C<")
      /\ pd_nationality (parsedData r) = Some (strip_filler "UTO")
      /\ pd_dateOfBirth (parsedData r) = Some (parseMRZDate "690806")
      /\ pd_sex (parsedData r) = Some "F"
      /\ pd_expiryDate (parsedData r) = Some (parseMRZDate "940623")
      /\ pd_documentNumber (parsedData r) = Some (Layout.without_filler "L898902C<")
      /\ pd_nationality (parsedData r) = Some (Layout.without_filler "UTO")
      /\ Layout.date_decoded "690806" (pd_dateOfBirth (parsedData r))
      /\ Layout.date_decoded "940623" (pd_expiryDate (parsedData r)).
Proof.
  split; [reflexivity|].
  exact (synthetic_td3_round_trip "P<UTOERIKSSON<<ANNA<MARIA<<<<<<<<<<<<<<<<<<<"
           "L898902C<" "UTO" "690806" "F" "940623" "ZE184226B<<<<<"
           eq_refl eq_refl eq_refl eq_refl eq_refl eq_refl eq_refl).
Defined.

(** X12.  A misread digit in the document number is reported: when a two-line
    zone has no error about the check digit of the document number and
    the check character is not the filler, the zone with one digit of
    the document number changed into another digit has that error. *)
Theorem misread_digit_is_reported
    (line1 p q rest : string) (c c' chk : ascii) :
  String.length (p +:+ String c q) = 9%nat ->
  is_digit c = true -> is_digit c' = true -> c <> c' ->
  chk <> "<"%char ->
  (exists r,
      validateMRZ [line1; (p +:+ String c q) +:+ String chk rest] = Some r
      /\ forall e, e ∈ errors r -> is_document_number_error e = false) ->
  exists r' e,
    validateMRZ [line1; (p +:+ String c' q) +:+ String chk rest] = Some r'
    /\ e ∈ errors r' /\ is_document_number_error e = true.
Proof.
  intros Hlen Hc Hc' Hne Hchk (r & Hr & Hok).
  assert (Hlen' : String.length (p +:+ String c' q) = 9%nat).
  { by rewrite length_app_string in *. }
  destruct (validateTD3_result line1 ((p +:+ String c q) +:+ String chk rest))
    as (r0 & Hr0 & _ & _ & He).
  rewrite Hr in Hr0. injection Hr0 as <-.
  destruct (validateTD3_result line1 ((p +:+ String c' q) +:+ String chk rest))
    as (r' & Hr' & _ & _ & He').
  set (s := p +:+ String c q) in *. set (s' := p +:+ String c' q) in *.
  assert (Hs : substring 0 9 (s +:+ String chk rest) = s)
    by (rewrite <- Hlen; apply substring_app_exact).
  assert (Hi : index (s +:+ String chk rest) 9 = Some (single chk))
    by (rewrite <- Hlen; apply index_app_exact).
  assert (Hs' : substring 0 9 (s' +:+ String chk rest) = s')
    by (rewrite <- Hlen'; apply substring_app_exact).
  assert (Hi' : index (s' +:+ String chk rest) 9 = Some (single chk))
    by (rewrite <- Hlen'; apply index_app_exact).
  (* the check character is the digit computed for the original number *)
  assert (Hm : mismatch s (Some (single chk)) = false).
  { destruct (mismatch s (Some (single chk))) eqn:E; [|done].
    assert (Hin : digit_msg "Document number" (calculateCheckDigit s)
                    (Some (single chk)) ∈ errors r).
    { apply He. right; right. exists "Document number", s, (Some (single chk)).
      split; [|done]. unfold td3_checked. rewrite Hs, Hi.
      apply elem_of_app. left. left. }
    apply Hok in Hin. discriminate Hin. }
  assert (Hp : parseInt (single chk) = Some (calculateCheckDigit s)).
  { unfold mismatch, check_fails in Hm. apply andb_false_iff in Hm as [Hm|Hm].
    - apply negb_false_iff, bool_decide_eq_true in Hm.
      exfalso. apply Hchk. unfold single in Hm. congruence.
    - by apply negb_false_iff, bool_decide_eq_true in Hm. }
  exists r', (digit_msg "Document number" (calculateCheckDigit s') (Some (single chk))).
  split; [exact Hr'|]. split; [|reflexivity].
  apply He'. right; right. exists "Document number", s', (Some (single chk)).
  split; [unfold td3_checked; rewrite Hs', Hi'; apply elem_of_app; left; left|].
  split; [|done].
  unfold mismatch, check_fails. apply andb_true_iff. split.
  - apply negb_true_iff, bool_decide_eq_false. intros [= E]. done.
  - apply negb_true_iff, bool_decide_eq_false.
    change (str_of (Some (single chk))) with (single chk). rewrite Hp.
    intros [= E]. apply check_digit_one_change in E. by apply Hne, digit_value_mod.
Qed.

(** The ICAO sample with the digit 0 of the document number read as 1. *)
Lemma misread_digit_is_reported_witness :
  exists r' e,
    validateMRZ ["P<UTOERIKSSON<<ANNA<MARIA<<<<<<<<<<<<<<<<<<<";
                 "L898912C<3UTO6908061F9406236ZE184226B<<<<<14"] = Some r'
    /\ e ∈ errors r' /\ is_document_number_error e = true.
Proof.
  refine (misread_digit_is_reported
            "P<UTOERIKSSON<<ANNA<MARIA<<<<<<<<<<<<<<<<<<<" "L8989" "2C<"
            "UTO6908061F9406236ZE184226B<<<<<14" "0" "1" "3"
            eq_refl eq_refl eq_refl _ _ _).
  - discriminate.
  - discriminate.
  - eexists. split; [vm_compute; reflexivity|]. intros e He. inversion He.
Defined.

(** X13.  A valid record comes from a zone of the right layout only: two
    lines of 44 characters or three lines of 30. *)
Theorem valid_zone_has_layout (lines : list string) (r : MRZResult) :
  validateMRZ lines = Some r -> valid r = true ->
  (exists l1 l2,
      lines = [l1; l2]
      /\ String.length l1 = 44%nat /\ String.length l2 = 44%nat)
  \/ (exists l1 l2 l3,
        lines = [l1; l2; l3]
        /\ String.length l1 = 30%nat /\ String.length l2 = 30%nat
        /\ String.length l3 = 30%nat).
Proof.
  intros Hr Hv.
  destruct (validateMRZ_dispatch_cases lines) as [(l1 & l2 & ->)|[(l1 & l2 & l3 & ->)|Hf]].
  - left. exists l1, l2. split; [done|].
    destruct (validateTD3_result l1 l2) as (r0 & Hr0 & Hv0 & _ & He).
    rewrite Hr in Hr0. injection Hr0 as <-. apply Hv0 in Hv.
    split.
    + destruct (decide (String.length l1 = 44%nat)) as [|Hn]; [done|].
      exfalso. eapply elem_of_nil. rewrite <- Hv. apply He. by left.
    + destruct (decide (String.length l2 = 44%nat)) as [|Hn]; [done|].
      exfalso. eapply elem_of_nil. rewrite <- Hv. apply He. right; by left.
  - right. exists l1, l2, l3. split; [done|].
    destruct (validateTD1_result l1 l2 l3) as (r0 & Hr0 & Hv0 & _ & He).
    rewrite Hr in Hr0. injection Hr0 as <-. apply Hv0 in Hv.
    repeat split.
    + destruct (decide (String.length l1 = 30%nat)) as [|Hn]; [done|].
      exfalso. eapply elem_of_nil. rewrite <- Hv. apply He. by left.
    + destruct (decide (String.length l2 = 30%nat)) as [|Hn]; [done|].
      exfalso. eapply elem_of_nil. rewrite <- Hv. apply He. right; by left.
    + destruct (decide (String.length l3 = 30%nat)) as [|Hn]; [done|].
      exfalso. eapply elem_of_nil. rewrite <- Hv. apply He. right; right; by left.
  - rewrite Hf in Hr. injection Hr as <-. discriminate Hv.
Qed.

(** The ICAO sample: valid, two lines of 44 characters. *)
Lemma valid_zone_has_layout_witness :
  (exists l1 l2,
      ["P<UTOERIKSSON<<ANNA<MARIA<<<<<<<<<<<<<<<<<<<";
       "L898902C<3UTO6908061F9406236ZE184226B<<<<<14"] = [l1; l2]
      /\ String.length l1 = 44%nat /\ String.length l2 = 44%nat)
  \/ (exists l1 l2 l3,
        ["P<UTOERIKSSON<<ANNA<MARIA<<<<<<<<<<<<<<<<<<<";
         "L898902C<3UTO6908061F9406236ZE184226B<<<<<14"] = [l1; l2; l3]
        /\ String.length l1 = 30%nat /\ String.length l2 = 30%nat
        /\ String.length l3 = 30%nat).
Proof.
  refine (valid_zone_has_layout
            ["P<UTOERIKSSON<<ANNA<MARIA<<<<<<<<<<<<<<<<<<<";
             "L898902C<3UTO6908061F9406236ZE184226B<<<<<14"] _ _ _).
  - vm_compute. reflexivity.
  - reflexivity.
Defined.

End CodecProperties.

Module ExtractorProperties.
Import JS Regex Shape Checks OCRProcessor RegexFacts FormatFacts CheckTheorems CodecProperties.

Lemma foldl_keeps {A B} (P : A -> Prop) (f : A -> B -> A) (l : list B) (a : A) :
  P a -> (forall acc x, P acc -> P (f acc x)) -> P (foldl f a l).
Proof.
  intros Ha Hf. revert a Ha. induction l as [|x l IH]; intros a Ha; [done|].
  cbn. apply IH, Hf, Ha.
Qed.

(** X16.  Every candidate line that [extractMRZ] returns has 44 or 30
    characters, all of them capital letters, digits or fillers. *)
Theorem candidate_lines_are_well_formed (text line : string) :
  line ∈ extractMRZ text ->
  (String.length line = 44%nat \/ String.length line = 30%nat)
  /\ all_chars mrz_alphabet line = true.
Proof.
  unfold extractMRZ. revert line.
  apply (foldl_keeps
           (fun acc => forall line, line ∈ acc ->
              (String.length line = 44%nat \/ String.length line = 30%nat)
              /\ all_chars mrz_alphabet line = true)).
  - intros line Hin. by apply elem_of_nil in Hin.
  - intros acc x Hacc line.
    set (clean := toUpperCase (replaceAll is_space EmptyString x)).
    destruct ((String.length clean =? 44)%nat && test re_mrz_line clean) eqn:E1.
    + apply andb_true_iff in E1 as [Hl [_ Ha]%test_anchored_plus].
      apply Nat.eqb_eq in Hl.
      intros [Hin| ->%list_elem_of_singleton]%elem_of_app; [by apply Hacc|].
      split; [by left|done].
    + destruct ((String.length clean =? 30)%nat && test re_mrz_line clean) eqn:E2.
      * apply andb_true_iff in E2 as [Hl [_ Ha]%test_anchored_plus].
        apply Nat.eqb_eq in Hl.
        intros [Hin| ->%list_elem_of_singleton]%elem_of_app; [by apply Hacc|].
        split; [by right|done].
      * apply Hacc.
Qed.

(** The candidate lines of the sample text with a two-line zone. *)
Lemma candidate_lines_are_well_formed_witness :
  (String.length "L898902C<3<<<6908061F9406236ZE184226B<<<<<14" = 44%nat
   \/ String.length "L898902C<3<<<6908061F9406236ZE184226B<<<<<14" = 30%nat)
  /\ all_chars mrz_alphabet "L898902C<3<<<6908061F9406236ZE184226B<<<<<14" = true.
Proof.
  refine (candidate_lines_are_well_formed Samples.no_nationality_text
            "L898902C<3<<<6908061F9406236ZE184226B<<<<<14" _).
  vm_compute. right. left.
Defined.

Lemma run_seq {R} (r1 r2 : re) prev s caps
    (k : option ascii -> string -> list string -> option R) :
  run (Seq r1 r2) prev s caps k
  = run r1 prev s caps (fun p' s' c' => run r2 p' s' c' k).
Proof. reflexivity. Qed.

Lemma run_group {R} (r : re) prev s caps
    (k : option ascii -> string -> list string -> option R) :
  run (Group r) prev s caps k
  = run r prev s caps (fun p' s' c' => k p' s' (c' ++ [consumed s s'])).
Proof. reflexivity. Qed.

Lemma run_wordb {R} prev s caps
    (k : option ascii -> string -> list string -> option R) (x : R) :
  run WordB prev s caps k = Some x -> k prev s caps = Some x.
Proof. cbn. by destruct (xorb _ _). Qed.

(** A match of [search] is a match of [run] at some place of the
    subject. *)
Lemma search_inv (r : re) prev (s : string) (m : string * list string) :
  search r prev s = Some m ->
  exists prev' s',
    run r prev' s' [] (fun _ s'' c => Some (consumed s' s'', c)) = Some m.
Proof.
  revert prev. induction s as [|c s IH]; intros prev; cbn [search].
  - destruct (run r prev EmptyString [] _) eqn:E; [|done].
    intros [= <-]. eauto.
  - destruct (run r prev (String c s) [] _) eqn:E.
    + intros [= <-]. eauto.
    + apply IH.
Qed.

Lemma consumed_app (x y : string) : consumed (x +:+ y) y = x.
Proof.
  unfold consumed. rewrite length_app_string.
  replace (String.length x + String.length y - String.length y)%nat
    with (String.length x) by lia.
  induction x as [|c x IH]; [by destruct y|].
  change (String c x +:+ y) with (String c (x +:+ y)). cbn. by rewrite IH.
Qed.

Lemma append_assoc (x y z : string) : (x +:+ y) +:+ z = x +:+ y +:+ z.
Proof.
  induction x as [|c x IH]; [done|].
  change ((String c x +:+ y) +:+ z) with (String c ((x +:+ y) +:+ z)).
  by rewrite IH.
Qed.

Lemma all_chars_app (p : ascii -> bool) (x y : string) :
  all_chars p (x +:+ y) = all_chars p x && all_chars p y.
Proof.
  induction x as [|c x IH]; [done|].
  change (String c x +:+ y) with (String c (x +:+ y)). cbn. by rewrite IH, andb_assoc.
Qed.

Lemma all_chars_impl (p q : ascii -> bool) (s : string) :
  (forall c, p c = true -> q c = true) -> all_chars p s = true -> all_chars q s = true.
Proof.
  intros H. induction s as [|c s IH]; [done|]. cbn.
  intros [? ?]%andb_true_iff. rewrite H by done. by apply IH.
Qed.

(** What the pattern of the document number heuristic finds. *)
Lemma document_number_found (text : string) :
  let n := extractPattern text re_document_number in
  n = EmptyString
  \/ ((8 <= String.length n <= 11)%nat /\ all_chars number_char n = true).
Proof.
  cbn zeta. unfold extractPattern, match_.
  destruct (search re_document_number None text) as [[m0 groups]|] eqn:E; [|by left].
  right. apply search_inv in E as (prev & s & E).
  unfold re_document_number, between in E. rewrite run_seq in E.
  apply rep_class_inv in E as (a & b & prev1 & -> & Ha & Hla & E).
  apply rep_class_inv in E as (a' & b' & prev2 & -> & Ha' & Hla' & [= <- <-]).
  rewrite <- append_assoc, consumed_app. cbn [lookup list_lookup or_else].
  rewrite length_app_string, all_chars_app. split; [lia|].
  apply andb_true_iff. split.
  - eapply all_chars_impl; [|exact Ha]. intros c Hc. unfold number_char. by rewrite Hc.
  - eapply all_chars_impl; [|exact Ha']. intros c Hc. unfold number_char.
    rewrite Hc. by destruct (is_upper c).
Qed.

(** What the pattern of the three-letter code heuristic finds. *)
Lemma code3_found (text : string) :
  let n := extractPattern text re_code3 in
  n = EmptyString \/ (String.length n = 3%nat /\ all_chars is_upper n = true).
Proof.
  cbn zeta. unfold extractPattern, match_.
  destruct (search re_code3 None text) as [[m0 groups]|] eqn:E; [|by left].
  right. apply search_inv in E as (prev & s & E).
  unfold re_code3, times in E. rewrite run_seq in E.
  apply run_wordb in E. rewrite run_seq, run_group in E.
  apply rep_class_inv in E as (a & b & prev1 & -> & Ha & Hla & E).
  apply run_wordb in E. injection E as <- <-.
  rewrite consumed_app. cbn [app lookup list_lookup].
  destruct a as [|c a]; [cbn in Hla; lia|]. cbn [or_else].
  split; [lia|done].
Qed.

(** X17.  A document number and a nationality that the heuristics find in a
    text without zone pass the format checks of the validator: the
    value is either empty (nothing was found) or accepted. *)
Theorem heuristic_values_have_valid_format (h : Host) (text : string) (c : Z) :
  let d := extractFields h text None c in
  (value (documentNumber d) = EmptyString
   \/ passed (checkDocumentNumberFormat d) = true)
  /\ (value (nationality d) = EmptyString
      \/ passed (checkNationalityFormat d) = true).
Proof.
  cbn zeta. split.
  - destruct (document_number_found text) as [H|[Hl Ha]]; [by left|right].
    apply (proj1 (format_checks_passed _)). cbn [extractFields documentNumber value].
    cbn [mbind option_bind or_else]. split; [lia|done].
  - destruct (code3_found text) as [H|[Hl Ha]]; [by left|right].
    apply (proj1 (proj2 (format_checks_passed _))). cbn [extractFields nationality value].
    cbn [mbind option_bind or_else]. done.
Qed.

End ExtractorProperties.

Module RouteProperties.
Import JS Shape Verdict Checks DocumentValidator OCRProcessor Route MRZFacts CheckTheorems.

Lemma failed_nil (checks : list Check) :
  (length (failed checks) =? 0)%nat = forallb passed checks.
Proof.
  unfold failed. induction checks as [|c cs IH]; [done|].
  cbn. destruct (passed c); cbn; [exact IH|done].
Qed.

Lemma failed_pos (checks : list Check) :
  (0 <? length (failed checks))%nat = negb (forallb passed checks).
Proof. rewrite <- failed_nil. by destruct (failed checks). Qed.

(** The overall confidence of a processed document. *)
Lemma overall_confidence_values (h : Host) (text : string) :
  exists d,
    processText h text = Some d
    /\ ((extractMRZ text = [] /\ calculateOverallConfidence d = 76)
        \/ (exists r,
              extractMRZ text <> []
              /\ MRZValidator.validateMRZ (extractMRZ text) = Some r
              /\ calculateOverallConfidence d = if valid r then 93 else 61)).
Proof.
  unfold processText. destruct (extractMRZ text) as [|l1 ls] eqn:El.
  - eexists. split; [reflexivity|]. left. split; [done|reflexivity].
  - destruct (validateMRZ_total (l1 :: ls)) as [r Hr].
    cbn [length Nat.ltb Nat.leb]. rewrite Hr. cbn [mbind option_bind].
    eexists. split; [reflexivity|]. right. exists r. split; [done|]. split; [done|].
    destruct ls as [|l2 [|l3 ls]]; by destruct (valid r).
Qed.

(** X20.  The overall confidence of a processed document takes three
    values only: 76 when the text has no candidate line, 93 when it has
    a zone that is valid, 61 when it has candidate lines that do not
    make a valid zone. *)
Theorem overall_confidence_of_processed_document (h : Host) (text : string) :
  exists d,
    processText h text = Some d
    /\ ((extractMRZ text = [] /\ calculateOverallConfidence d = 76)
        \/ (exists r,
              extractMRZ text <> []
              /\ MRZValidator.validateMRZ (extractMRZ text) = Some r
              /\ calculateOverallConfidence d = if valid r then 93 else 61)).
Proof. apply overall_confidence_values. Qed.

Lemma foldl_sum_bounds (l : list Z) (lo hi acc : Z) :
  (forall x, x ∈ l -> lo <= x <= hi) ->
  acc + Z.of_nat (length l) * lo
  <= foldl (fun a v => a + v) acc l
  <= acc + Z.of_nat (length l) * hi.
Proof.
  revert acc. induction l as [|x l IH]; intros acc H; [cbn; lia|].
  cbn [foldl length]. specialize (IH (acc + x) ltac:(intros y Hy; apply H; by right)).
  specialize (H x ltac:(left)). lia.
Qed.

(** X21.  For confidences that are scores from 0 to 100, the overall
    confidence lies between the smallest and the largest confidence of
    the fields of the document; so it is a score from 0 to 100 itself. *)
Theorem overall_confidence_bounds (d : ExtractedData) (lo hi : Z) :
  0 <= lo -> hi <= 100 ->
  (forall f, f ∈ object_values d -> lo <= confidence f <= hi) ->
  lo <= calculateOverallConfidence d <= hi.
Proof.
  intros _ _ H. unfold calculateOverallConfidence.
  set (cs := confidence <$> object_values d).
  assert (Hlen : (10 <= length cs)%nat).
  { unfold cs, object_values. rewrite length_fmap, length_app. cbn. lia. }
  destruct (length cs =? 0)%nat eqn:E; [apply Nat.eqb_eq in E; lia|].
  pose proof (foldl_sum_bounds cs lo hi 0) as Hs.
  specialize (Hs ltac:(intros x (f & -> & Hf)%list_elem_of_fmap; by apply H)).
  unfold round_div. set (n := Z.of_nat (length cs)) in *.
  set (s := foldl _ 0 cs) in *. assert (0 < n) by lia.
  split.
  - apply Z.div_le_lower_bound; nia.
  - apply Z.lt_succ_r, Z.div_lt_upper_bound; nia.
Qed.

(** The document of the sample: all its confidences are 95. *)
Lemma overall_confidence_bounds_witness :
  95 <= calculateOverallConfidence (Samples.doc "USA" "1990-05-15" "2030-01-01") <= 95.
Proof.
  refine (overall_confidence_bounds (Samples.doc "USA" "1990-05-15" "2030-01-01")
            95 95 ltac:(lia) ltac:(lia) _).
  intros f Hf. vm_compute in Hf.
  repeat (apply elem_of_cons in Hf as [->|Hf]; [vm_compute; split; discriminate|]).
  by apply elem_of_nil in Hf.
Defined.

Ltac absurd_elem H :=
  repeat (apply elem_of_cons in H as [H|H];
          [cbv [String.append proceed fallback] in H; discriminate H|]);
  by apply elem_of_nil in H.

Lemma actions_cases (v e : list Check) (c : Z) :
  let a := generateRecommendedActions v e c in
  a <> [] /\ (fallback ∉ a)
  /\ (proceed ∈ a <-> forallb passed (v ++ e) = true /\ 85 <= c)
  /\ (proceed ∈ a -> a = [proceed]).
Proof.
  cbn zeta. unfold generateRecommendedActions.
  rewrite !failed_nil, !failed_pos, forallb_app.
  destruct (forallb passed v), (forallb passed e), (c <? 70) eqn:E1,
    (c <? 85) eqn:E2, (85 <=? c) eqn:E3; try lia;
    cbn [Route.push_if app length Nat.eqb negb andb];
    (split; [done|]);
    (split; [intros H; absurd_elem H|]);
    (split; [split; [intros H; first [absurd_elem H | split; [done|lia]]
                    | intros [? ?]; first [discriminate | lia | by left]]
            | intros H; first [absurd_elem H | reflexivity]]).
Qed.

(** X22.  The recommended actions are never empty and never the fallback
    "Review application manually before proceeding"; they hold the
    permission to proceed exactly when every check passed and the
    overall confidence is at least 85, and then nothing else. *)
Theorem recommended_actions (v e : list Check) (c : Z) :
  let a := generateRecommendedActions v e c in
  a <> [] /\ (fallback ∉ a)
  /\ (proceed ∈ a <-> forallb passed (v ++ e) = true /\ 85 <= c)
  /\ (proceed ∈ a -> a = [proceed]).
Proof. apply actions_cases. Qed.

Lemma summary_cases (d : ExtractedData) (v e : list Check) (c : Z) (all : bool) :
  is_success (generateSummary d v e c all) = all && (85 <=? c).
Proof.
  unfold generateSummary, is_success.
  destruct (all && (85 <=? c)); [reflexivity|].
  destruct (0 <? length (failed v))%nat; [reflexivity|].
  destruct (0 <? length (failed e))%nat; [reflexivity|].
  destruct (c <? 70); [reflexivity|].
  unfold success. cbv [String.append String.prefix].
  by repeat (destruct (ascii_dec _ _); [|done]).
Qed.

(** The result of a request, in terms of the document that was read. *)
Lemma verify_result (h : Host) (text : string) (body : ApplicantBody)
    (policy : option EligibilityPolicy) :
  exists d res,
    processText h text = Some d
    /\ verify h text body policy = Some res
    /\ extractedData res = d
    /\ validationChecks res = validateDocument h d
    /\ eligibilityChecks res
       = checkEligibility h d (applicant_of body)
           (default defaultEligibilityPolicy policy)
    /\ overallConfidence res = calculateOverallConfidence d
    /\ recommendedActions res
       = generateRecommendedActions (validationChecks res) (eligibilityChecks res)
           (overallConfidence res)
    /\ summary res
       = generateSummary d (validationChecks res) (eligibilityChecks res)
           (overallConfidence res)
           (forallb passed (validationChecks res ++ eligibilityChecks res)).
Proof.
  destruct (overall_confidence_values h text) as (d & Hd & _).
  exists d. unfold verify. rewrite Hd. cbn [mbind option_bind].
  eexists. split; [done|]. split; [reflexivity|]. repeat split.
Qed.

(** X23.  The two verdicts of a result agree: the summary announces a
    successful verification exactly when the recommended actions hold
    the permission to proceed, which is exactly when every check passed
    and the overall confidence is at least 85. *)
Theorem verdicts_agree (h : Host) (text : string) (body : ApplicantBody)
    (policy : option EligibilityPolicy) :
  exists res,
    verify h text body policy = Some res
    /\ (is_success (summary res) = true <-> proceed ∈ recommendedActions res)
    /\ (proceed ∈ recommendedActions res
        <-> forallb passed (validationChecks res ++ eligibilityChecks res) = true
            /\ 85 <= overallConfidence res).
Proof.
  destruct (verify_result h text body policy)
    as (d & res & _ & Hres & _ & _ & _ & _ & Ha & Hs).
  exists res. split; [exact Hres|].
  pose proof (actions_cases (validationChecks res) (eligibilityChecks res)
                (overallConfidence res)) as (_ & _ & Hp & _).
  rewrite <- Ha in Hp. split; [|exact Hp].
  rewrite Hs, summary_cases, Hp, andb_true_iff, Z.leb_le. done.
Qed.

(** X24.  An application is let through only on a valid zone: when the
    recommended actions hold the permission to proceed, the text had
    candidate lines and they made a valid zone.  A document read by the
    heuristics alone has the overall confidence 76 and is never let
    through. *)
Theorem proceed_needs_valid_zone (h : Host) (text : string) (body : ApplicantBody)
    (policy : option EligibilityPolicy) :
  exists res,
    verify h text body policy = Some res
    /\ (proceed ∈ recommendedActions res ->
        extractMRZ text <> []
        /\ exists r, MRZValidator.validateMRZ (extractMRZ text) = Some r
                     /\ valid r = true).
Proof.
  destruct (verify_result h text body policy)
    as (d & res & Hd & Hres & _ & _ & _ & Hc & Ha & _).
  exists res. split; [exact Hres|]. intros Hp.
  pose proof (actions_cases (validationChecks res) (eligibilityChecks res)
                (overallConfidence res)) as (_ & _ & Hiff & _).
  rewrite <- Ha in Hiff. apply Hiff in Hp as [_ Hge]. rewrite Hc in Hge.
  destruct (overall_confidence_values h text) as (d' & Hd' & Hv).
  rewrite Hd in Hd'. injection Hd' as <-.
  destruct Hv as [[_ H76]|(r & Hne & Hr & Hcr)]; [lia|].
  split; [done|]. exists r. split; [done|].
  destruct (valid r); [done|lia].
Qed.

Lemma default_visa_types_fail (data : ExtractedData) (applicant : ApplicantData) :
  intendedVisaType applicant ∈ ["tourist"; "business"; "student"; "work"] ->
  passed (checkVisaTypeRequirements data applicant defaultEligibilityPolicy) = false.
Proof.
  intros Hin. unfold checkVisaTypeRequirements.
  repeat (apply elem_of_cons in Hin as [->|Hin]; [reflexivity|]).
  by apply elem_of_nil in Hin.
Qed.

(** X25.  Under the built-in policy no request is let through when its visa
    type is tourist, business, student or work, or is missing (it then
    counts as tourist): the visa type check fails for every document,
    so the summary never announces success and the actions never hold
    the permission to proceed. *)
Theorem default_policy_lets_nobody_through (h : Host) (text : string)
    (body : ApplicantBody) :
  or_else (body_intendedVisaType body) "tourist"
    ∈ ["tourist"; "business"; "student"; "work"] ->
  exists res,
    verify h text body None = Some res
    /\ (exists c, c ∈ eligibilityChecks res
                  /\ check c = "Visa Type Requirements" /\ passed c = false)
    /\ is_success (summary res) = false
    /\ (proceed ∉ recommendedActions res).
Proof.
  intros Hvisa.
  destruct (verify_result h text body None)
    as (d & res & _ & Hres & _ & Hv & He & _ & Ha & Hs).
  exists res. split; [exact Hres|].
  assert (Hfail : passed (checkVisaTypeRequirements d (applicant_of body)
                            defaultEligibilityPolicy) = false).
  { by apply default_visa_types_fail. }
  assert (Hall : forallb passed (validationChecks res ++ eligibilityChecks res) = false).
  { rewrite forallb_app, He. unfold checkEligibility. cbn [app forallb default].
    rewrite Hfail. by rewrite !andb_false_r. }
  split; [|split].
  - exists (checkVisaTypeRequirements d (applicant_of body) defaultEligibilityPolicy).
    split; [|split; [|exact Hfail]].
    + rewrite He. unfold checkEligibility. cbn [app default]. do 8 right. left.
    + pose proof (check_names h d (applicant_of body) defaultEligibilityPolicy)
        as [_ Hn].
      unfold checkEligibility in Hn. cbn [app fmap list_fmap] in Hn. by injection Hn.
  - by rewrite Hs, summary_cases, Hall.
  - pose proof (actions_cases (validationChecks res) (eligibilityChecks res)
                  (overallConfidence res)) as (_ & _ & Hiff & _).
    rewrite <- Ha in Hiff. intros [Hp _]%Hiff. congruence.
Qed.

(** A request with no visa type, on the sample text with a valid zone. *)
Lemma default_policy_lets_nobody_through_witness :
  exists res,
    verify Samples.host Samples.no_nationality_text
      {| body_name := Some "Anna Maria Eriksson";
         body_dateOfBirth := Some "1969-08-06";
         body_passportNumber := Some "L898902C";
         body_nationality := Some "FRA";
         body_intendedVisaType := None |} None = Some res
    /\ (exists c, c ∈ eligibilityChecks res
                  /\ check c = "Visa Type Requirements" /\ passed c = false)
    /\ is_success (summary res) = false
    /\ (proceed ∉ recommendedActions res).
Proof.
  refine (default_policy_lets_nobody_through Samples.host Samples.no_nationality_text
            {| body_name := Some "Anna Maria Eriksson";
               body_dateOfBirth := Some "1969-08-06";
               body_passportNumber := Some "L898902C";
               body_nationality := Some "FRA";
               body_intendedVisaType := None |} _).
  left.
Defined.

End RouteProperties.

Module MoreCodecProperties.
Import JS MRZValidator Spec Shape Synthetic MRZFacts CheckDigitFacts CodecFacts
  CodecProperties ExtractorProperties.

Local Opaque JS.substring calculateCheckDigit parseMRZDate JS.index
  strip_filler filler_to_space check_fails length_msg digit_msg split
  name_part trim push_if truthy.

(** The fields of the record of a three-line zone. *)
Lemma validateTD1_fields (l1 l2 l3 : string) (r : MRZResult) :
  validateMRZ [l1; l2; l3] = Some r ->
  pd_documentType (parsedData r) = Some (strip_filler (substring 0 2 l1))
  /\ pd_issuingCountry (parsedData r) = Some (strip_filler (substring 2 5 l1))
  /\ pd_documentNumber (parsedData r) = Some (strip_filler (substring 5 14 l1))
  /\ pd_nationality (parsedData r) = Some (strip_filler (substring 15 18 l2))
  /\ pd_dateOfBirth (parsedData r) = Some (parseMRZDate (substring 0 6 l2))
  /\ pd_sex (parsedData r) = index l2 7
  /\ pd_expiryDate (parsedData r) = Some (parseMRZDate (substring 8 14 l2))
  /\ pd_surname (parsedData r) = Some (name_part (split "<<" (substring 0 30 l3) !! 0%nat))
  /\ pd_givenNames (parsedData r)
     = Some (name_part (split "<<" (substring 0 30 l3) !! 1%nat)).
Proof.
  unfold validateMRZ. cbn. unfold validateTD1. cbn.
  intros [= <-]. cbn. repeat split.
Qed.

(** The names of the record of a two-line zone. *)
Lemma validateTD3_names (l1 l2 : string) (r : MRZResult) :
  validateMRZ [l1; l2] = Some r ->
  exists n0,
    pd_surname (parsedData r) = Some (trim (filler_to_space n0))
    /\ pd_givenNames (parsedData r)
       = Some (name_part (split "<<" (substring 5 44 l1) !! 1%nat)).
Proof.
  unfold validateMRZ. cbn. unfold validateTD3. cbn.
  destruct (split_head "<<" (JS.substring 5 44 l1)) as [n0 ->]. cbn.
  intros [= <-]. cbn. by exists n0.
Qed.

Local Transparent strip_filler filler_to_space name_part trim.

Lemma strip_filler_clean (s : string) : all_chars not_filler (strip_filler s) = true.
Proof.
  unfold strip_filler. induction s as [|c s IH]; [done|].
  cbn [replaceAll]. destruct (is_char "<" c) eqn:E; [exact IH|].
  cbn. unfold not_filler at 1. by rewrite E.
Qed.

Lemma filler_to_space_clean (s : string) :
  all_chars not_filler (filler_to_space s) = true.
Proof.
  unfold filler_to_space. induction s as [|c s IH]; [done|].
  cbn [replaceAll]. destruct (is_char "<" c) eqn:E.
  - change (" " +:+ ?x) with (String " " x). cbn [all_chars]. by rewrite IH.
  - cbn. unfold not_filler at 1. by rewrite E.
Qed.

Lemma trimStart_keeps (p : ascii -> bool) (s : string) :
  all_chars p s = true -> all_chars p (trimStart s) = true.
Proof.
  induction s as [|c s IH]; [done|]. cbn. intros [? ?]%andb_true_iff.
  destruct (is_space c); [by apply IH|]. cbn. by apply andb_true_iff.
Qed.

Lemma trimEnd_keeps (p : ascii -> bool) (s : string) :
  all_chars p s = true -> all_chars p (trimEnd s) = true.
Proof.
  induction s as [|c s IH]; [done|]. cbn [all_chars trimEnd].
  intros [Hc Hs]%andb_true_iff. specialize (IH Hs).
  destruct (trimEnd s).
  - destruct (is_space c); [done|]. cbn. by rewrite Hc.
  - cbn [all_chars] in *. by rewrite Hc.
Qed.

Lemma name_clean (x : string) : all_chars not_filler (trim (filler_to_space x)) = true.
Proof. apply trimEnd_keeps, trimStart_keeps, filler_to_space_clean. Qed.

Lemma name_part_clean (x : option string) : all_chars not_filler (name_part x) = true.
Proof.
  unfold name_part. destruct x as [x|]; [|done]. cbn [fmap option_fmap option_map].
  pose proof (name_clean x) as H. destruct (trim (filler_to_space x)); done.
Qed.

(** X15.  No filler is left in a decoded field: whatever the lines are, the
    document type, the issuing country, the document number, the
    nationality, the surname and the given names of the record hold no
    [<]. *)
Theorem decoded_fields_hold_no_filler (lines : list string) :
  exists r,
    validateMRZ lines = Some r
    /\ clean (pd_documentType (parsedData r))
    /\ clean (pd_issuingCountry (parsedData r))
    /\ clean (pd_documentNumber (parsedData r))
    /\ clean (pd_nationality (parsedData r))
    /\ clean (pd_surname (parsedData r))
    /\ clean (pd_givenNames (parsedData r)).
Proof.
  destruct (validateMRZ_total lines) as [r Hr]. exists r. split; [exact Hr|].
  unfold clean.
  destruct (validateMRZ_dispatch_cases lines) as [(l1 & l2 & ->)|[(l1 & l2 & l3 & ->)|Hf]].
  - pose proof (validateTD3_fields l1 l2 r Hr) as (F1 & F2 & F3 & F4 & _).
    pose proof (validateTD3_names l1 l2 r Hr) as (n0 & F5 & F6).
    rewrite F1, F2, F3, F4, F5, F6.
    repeat split; intros v [= <-];
      first [apply strip_filler_clean | apply name_clean | apply name_part_clean].
  - pose proof (validateTD1_fields l1 l2 l3 r Hr)
      as (F1 & F2 & F3 & F4 & _ & _ & _ & F5 & F6).
    rewrite F1, F2, F3, F4, F5, F6.
    repeat split; intros v [= <-];
      first [apply strip_filler_clean | apply name_clean | apply name_part_clean].
  - rewrite Hf in Hr. injection Hr as <-. repeat split; intros v [=].
Qed.

(** X14.  Round trip of a synthetic three-line zone: with the check digits
    computed for the document number, the date of birth and the expiry
    date written after them, the parser reports no error, the record is
    valid and the fields read back are the ones that were written. *)
Theorem synthetic_td1_round_trip
    (head doc opt1 dob sex_ exp nat_ opt2 line3 : string) :
  String.length head = 5%nat -> String.length doc = 9%nat ->
  String.length opt1 = 15%nat -> String.length dob = 6%nat ->
  String.length sex_ = 1%nat -> String.length exp = 6%nat ->
  String.length nat_ = 3%nat -> String.length opt2 = 12%nat ->
  String.length line3 = 30%nat ->
  exists r,
    validateMRZ [td1_line1 head doc opt1; td1_line2 dob sex_ exp nat_ opt2; line3]
    = Some r
    /\ valid r = true
    /\ errors r = []
    /\ pd_documentNumber (parsedData r) = Some (strip_filler doc)
    /\ pd_nationality (parsedData r) = Some (strip_filler nat_)
    /\ pd_dateOfBirth (parsedData r) = Some (parseMRZDate dob)
    /\ pd_sex (parsedData r) = Some sex_
    /\ pd_expiryDate (parsedData r) = Some (parseMRZDate exp)
    /\ pd_documentNumber (parsedData r) = Some (Layout.without_filler doc)
    /\ pd_nationality (parsedData r) = Some (Layout.without_filler nat_)
    /\ Layout.date_decoded dob (pd_dateOfBirth (parsedData r))
    /\ Layout.date_decoded exp (pd_expiryDate (parsedData r)).
Proof.
  intros Hhead Hdoc Hopt1 Hdob Hsex Hexp Hnat Hopt2 H3.
  explode head Hhead. explode doc Hdoc. explode opt1 Hopt1. explode dob Hdob.
  explode sex_ Hsex. explode exp Hexp. explode nat_ Hnat. explode opt2 Hopt2.
  unfold td1_line1, td1_line2, cd.
  repeat match goal with
         | |- context [of_Z (calculateCheckDigit ?X)] =>
             let c := fresh "c" in
             let E := fresh "E" in
             let D := fresh "D" in
             let V := fresh "V" in
             destruct (of_Z_digit _ (calculateCheckDigit_range X)) as (c & E & D & V);
             rewrite ?E in *; clear E
         end.
  cbv [String.append single] in *.
  match goal with
  | |- context [validateMRZ [?A; ?B; line3]] => set (L1 := A) in *; set (L2 := B) in *
  end.
  destruct (validateTD1_result L1 L2 line3) as (r & Hr & Hv & _ & He).
  pose proof (validateTD1_fields L1 L2 line3 r Hr)
    as (_ & _ & F1 & F2 & F3 & F4 & F5 & _).
  assert (Hno : errors r = []).
  { destruct (errors r) as [|e es]; [done|]. exfalso.
    destruct (He e) as [He' _]. specialize (He' ltac:(left)).
    destruct He' as [[Hl _]|[[Hl _]|[[Hl _]|(what & data & chk & Hin & Hm & _)]]];
      [by apply Hl|by apply Hl|done|].
    unfold td1_checked in Hin.
    repeat (apply elem_of_cons in Hin as [Hin|Hin];
            [injection Hin as -> -> ->;
             first [ rewrite (mismatch_digit _ _ c) in Hm by done
                   | rewrite (mismatch_digit _ _ c0) in Hm by done
                   | rewrite (mismatch_digit _ _ c1) in Hm by done ];
             discriminate Hm|]).
    by apply elem_of_nil in Hin. }
  exists r. split; [exact Hr|]. split; [by apply Hv|]. split; [exact Hno|].
  rewrite <- !ZoneFacts.strip_filler_spec.
  do 4 (split; [assumption|]). split; [assumption|].
  do 2 (split; [assumption|]).
  split; [rewrite F3 | rewrite F5]; apply ZoneFacts.date_is_decoded.
Qed.

(** The fields of an identity card, written and read back. *)
Lemma synthetic_td1_round_trip_witness :
  exists r,
    validateMRZ [td1_line1 "I<UTO" "D23145890" "<<<<<<<<<<<<<<<";
                 td1_line2 "740812" "F" "120415" "UTO" "<<<<<<<<<<<6";
                 "ERIKSSON<<ANNA<MARIA<<<<<<<<<<"]
    = Some r
    /\ valid r = true
    /\ errors r = []
    /\ pd_documentNumber (parsedData r) = Some (strip_filler "D23145890")
    /\ pd_nationality (parsedData r) = Some (strip_filler "UTO")
    /\ pd_dateOfBirth (parsedData r) = Some (parseMRZDate "740812")
    /\ pd_sex (parsedData r) = Some "F"
    /\ pd_expiryDate (parsedData r) = Some (parseMRZDate "120415")
    /\ pd_documentNumber (parsedData r) = Some (Layout.without_filler "D23145890")
    /\ pd_nationality (parsedData r) = Some (Layout.without_filler "UTO")
    /\ Layout.date_decoded "740812" (pd_dateOfBirth (parsedData r))
    /\ Layout.date_decoded "120415" (pd_expiryDate (parsedData r)).
Proof.
  exact (synthetic_td1_round_trip "I<UTO" "D23145890" "<<<<<<<<<<<<<<<"
           "740812" "F" "120415" "UTO" "<<<<<<<<<<<6"
           "ERIKSSON<<ANNA<MARIA<<<<<<<<<<"
           eq_refl eq_refl eq_refl eq_refl eq_refl eq_refl eq_refl eq_refl eq_refl).
Defined.

End MoreCodecProperties.

Module HeuristicProperties.
Import JS Regex Shape Synthetic Checks OCRProcessor RegexFacts FormatFacts
  CheckTheorems CodecProperties ExtractorProperties.

(** X18.  The heuristics for the document type and for the sex always answer
    with a code: one of P, V, I, D and one of M, F, never the empty
    string. *)
Theorem heuristic_codes (text : string) :
  extractDocumentType text ∈ ["P"; "V"; "I"; "D"]
  /\ extractSex text ∈ ["M"; "F"].
Proof.
  split.
  - unfold extractDocumentType.
    repeat match goal with
           | |- context [if ?b then _ else _] => destruct b
           end; set_solver.
  - unfold extractSex.
    repeat match goal with
           | |- context [if ?b then _ else _] => destruct b
           end; set_solver.
Qed.

(** A match of [search] starts at a suffix of the subject. *)
Lemma search_inv_suffix (r : re) prev (s : string) (m : string * list string) :
  search r prev s = Some m ->
  exists pre prev' s',
    s = pre +:+ s'
    /\ run r prev' s' [] (fun _ s'' c => Some (consumed s' s'', c)) = Some m.
Proof.
  revert prev. induction s as [|c s IH]; intros prev; cbn [search].
  - destruct (run r prev EmptyString [] _) eqn:E; [|done].
    intros [= <-]. by exists EmptyString, prev, EmptyString.
  - destruct (run r prev (String c s) [] _) eqn:E.
    + intros [= <-]. by exists EmptyString, prev, (String c s).
    + intros (pre & prev' & s' & -> & H)%IH.
      by exists (String c pre), prev', s'.
Qed.

(** A pattern that starts with at least one digit finds nothing in a
    text without digits. *)
Lemma no_digit_no_match (lo hi : nat) (rest : re) (s : string) :
  (1 <= lo)%nat -> all_chars not_digit s = true ->
  match_ (Seq (Group (Rep (Class is_digit) lo (Some hi))) rest) s = None.
Proof.
  intros Hlo Hs. unfold match_.
  destruct (search _ None s) as [m|] eqn:E; [|done]. exfalso.
  apply search_inv_suffix in E as (pre & prev & s' & -> & E).
  rewrite run_seq, run_group in E.
  apply rep_class_inv in E as (a & b & prev1 & -> & Ha & Hla & _).
  rewrite !all_chars_app in Hs.
  apply andb_true_iff in Hs as [_ [Hs _]%andb_true_iff].
  destruct a as [|c a]; [cbn in Hla; lia|].
  cbn in Ha, Hs. unfold not_digit in Hs. by destruct (is_digit c).
Qed.

Lemma all_chars_rev_string (p : ascii -> bool) (cur : list ascii) :
  forallb p cur = true -> all_chars p (string_of_list_ascii (rev cur)) = true.
Proof.
  intros H. assert (Hr : forallb p (rev cur) = true).
  { rewrite forallb_forall in *. intros x Hx. apply H. by apply in_rev. }
  clear H. induction (rev cur) as [|c l IH]; [done|].
  cbn in *. apply andb_true_iff in Hr as [-> ?]. by apply IH.
Qed.

(** The pieces of a split hold only characters of the subject. *)
Lemma split_go_keeps (p : ascii -> bool) (sep s : string) (skip : nat)
    (cur : list ascii) (piece : string) :
  all_chars p s = true -> forallb p cur = true ->
  piece ∈ split_go sep s skip cur -> all_chars p piece = true.
Proof.
  revert skip cur. induction s as [|c s IH]; intros skip cur Hs Hcur; cbn [split_go].
  - intros ->%list_elem_of_singleton. by apply all_chars_rev_string.
  - cbn in Hs. apply andb_true_iff in Hs as [Hc Hs]. destruct skip as [|k].
    + destruct (String.prefix sep (String c s)).
      * intros [->|Hin]%elem_of_cons; [by apply all_chars_rev_string|].
        by apply (IH (String.length sep - 1)%nat []).
      * apply IH; [done|]. cbn. by rewrite Hc.
    + by apply IH.
Qed.

Lemma date_in_lines_none (keywords lines : list string) :
  (forall line, line ∈ lines -> all_chars not_digit line = true) ->
  date_in_lines keywords lines = None.
Proof.
  induction lines as [|line lines IH]; intros H; [done|].
  cbn [date_in_lines].
  assert (Hl : date_in_line line = None).
  { assert (Hline : all_chars not_digit line = true) by (apply H; left).
    unfold date_in_line, re_dmy, re_iso, between, times.
    rewrite (no_digit_no_match 1 2) by (done || lia).
    by rewrite (no_digit_no_match 4 4) by (done || lia). }
  assert (Hrest : forall l, l ∈ lines -> all_chars not_digit l = true).
  { intros l Hin. apply H. apply elem_of_cons. by right. }
  rewrite Hl, (IH Hrest).
  by destruct (existsb _ _).
Qed.

(** In a text without digits no date is found, whatever the keywords:
    the heuristic answers with the date of today. *)
Lemma extractDate_placeholder (h : Host) (text : string) (keywords : list string) :
  all_chars not_digit text = true ->
  extractDate h text keywords = JSDate.today_iso h.
Proof.
  intros Hs. unfold extractDate.
  rewrite date_in_lines_none.
  - unfold re_iso, times. by rewrite (no_digit_no_match 4 4) by (done || lia).
  - intros line Hin. by apply (split_go_keeps not_digit newline text 0 [] line).
Qed.

(** X19.  The placeholder for a missing date: when the text has no digit and
    no zone record is used, the date of birth, the issue date and the
    expiry date are all the date of today, and the date logic check,
    which wants the date of birth before the issue date, fails. *)
Theorem missing_dates_fail_date_logic (h : Host) (text : string) (c : Z) :
  all_chars not_digit text = true ->
  let d := extractFields h text None c in
  value (dateOfBirth d) = JSDate.today_iso h
  /\ value (issueDate d) = JSDate.today_iso h
  /\ value (expiryDate d) = JSDate.today_iso h
  /\ passed (checkDateLogic h d) = false.
Proof.
  intros Hs. cbn zeta.
  assert (H1 : value (dateOfBirth (extractFields h text None c)) = JSDate.today_iso h).
  { cbn [extractFields dateOfBirth value mbind option_bind or_else].
    by apply extractDate_placeholder. }
  assert (H2 : value (issueDate (extractFields h text None c)) = JSDate.today_iso h).
  { cbn [extractFields issueDate value mbind option_bind or_else].
    by apply extractDate_placeholder. }
  assert (H3 : value (expiryDate (extractFields h text None c)) = JSDate.today_iso h).
  { cbn [extractFields expiryDate value mbind option_bind or_else].
    by apply extractDate_placeholder. }
  repeat split; try done.
  unfold checkDateLogic, try_catch. cbn [default passed]. rewrite H1, H2.
  destruct (JSDate.parse h (JSDate.today_iso h)) as [t|]; [|reflexivity].
  cbn [Num.lt]. by rewrite Z.ltb_irrefl.
Qed.

(** A text with a name and nothing else. *)
Lemma missing_dates_fail_date_logic_witness :
  value (dateOfBirth (extractFields Samples.host "Surname: Smith" None 0))
  = "2026-11-01"
  /\ value (issueDate (extractFields Samples.host "Surname: Smith" None 0))
     = "2026-11-01"
  /\ value (expiryDate (extractFields Samples.host "Surname: Smith" None 0))
     = "2026-11-01"
  /\ passed (checkDateLogic Samples.host
               (extractFields Samples.host "Surname: Smith" None 0)) = false.
Proof.
  exact (missing_dates_fail_date_logic Samples.host "Surname: Smith" 0 eq_refl).
Defined.

End HeuristicProperties.
